(** * The restore engine of the backup-restore operator

    A shallow embedding of [package restore] (the restore controller): the
    archive walk of [generateDependencyGraph], the owner-reference graph of
    [addToOwnersToDependentsList], the queue-driven replay of
    [createFromDependencyGraph], the create-or-update of [restoreResource]
    and the outer handler [OnRestoreChange].

    Go values are modelled as follows.  A [string] is a byte string.  A
    decoded JSON document ([interface{}] after [json.Unmarshal]) is the
    inductive [JSON]; a Go [map[string]T] is a [gmap string T] read with the
    zero value for an absent key; an [error] is [option error] ([None] is
    [nil]); a function returning [(T, error)] returns [result T]; a run-time
    panic is the [Panic] outcome.  Everything behind an interface of the
    handler (file system, dynamic client, REST mapping, encryption) is a
    member of the class [Collaborators]. *)

From Stdlib Require Import Strings.String Strings.Ascii Lists.List Arith.PeanoNat Lia.
From stdpp Require Import base option gmap strings list fin_maps.

Local Open Scope string_scope.
Local Open Scope list_scope.
Local Open Scope nat_scope.
Set Warnings "-register-all".

(** ** Go's [strings] package, for the one-byte separators the code uses *)

Module GoStrings.

(** [strings.HasSuffix] *)
Fixpoint HasSuffix (s suffix : string) : bool :=
  if String.eqb s suffix then true
  else match s with
       | EmptyString => false
       | String _ s' => HasSuffix s' suffix
       end.

(** [strings.TrimSuffix]: [s] without the trailing [suffix], or [s] itself. *)
Definition TrimSuffix (s suffix : string) : string :=
  if HasSuffix s suffix
  then String.substring 0 (String.length s - String.length suffix) s
  else s.

(** [strings.Cut] at the first occurrence of the byte [sep]. *)
Fixpoint Cut (sep : ascii) (s : string) : option (string * string) :=
  match s with
  | EmptyString => None
  | String c s' =>
      if Ascii.eqb c sep then Some (EmptyString, s')
      else match Cut sep s' with
           | Some (a, b) => Some (String c a, b)
           | None => None
           end
  end.

(** [strings.Split(s, sep)]: every piece between occurrences of [sep]. *)
Fixpoint Split (sep : ascii) (s : string) : list string :=
  match s with
  | EmptyString => [EmptyString]
  | String c s' =>
      if Ascii.eqb c sep then EmptyString :: Split sep s'
      else match Split sep s' with
           | h :: t => String c h :: t
           | [] => [String c EmptyString]
           end
  end.

(** [strings.SplitN(s, sep, 2)]: at most two pieces. *)
Definition SplitN2 (sep : ascii) (s : string) : list string :=
  match Cut sep s with
  | Some (a, b) => [a; b]
  | None => [s]
  end.

(** [strings.Count(s, sep)] *)
Definition Count (sep : ascii) (s : string) : nat :=
  List.length (Split sep s) - 1.

(** [strings.Join] *)
Fixpoint Join (elems : list string) (sep : string) : string :=
  match elems with
  | [] => EmptyString
  | [e] => e
  | e :: rest => e +:+ sep +:+ Join rest sep
  end.

End GoStrings.

(** ** [path.Join] and [filepath.Join] (Unix: the two agree) *)

Module Filepath.

Definition slash : ascii := "/"%char.

(** One component of [Clean]: the stack holds the kept components, last
    first. *)
Definition cleanStep (rooted : bool) (stack : list string) (comp : string)
  : list string :=
  if String.eqb comp "" then stack
  else if String.eqb comp "." then stack
  else if String.eqb comp ".." then
    match stack with
    | top :: below =>
        if String.eqb top ".." then comp :: stack else below
    | [] => if rooted then [] else [comp]
    end
  else comp :: stack.

(** [Clean]: the shortest path equivalent to [p] by lexical processing. *)
Definition Clean (p : string) : string :=
  if String.eqb p "" then "."
  else
    let rooted := String.prefix "/" p in
    let stack := fold_left (cleanStep rooted) (GoStrings.Split slash p) [] in
    let body := GoStrings.Join (rev stack) "/" in
    if rooted then "/" +:+ body
    else if String.eqb body "" then "." else body.

(** [Join]: leading empty elements are ignored, the rest is joined with
    the separator and cleaned; all empty gives the empty string. *)
Fixpoint Join (elems : list string) : string :=
  match elems with
  | [] => ""
  | e :: rest =>
      if String.eqb e "" then Join rest
      else Clean (GoStrings.Join elems "/")
  end.

End Filepath.

(** ** Decoded JSON documents

    A number is kept as the literal of the file; Go decodes it to a
    [float64], and no function of the package reads a number. *)

Inductive JSON : Type :=
| JNull
| JBool (b : bool)
| JNumber (repr : string)
| JString (s : string)
| JArray (items : list JSON)
| JObject (fields : list (string * JSON)).

(** A [map[string]interface{}]: keys are unique, the first binding counts. *)
Abbreviation object := (list (string * JSON)).

Fixpoint lookupField (m : object) (k : string) : option JSON :=
  match m with
  | [] => None
  | (k', v) :: rest => if String.eqb k' k then Some v else lookupField rest k
  end.

(** [m[k] = v] *)
Fixpoint setField (m : object) (k : string) (v : JSON) : object :=
  match m with
  | [] => [(k, v)]
  | (k', v') :: rest =>
      if String.eqb k' k then (k, v) :: rest else (k', v') :: setField rest k v
  end.

(** The comma-ok type assertions [x.(map[string]interface{})],
    [x.(string)] and [x.([]interface{})]; an absent key reads as the nil
    interface, on which every assertion fails. *)
Definition asObject (v : option JSON) : option object :=
  match v with Some (JObject m) => Some m | _ => None end.

Definition asString (v : option JSON) : option string :=
  match v with Some (JString s) => Some s | _ => None end.

Definition asArray (v : option JSON) : option (list JSON) :=
  match v with Some (JArray l) => Some l | _ => None end.

Definition metadataMapKey : string := "metadata".
Definition ownerRefsMapKey : string := "ownerReferences".

(** ** Errors, results and panics *)

Inductive error : Type :=
| ErrNotExist (msg : string)        (* [os.IsNotExist] holds *)
| ErrNotFound (msg : string)        (* [apierrors.IsNotFound] holds *)
| ErrPlain (msg : string)           (* [errors.New], [fmt.Errorf] *)
| ErrComposite (errs : list error). (* what [util.ErrList] builds *)

(** [err.Error()] *)
Fixpoint errorString (e : error) : string :=
  match e with
  | ErrNotExist m | ErrNotFound m | ErrPlain m => m
  | ErrComposite es =>
      (fix all (l : list error) : string :=
         match l with
         | [] => ""
         | x :: t => errorString x +:+ ";" +:+ all t
         end) es
  end.

Definition IsNotExist (e : error) : bool :=
  match e with ErrNotExist _ => true | _ => false end.

Definition IsNotFound (e : error) : bool :=
  match e with ErrNotFound _ => true | _ => false end.

(** A Go [(T, error)] result: the value when the error is nil. *)
Abbreviation result A := (sum A error).

(** How a call ends: it returns, or the goroutine panics. *)
Inductive outcome (A : Type) : Type :=
| Done (a : A)
| Panic (msg : string).
Arguments Done {A} a.
Arguments Panic {A} msg.

(** Modelled from the spec: [util.ErrList] of package controllers, absent
    from the sources at hand: the aggregate of the error list, one
    composite error holding every collected error, and nil for an empty
    list. *)
Definition ErrList (errs : list error) : option error :=
  match errs with
  | [] => None
  | _ :: _ => Some (ErrComposite errs)
  end.

(** ** [k8s.io/apimachinery/pkg/runtime/schema] *)

Record GroupVersion := { gvGroup : string; gvVersion : string }.
Record GroupVersionKind :=
  { gvkGroup : string; gvkVersion : string; gvkKind : string }.
Record GroupVersionResource :=
  { Group : string; Version : string; Resource : string }.
Record GroupResource := { grGroup : string; grResource : string }.

Definition WithKind (gv : GroupVersion) (kind : string) : GroupVersionKind :=
  {| gvkGroup := gvGroup gv; gvkVersion := gvVersion gv; gvkKind := kind |}.

Definition WithVersion (gr : GroupResource) (version : string)
  : GroupVersionResource :=
  {| Group := grGroup gr; Version := version; Resource := grResource gr |}.

Definition GVR_GroupResource (gvr : GroupVersionResource) : GroupResource :=
  {| grGroup := Group gvr; grResource := Resource gvr |}.

(** [GroupVersionResource.String] and [GroupVersionKind.String], which
    join the fields into [group/version, Resource=resource] and
    [group/version, Kind=kind]. *)
Definition GVR_String (gvr : GroupVersionResource) : string :=
  Group gvr +:+ "/" +:+ Version gvr +:+ ", Resource=" +:+ Resource gvr.

Definition GVK_String (gvk : GroupVersionKind) : string :=
  gvkGroup gvk +:+ "/" +:+ gvkVersion gvk +:+ ", Kind=" +:+ gvkKind gvk.

(** [schema.ParseGroupVersion]: the empty string and ["/"] give the empty
    group-version, no slash gives a core version, one slash separates
    group and version, more is an error. *)
Definition ParseGroupVersion (gv : string) : result GroupVersion :=
  if String.eqb gv "" || String.eqb gv "/"
  then inl {| gvGroup := ""; gvVersion := "" |}
  else match GoStrings.Count Filepath.slash gv with
       | 0 => inl {| gvGroup := ""; gvVersion := gv |}
       | 1 => match GoStrings.Cut Filepath.slash gv with
              | Some (g, v) => inl {| gvGroup := g; gvVersion := v |}
              | None => inl {| gvGroup := ""; gvVersion := gv |}
              end
       | _ => inr (ErrPlain ("unexpected GroupVersion string: " +:+ gv))
       end.

(** [schema.ParseGroupResource]: cut at the first dot. *)
Definition ParseGroupResource (gr : string) : GroupResource :=
  match GoStrings.Cut "."%char gr with
  | Some (r, g) => {| grGroup := g; grResource := r |}
  | None => {| grGroup := ""; grResource := gr |}
  end.

(** [getGVR] parses the directory name [<resource>.<group>#<version>];
    indexing [gvkParts[1]] panics when the name holds no [#]. *)
Definition getGVR (resourceGVK : string) : outcome GroupVersionResource :=
  match GoStrings.Split "#"%char resourceGVK with
  | gvkParts0 :: version :: _ =>
      let resourceGroup := GoStrings.SplitN2 "."%char gvkParts0 in
      let resource := GoStrings.TrimSuffix (hd "" resourceGroup) "." in
      let group := match resourceGroup with
                   | _ :: g :: _ => g
                   | _ => ""
                   end in
      let gr := ParseGroupResource (resource +:+ "." +:+ group) in
      Done (WithVersion gr version)
  | _ => Panic "index out of range [1] with length 1"
  end.

(** ** The unit of work *)

(** [Data] is a pointer to the decoded document; it is nil in the owner
    objects the graph builder makes up. *)
Record restoreObj := {
  Name : string;
  Namespace : string;
  GVR : GroupVersionResource;
  ResourceConfigPath : string;
  Data : option object
}.

(** [v1.Restore]: the fields of the request the handler reads. *)
Record StorageLocation := {
  Local : string;
  S3 : option string
}.

Record Restore := {
  BackupFilename : string;
  RestoreStorageLocation : option StorageLocation;
  EncryptionConfigName : string;
  Prune : bool;
  DeleteTimeout : nat
}.

(** An entry of [ioutil.ReadDir]. *)
Record dirent := { entryName : string; IsDir : bool }.

(** What the handler does to the outside, in order. *)
Inductive event : Type :=
| EvTempDir (path : string)
| EvLoadFromTarGzip (file dest : string)
| EvDownloadFromS3
| EvRemoveAll (path : string)
| EvRemove (path : string)
| EvPrune
| EvGet (gvr : GroupVersionResource) (namespace name : string)
| EvCreate (gvr : GroupVersionResource) (namespace : string) (obj : object)
| EvUpdate (gvr : GroupVersionResource) (namespace : string) (obj : object)
| EvUpdateStatus (gvr : GroupVersionResource) (namespace : string)
    (obj : object).

(** ** The collaborators of the handler

    The file system, the cluster behind the dynamic client and the REST
    mapping, the JSON decoder and the encryption transformers are outside
    the package.  Reading the file system or the REST mapping does not
    change them; every other call hands back the next state. *)

Class Collaborators := {
  FS : Type;
  Cluster : Type;
  bytes : Type;
  EncryptionConfig : Type;
  (* os, io/ioutil *)
  os_Stat : FS → string → option error;
  ioutil_ReadDir : FS → string → result (list dirent);
  ioutil_ReadFile : FS → string → result bytes;
  ioutil_TempDir : FS → string → FS * result string;
  os_RemoveAll : FS → string → FS * option error;
  os_Remove : FS → string → FS * option error;
  (* package controllers (util) and the S3 download of this package *)
  LoadFromTarGzip : FS → string → string → FS * option error;
  downloadFromS3 : FS → Restore → FS * (string * option error);
  GetEncryptionTransformers :
    EncryptionConfig →
    result (GroupResource → option (bytes → string → result bytes));
  prune :
    FS → Cluster → string → string → nat →
    (GroupResource → option (bytes → string → result bytes)) →
    FS * Cluster * option error;
  (* encoding/json *)
  json_Unmarshal_object : bytes → result object;
  json_Unmarshal_bytes : bytes → result bytes;
  json_Unmarshal_boolmap :
    bytes → gmap string bool → gmap string bool * option error;
  (* the cluster *)
  encryptionConfigs_Get : Cluster → string → string → result EncryptionConfig;
  ResourceForGVK :
    Cluster → GroupVersionKind → result (GroupVersionResource * bool);
  dynamic_Get :
    Cluster → GroupVersionResource → string → string →
    Cluster * result object;
  dynamic_Create :
    Cluster → GroupVersionResource → string → object →
    Cluster * result object;
  dynamic_Update :
    Cluster → GroupVersionResource → string → object →
    Cluster * result object;
  dynamic_UpdateStatus :
    Cluster → GroupVersionResource → string → object →
    Cluster * result object
}.

(** [value.Transformer], through [TransformFromStorage] and the
    additional authenticated data of [value.DefaultContext]. *)
Abbreviation Transformer := (bytes → string → result bytes).
Abbreviation TransformerMap := (GroupResource → option Transformer).

(** The three maps and the list [generateDependencyGraph] fills. *)
Record graph := {
  ownerToDependentsList : gmap string (list restoreObj);
  toRestore : list restoreObj;
  numOwnerReferences : gmap string nat
}.

Definition emptyGraph : graph :=
  {| ownerToDependentsList := ∅; toRestore := []; numOwnerReferences := ∅ |}.

(** Reading a Go map: the zero value for an absent key. *)
Definition count (m : gmap string nat) (k : string) : nat :=
  default 0 (m !! k).

Definition flag (m : gmap string bool) (k : string) : bool :=
  default false (m !! k).

Definition dependentsOf (m : gmap string (list restoreObj)) (k : string)
  : list restoreObj :=
  default [] (m !! k).

Section Engine.
Context `{Collaborators}.

(** *** Reading one archive file *)

(** The file as a decoded document: read, decrypt when the group-resource
    has a transformer, unmarshal. *)
Definition readDocument (fs : FS) (resConfigPath aad : string)
    (decryptionTransformer : option Transformer) : result object :=
  match ioutil_ReadFile fs resConfigPath with
  | inr err => inr err
  | inl resBytes =>
      match decryptionTransformer with
      | None => json_Unmarshal_object resBytes
      | Some transform =>
          match json_Unmarshal_bytes resBytes with
          | inr err => inr err
          | inl encryptedBytes =>
              match transform encryptedBytes aad with
              | inr err => inr err
              | inl decrypted => json_Unmarshal_object decrypted
              end
          end
      end
  end.

(** *** The graph builder *)

(** What one entry of [ownerReferences] comes to in the loop of
    [addToOwnersToDependentsList]. *)
Inductive ownerStep : Type :=
| OwnerSkipped                      (* logged, [continue] *)
| OwnerResolved (ownerObj : restoreObj)
| OwnerFailed (err : error)         (* [return] of an error *)
| OwnerPanicked (msg : string).     (* a failed type assertion *)

(** The directory of a kind in the archive, [fmt.Sprintf("%s.%s#%s")]. *)
Definition ownerDirPathOf (resource apiGroup version : string) : string :=
  resource +:+ "." +:+ apiGroup +:+ "#" +:+ version.

(** [apiGroup] and [version] from [strings.SplitN(groupVersion, "/", 2)]. *)
Definition splitGroupVersion (groupVersion : string) : string * string :=
  match GoStrings.SplitN2 Filepath.slash groupVersion with
  | [v] => ("", v)
  | g :: v :: _ => (g, v)
  | [] => ("", "")
  end.

Definition resolveOwner (cl : Cluster) (backupPath : string)
    (currRestoreObj : restoreObj) (owner : JSON) : ownerStep :=
  match owner with
  | JObject ownerRefData =>
      match asString (lookupField ownerRefData "apiVersion") with
      | None => OwnerPanicked "interface conversion: apiVersion is not string"
      | Some groupVersion =>
          match ParseGroupVersion groupVersion with
          | inr _ => OwnerSkipped
          | inl gv =>
              match asString (lookupField ownerRefData "kind") with
              | None => OwnerPanicked "interface conversion: kind is not string"
              | Some kind =>
                  let gvk := WithKind gv kind in
                  match ResourceForGVK cl gvk with
                  | inr err =>
                      OwnerFailed
                        (ErrPlain ("Error getting resource for gvk "
                                   +:+ GVK_String gvk +:+ ": "
                                   +:+ errorString err))
                  | inl (ownerGVR, isNamespaced) =>
                      let '(apiGroup, version) :=
                        splitGroupVersion groupVersion in
                      let ownerDirPath :=
                        ownerDirPathOf (Resource ownerGVR) apiGroup version in
                      match asString (lookupField ownerRefData "name") with
                      | None =>
                          OwnerPanicked
                            "interface conversion: name is not string"
                      | Some ownerName =>
                          if isNamespaced then
                            let ownerFilename :=
                              Filepath.Join [Namespace currRestoreObj;
                                             ownerName +:+ ".json"] in
                            OwnerResolved
                              {| Name := ownerName;
                                 Namespace := Namespace currRestoreObj;
                                 GVR := ownerGVR;
                                 ResourceConfigPath :=
                                   Filepath.Join [backupPath; ownerDirPath;
                                                  ownerFilename];
                                 Data := None |}
                          else
                            OwnerResolved
                              {| Name := ownerName;
                                 Namespace := "";
                                 GVR := ownerGVR;
                                 ResourceConfigPath :=
                                   Filepath.Join [backupPath; ownerDirPath;
                                                  ownerName +:+ ".json"];
                                 Data := None |}
                      end
                  end
              end
          end
      end
  | _ => OwnerSkipped
  end.

(** [ownerToDependentsList[owner] = append(..., currRestoreObj)] *)
Definition addDependent (deps : gmap string (list restoreObj))
    (ownerPath : string) (currRestoreObj : restoreObj)
  : gmap string (list restoreObj) :=
  match deps !! ownerPath with
  | None => <[ownerPath := [currRestoreObj]]> deps
  | Some ownerObjDependents =>
      <[ownerPath := ownerObjDependents ++ [currRestoreObj]]> deps
  end.

(** The loop over [ownerRefs]: the count of entries seen and the adjacency
    map; an error return leaves the map as far as it got. *)
Fixpoint ownerRefsLoop (cl : Cluster) (backupPath : string)
    (currRestoreObj : restoreObj) (ownerRefs : list JSON) (numOwners : nat)
    (deps : gmap string (list restoreObj))
  : outcome (gmap string (list restoreObj) * result nat) :=
  match ownerRefs with
  | [] => Done (deps, inl numOwners)
  | owner :: rest =>
      let numOwners := S numOwners in
      match resolveOwner cl backupPath currRestoreObj owner with
      | OwnerSkipped =>
          ownerRefsLoop cl backupPath currRestoreObj rest numOwners deps
      | OwnerPanicked msg => Panic msg
      | OwnerFailed err => Done (deps, inr err)
      | OwnerResolved ownerObj =>
          ownerRefsLoop cl backupPath currRestoreObj rest numOwners
            (addDependent deps (ResourceConfigPath ownerObj) currRestoreObj)
      end
  end.

(** The object [addToOwnersToDependentsList] makes of a decoded file. *)
Definition makeRestoreObj (resConfigPath : string) (gvr : GroupVersionResource)
    (fileMap metadata : object) : restoreObj :=
  {| Name := default "" (asString (lookupField metadata "name"));
     Namespace := default "" (asString (lookupField metadata "namespace"));
     GVR := gvr;
     ResourceConfigPath := resConfigPath;
     Data := Some fileMap |}.

Definition addToOwnersToDependentsList (fs : FS) (cl : Cluster)
    (backupPath resConfigPath additionalAuthenticatedData : string)
    (gvr : GroupVersionResource) (decryptionTransformer : option Transformer)
    (g : graph) : outcome (graph * option error) :=
  match readDocument fs resConfigPath additionalAuthenticatedData
          decryptionTransformer with
  | inr err => Done (g, Some err)
  | inl fileMap =>
      match asObject (lookupField fileMap metadataMapKey) with
      | None => Done (g, None)
      | Some metadata =>
          let currRestoreObj :=
            makeRestoreObj resConfigPath gvr fileMap metadata in
          match asArray (lookupField metadata ownerRefsMapKey) with
          | None =>
              Done ({| ownerToDependentsList := ownerToDependentsList g;
                       toRestore := toRestore g ++ [currRestoreObj];
                       numOwnerReferences := numOwnerReferences g |}, None)
          | Some ownerRefs =>
              match ownerRefsLoop cl backupPath currRestoreObj ownerRefs 0
                      (ownerToDependentsList g) with
              | Panic msg => Panic msg
              | Done (deps, inr err) =>
                  Done ({| ownerToDependentsList := deps;
                           toRestore := toRestore g;
                           numOwnerReferences := numOwnerReferences g |},
                        Some err)
              | Done (deps, inl numOwners) =>
                  Done ({| ownerToDependentsList := deps;
                           toRestore := toRestore g;
                           numOwnerReferences :=
                             <[ResourceConfigPath currRestoreObj := numOwners]>
                               (numOwnerReferences g) |}, None)
              end
          end
      end
  end.

(** [for _, x := range xs { if err := body(x); err != nil { return err } }]
    over the graph: the shape of the three loops of
    [generateDependencyGraph]. *)
Fixpoint forEach {A : Type} (body : A → graph → outcome (graph * option error))
    (xs : list A) (g : graph) : outcome (graph * option error) :=
  match xs with
  | [] => Done (g, None)
  | x :: rest =>
      match body x g with
      | Panic msg => Panic msg
      | Done (g', Some err) => Done (g', Some err)
      | Done (g', None) => forEach body rest g'
      end
  end.

(** A file of a namespace subdirectory. *)
Definition namespacedFile (fs : FS) (cl : Cluster)
    (backupPath resourceNamespaceDirPath namespace : string)
    (gvr : GroupVersionResource) (tr : option Transformer)
    (resourceFile : dirent) (g : graph) : outcome (graph * option error) :=
  let resManifestPath :=
    Filepath.Join [resourceNamespaceDirPath; entryName resourceFile] in
  let resourceName := GoStrings.TrimSuffix (entryName resourceFile) ".json" in
  let additionalAuthenticatedData := namespace +:+ "#" +:+ resourceName in
  addToOwnersToDependentsList fs cl backupPath resManifestPath
    additionalAuthenticatedData gvr tr g.

(** An entry of a kind directory: a namespace subdirectory, or the file
    of a cluster-scoped object. *)
Definition resourceDirEntry (fs : FS) (cl : Cluster)
    (backupPath resourceGVK resourceDirPath : string)
    (gvr : GroupVersionResource) (tr : option Transformer)
    (entry : dirent) (g : graph) : outcome (graph * option error) :=
  if IsDir entry then
    let namespace := entryName entry in
    let resourceNamespaceDirPath :=
      Filepath.Join [backupPath; resourceGVK; namespace] in
    match ioutil_ReadDir fs resourceNamespaceDirPath with
    | inr err => Done (g, Some err)
    | inl resourceFiles =>
        forEach (namespacedFile fs cl backupPath resourceNamespaceDirPath
                   namespace gvr tr) resourceFiles g
    end
  else
    let resManifestPath :=
      Filepath.Join [resourceDirPath; entryName entry] in
    let additionalAuthenticatedData :=
      GoStrings.TrimSuffix (entryName entry) ".json" in
    addToOwnersToDependentsList fs cl backupPath resManifestPath
      additionalAuthenticatedData gvr tr g.

(** An entry of the archive root: [filters] is passed over, every other
    name is taken for a kind directory. *)
Definition backupEntryStep (fs : FS) (cl : Cluster) (backupPath : string)
    (transformerMap : TransformerMap) (backupEntry : dirent) (g : graph)
  : outcome (graph * option error) :=
  if String.eqb (entryName backupEntry) "filters" then Done (g, None)
  else
    let resourceGVK := entryName backupEntry in
    let resourceDirPath := Filepath.Join [backupPath; resourceGVK] in
    match getGVR resourceGVK with
    | Panic msg => Panic msg
    | Done gvr =>
        let gr := GVR_GroupResource gvr in
        match ioutil_ReadDir fs resourceDirPath with
        | inr err => Done (g, Some err)
        | inl resourceDirEntries =>
            forEach (resourceDirEntry fs cl backupPath resourceGVK
                       resourceDirPath gvr (transformerMap gr))
              resourceDirEntries g
        end
    end.

Definition generateDependencyGraph (fs : FS) (cl : Cluster)
    (backupPath : string) (transformerMap : TransformerMap) (g : graph)
  : outcome (graph * option error) :=
  match ioutil_ReadDir fs backupPath with
  | inr err => Done (g, Some err)
  | inl backupEntries =>
      forEach (backupEntryStep fs cl backupPath transformerMap)
        backupEntries g
  end.

(** [findResourcesWithStatusSubresource] *)
Definition findResourcesWithStatusSubresource (fs : FS) (backupPath : string)
    (resourcesWithStatusSubresource : gmap string bool)
  : gmap string bool * option error :=
  match ioutil_ReadFile fs
          (Filepath.Join [backupPath; "filters"; "statussubresource.json"])
  with
  | inr err => (resourcesWithStatusSubresource, Some err)
  | inl fileBytes =>
      json_Unmarshal_boolmap fileBytes resourcesWithStatusSubresource
  end.

(** *** The apply executor *)

(** [getOwnerNewUID]: the uid of the live owner. *)
Definition getOwnerNewUID (cl : Cluster) (owner : restoreObj)
  : Cluster * list event * outcome (result string) :=
  let '(cl', got) :=
    dynamic_Get cl (GVR owner) (Namespace owner) (Name owner) in
  let evs := [EvGet (GVR owner) (Namespace owner) (Name owner)] in
  match got with
  | inr err => (cl', evs, Done (inr err))
  | inl ownerObj =>
      match asObject (lookupField ownerObj metadataMapKey) with
      | None => (cl', evs, Panic "interface conversion: metadata is not a map")
      | Some ownerObjMetadata =>
          match asString (lookupField ownerObjMetadata "uid") with
          | None => (cl', evs, Panic "interface conversion: uid is not string")
          | Some ownerObjUID => (cl', evs, Done (inl ownerObjUID))
          end
      end
  end.

(** [updateOwnerRefs]: every entry gets the uid of the live owner.  The
    list is rewritten in place in Go; here the rewritten list is the
    value, and it is dropped on an error as the object is not sent then. *)
Fixpoint updateOwnerRefs (cl : Cluster) (ownerReferences : list JSON)
    (namespace : string)
  : Cluster * list event * outcome (result (list JSON)) :=
  match ownerReferences with
  | [] => (cl, [], Done (inl []))
  | ownerRef :: rest =>
      match ownerRef with
      | JObject reference =>
          let apiversion :=
            default "" (asString (lookupField reference "apiVersion")) in
          let kind := default "" (asString (lookupField reference "kind")) in
          if String.eqb apiversion "" || String.eqb kind "" then
            match updateOwnerRefs cl rest namespace with
            | (cl', evs, Done (inl rest')) =>
                (cl', evs, Done (inl (ownerRef :: rest')))
            | other => other
            end
          else
            match ParseGroupVersion apiversion with
            | inr err =>
                (cl, [],
                 Done (inr (ErrPlain ("err " +:+ errorString err
                                      +:+ " parsing apiversion "
                                      +:+ apiversion))))
            | inl ownerGV =>
                let ownerGVK := WithKind ownerGV kind in
                let name :=
                  default "" (asString (lookupField reference "name")) in
                match ResourceForGVK cl ownerGVK with
                | inr err =>
                    (cl, [],
                     Done (inr (ErrPlain ("error getting resource for gvk "
                                          +:+ GVK_String ownerGVK +:+ ": "
                                          +:+ errorString err))))
                | inl (ownerGVR, isNamespaced) =>
                    let ownerObj :=
                      {| Name := name;
                         Namespace := if isNamespaced then namespace else "";
                         GVR := ownerGVR;
                         ResourceConfigPath := "";
                         Data := None |} in
                    match getOwnerNewUID cl ownerObj with
                    | (cl1, evs1, Panic msg) => (cl1, evs1, Panic msg)
                    | (cl1, evs1, Done (inr err)) =>
                        (cl1, evs1,
                         Done (inr (ErrPlain ("error obtaining new UID for "
                                              +:+ name +:+ ": "
                                              +:+ errorString err))))
                    | (cl1, evs1, Done (inl ownerObjNewUID)) =>
                        let reference' :=
                          setField reference "uid" (JString ownerObjNewUID) in
                        match updateOwnerRefs cl1 rest namespace with
                        | (cl2, evs2, Done (inl rest')) =>
                            (cl2, evs1 ++ evs2,
                             Done (inl (JObject reference' :: rest')))
                        | (cl2, evs2, other) => (cl2, evs1 ++ evs2, other)
                        end
                    end
                end
            end
      | _ => (cl, [], Panic "interface conversion: ownerRef is not a map")
      end
  end.

(** The follow-up write of the status subresource, when asked for. *)
Definition writeStatus (cl : Cluster) (gvr : GroupVersionResource)
    (namespace : string) (hasStatusSubresource : bool) (obj : object)
  : Cluster * list event * option error :=
  if hasStatusSubresource then
    let '(cl', res) := dynamic_UpdateStatus cl gvr namespace obj in
    (cl', [EvUpdateStatus gvr namespace obj],
     match res with
     | inr err =>
         Some (ErrPlain ("restoreResource: err updating status resource "
                         +:+ errorString err))
     | inl _ => None
     end)
  else (cl, [], None).

(** [restoreResource]: rewrite the owner references, then create the
    object, or update it with the live resource version. *)
Definition restoreResource (cl : Cluster) (currRestoreObj : restoreObj)
    (gvr : GroupVersionResource) (hasStatusSubresource : bool)
  : Cluster * list event * outcome (option error) :=
  match Data currRestoreObj with
  | None => (cl, [], Panic "nil pointer dereference")
  | Some fileMap =>
  match asObject (lookupField fileMap metadataMapKey) with
  | None => (cl, [], Panic "interface conversion: metadata is not a map")
  | Some fileMapMetadata =>
  match asString (lookupField fileMapMetadata "name") with
  | None => (cl, [], Panic "interface conversion: name is not string")
  | Some name =>
  let namespace :=
    default "" (asString (lookupField fileMapMetadata "namespace")) in
  let updated :=
    match asArray (lookupField fileMapMetadata ownerRefsMapKey) with
    | None => (cl, [], Done (inl fileMap))
    | Some ownerReferences =>
        match updateOwnerRefs cl ownerReferences namespace with
        | (cl', evs, Done (inl refs')) =>
            (cl', evs,
             Done (inl (setField fileMap metadataMapKey
                          (JObject (setField fileMapMetadata ownerRefsMapKey
                                      (JArray refs'))))))
        | (cl', evs, Done (inr err)) => (cl', evs, Done (inr err))
        | (cl', evs, Panic msg) => (cl', evs, Panic msg)
        end
    end in
  match updated with
  | (cl0, evs0, Panic msg) => (cl0, evs0, Panic msg)
  | (cl0, evs0, Done (inr err)) => (cl0, evs0, Done (Some err))
  | (cl0, evs0, Done (inl obj)) =>
      let '(cl1, got) := dynamic_Get cl0 gvr namespace name in
      let evs1 := evs0 ++ [EvGet gvr namespace name] in
      match got with
      | inr err =>
          if negb (IsNotFound err) then
            (cl1, evs1,
             Done (Some (ErrPlain ("restoreResource: err getting resource "
                                   +:+ errorString err))))
          else
            let '(cl2, made) := dynamic_Create cl1 gvr namespace obj in
            let evs2 := evs1 ++ [EvCreate gvr namespace obj] in
            match made with
            | inr err' => (cl2, evs2, Done (Some err'))
            | inl createdObj =>
                let '(cl3, evs3, serr) :=
                  writeStatus cl2 gvr namespace hasStatusSubresource
                    createdObj in
                (cl3, evs2 ++ evs3, Done serr)
            end
      | inl res =>
          match asObject (lookupField res metadataMapKey) with
          | None =>
              (cl1, evs1, Panic "interface conversion: metadata is not a map")
          | Some resMetadata =>
              match asString (lookupField resMetadata "resourceVersion") with
              | None =>
                  (cl1, evs1,
                   Panic "interface conversion: resourceVersion is not string")
              | Some resourceVersion =>
                  match asObject (lookupField obj metadataMapKey) with
                  | None =>
                      (cl1, evs1,
                       Panic "interface conversion: metadata is not a map")
                  | Some objMetadata =>
                      let obj' :=
                        setField obj metadataMapKey
                          (JObject (setField objMetadata "resourceVersion"
                                      (JString resourceVersion))) in
                      let '(cl2, upd) :=
                        dynamic_Update cl1 gvr namespace obj' in
                      let evs2 := evs1 ++ [EvUpdate gvr namespace obj'] in
                      match upd with
                      | inr err =>
                          (cl2, evs2,
                           Done (Some (ErrPlain
                                         ("restoreResource: err updating resource "
                                          +:+ errorString err))))
                      | inl _ =>
                          let '(cl3, evs3, serr) :=
                            writeStatus cl2 gvr namespace
                              hasStatusSubresource obj' in
                          (cl3, evs2 ++ evs3, Done serr)
                      end
                  end
              end
          end
      end
  end
  end end end.

(** *** The definition installer *)

(** One definition file of [restoreCRDs]. *)
Definition restoreCRDFile (fs : FS) (resourceDirPath : string)
    (gvr : GroupVersionResource) (decryptionTransformer : option Transformer)
    (resFile : dirent) (cl : Cluster) (created : gmap string bool)
  : Cluster * list event * outcome (gmap string bool * option error) :=
  let resConfigPath := Filepath.Join [resourceDirPath; entryName resFile] in
  let crdName := GoStrings.TrimSuffix (entryName resFile) ".json" in
  match readDocument fs resConfigPath crdName decryptionTransformer with
  | inr err => (cl, [], Done (created, Some err))
  | inl crdData =>
      let restoreObjKey :=
        {| Name := crdName; Namespace := ""; GVR := gvr;
           ResourceConfigPath := resConfigPath; Data := Some crdData |} in
      match restoreResource cl restoreObjKey gvr false with
      | (cl', evs, Panic msg) => (cl', evs, Panic msg)
      | (cl', evs, Done (Some err)) =>
          (cl', evs,
           Done (created,
                 Some (ErrPlain ("restoreCRDs: " +:+ errorString err))))
      | (cl', evs, Done None) =>
          (cl', evs, Done (<[resConfigPath := true]> created, None))
      end
  end.

Fixpoint restoreCRDFiles (fs : FS) (resourceDirPath : string)
    (gvr : GroupVersionResource) (decryptionTransformer : option Transformer)
    (dirContents : list dirent) (cl : Cluster) (created : gmap string bool)
  : Cluster * list event * outcome (gmap string bool * option error) :=
  match dirContents with
  | [] => (cl, [], Done (created, None))
  | resFile :: rest =>
      match restoreCRDFile fs resourceDirPath gvr decryptionTransformer
              resFile cl created with
      | (cl1, evs1, Done (created1, None)) =>
          let '(cl2, evs2, out) :=
            restoreCRDFiles fs resourceDirPath gvr decryptionTransformer
              rest cl1 created1 in
          (cl2, evs1 ++ evs2, out)
      | stop => stop
      end
  end.

Fixpoint restoreCRDDirs (fs : FS) (backupPath : string)
    (transformerMap : TransformerMap) (resourceGVKs : list string)
    (cl : Cluster) (created : gmap string bool)
  : Cluster * list event * outcome (gmap string bool * option error) :=
  match resourceGVKs with
  | [] => (cl, [], Done (created, None))
  | resourceGVK :: rest =>
      let resourceDirPath := Filepath.Join [backupPath; resourceGVK] in
      let skip :=
        match os_Stat fs resourceDirPath with
        | Some err => IsNotExist err
        | None => false
        end in
      if skip then restoreCRDDirs fs backupPath transformerMap rest cl created
      else
        match getGVR resourceGVK with
        | Panic msg => (cl, [], Panic msg)
        | Done gvr =>
            let gr := GVR_GroupResource gvr in
            match ioutil_ReadDir fs resourceDirPath with
            | inr err => (cl, [], Done (created, Some err))
            | inl dirContents =>
                match restoreCRDFiles fs resourceDirPath gvr
                        (transformerMap gr) dirContents cl created with
                | (cl1, evs1, Done (created1, None)) =>
                    let '(cl2, evs2, out) :=
                      restoreCRDDirs fs backupPath transformerMap rest cl1
                        created1 in
                    (cl2, evs1 ++ evs2, out)
                | stop => stop
                end
            end
        end
  end.

Definition restoreCRDs (fs : FS) (backupPath : string)
    (transformerMap : TransformerMap) (cl : Cluster)
    (created : gmap string bool)
  : Cluster * list event * outcome (gmap string bool * option error) :=
  restoreCRDDirs fs backupPath transformerMap
    ["customresourcedefinitions.apiextensions.k8s.io#v1";
     "customresourcedefinitions.apiextensions.k8s.io#v1beta1"]
    cl created.

(** *** The replay engine *)

(** One call of [restoreResource] by the replay loop: the object, the
    calls it made on the cluster, and how it ended. *)
Record applyRecord := {
  arObj : restoreObj;
  arEvents : list event;
  arResult : outcome (option error)
}.

(** The variables of [createFromDependencyGraph]; [rsLog] is the history
    of the loop, kept to state properties. *)
Record replayState := {
  rsToRestore : list restoreObj;
  rsCreated : gmap string bool;
  rsNumOwnerReferences : gmap string nat;
  rsErrList : list error;
  rsCountRestored : nat;
  rsCluster : Cluster;
  rsLog : list applyRecord
}.

(** The loop over the dependents of a restored object: take one off the
    count of each, queue those that reach zero. *)
Fixpoint releaseDependents (dependents : list restoreObj)
    (numOwnerReferences : gmap string nat) (toRestore : list restoreObj)
  : gmap string nat * list restoreObj :=
  match dependents with
  | [] => (numOwnerReferences, toRestore)
  | dependent :: rest =>
      let key := ResourceConfigPath dependent in
      let nums1 :=
        if decide (0 < count numOwnerReferences key)
        then <[key := count numOwnerReferences key - 1]> numOwnerReferences
        else numOwnerReferences in
      let queue1 :=
        if decide (count nums1 key = 0) then toRestore ++ [dependent]
        else toRestore in
      releaseDependents rest nums1 queue1
  end.

(** One iteration of [for len(toRestore) > 0]; [None] when the queue is
    empty, and the message of the panic when the iteration panics. *)
Definition replayStep (ownerToDependentsList : gmap string (list restoreObj))
    (resourcesWithStatusSubresource : gmap string bool) (st : replayState)
  : option (replayState * option string) :=
  match rsToRestore st with
  | [] => None
  | curr :: rest =>
      if flag (rsCreated st) (ResourceConfigPath curr) then
        Some ({| rsToRestore := rest; rsCreated := rsCreated st;
                 rsNumOwnerReferences := rsNumOwnerReferences st;
                 rsErrList := rsErrList st;
                 rsCountRestored := rsCountRestored st;
                 rsCluster := rsCluster st; rsLog := rsLog st |}, None)
      else
        let '(cl', evs, res) :=
          restoreResource (rsCluster st) curr (GVR curr)
            (flag resourcesWithStatusSubresource (GVR_String (GVR curr))) in
        let log' :=
          rsLog st ++ [{| arObj := curr; arEvents := evs; arResult := res |}] in
        match res with
        | Panic msg =>
            Some ({| rsToRestore := rest; rsCreated := rsCreated st;
                     rsNumOwnerReferences := rsNumOwnerReferences st;
                     rsErrList := rsErrList st;
                     rsCountRestored := rsCountRestored st;
                     rsCluster := cl'; rsLog := log' |}, Some msg)
        | Done (Some err) =>
            Some ({| rsToRestore := rest; rsCreated := rsCreated st;
                     rsNumOwnerReferences := rsNumOwnerReferences st;
                     rsErrList := rsErrList st ++ [err];
                     rsCountRestored := rsCountRestored st;
                     rsCluster := cl'; rsLog := log' |}, None)
        | Done None =>
            let '(nums', queue') :=
              releaseDependents
                (dependentsOf ownerToDependentsList (ResourceConfigPath curr))
                (rsNumOwnerReferences st) rest in
            Some ({| rsToRestore := queue';
                     rsCreated :=
                       <[ResourceConfigPath curr := true]> (rsCreated st);
                     rsNumOwnerReferences := nums';
                     rsErrList := rsErrList st;
                     rsCountRestored := S (rsCountRestored st);
                     rsCluster := cl'; rsLog := log' |}, None)
        end
  end.

(** How the loop ended. *)
Inductive loopEnd : Type :=
| Drained                 (* the queue is empty *)
| Crashed (msg : string)  (* an iteration panicked *)
| Exhausted.              (* the iterations allowed were used up *)

Fixpoint replayLoop (fuel : nat)
    (ownerToDependentsList : gmap string (list restoreObj))
    (resourcesWithStatusSubresource : gmap string bool) (st : replayState)
  : replayState * loopEnd :=
  match replayStep ownerToDependentsList resourcesWithStatusSubresource st with
  | None => (st, Drained)
  | Some (st', Some msg) => (st', Crashed msg)
  | Some (st', None) =>
      match fuel with
      | 0 => (st, Exhausted)
      | S fuel' =>
          replayLoop fuel' ownerToDependentsList
            resourcesWithStatusSubresource st'
      end
  end.

(** The dependents still to be released: those of the owners not yet in
    [created]. *)
Definition pendingDependents
    (ownerToDependentsList : gmap string (list restoreObj))
    (created : gmap string bool) : nat :=
  map_fold (λ owner dependents acc,
              if flag created owner then acc else length dependents + acc)
    0 ownerToDependentsList.

(** Iterations that always suffice: every iteration takes an object off
    the queue, and only a restored owner adds its dependents, once. *)
Definition replayFuel (ownerToDependentsList : gmap string (list restoreObj))
    (created : gmap string bool) (toRestore : list restoreObj) : nat :=
  pendingDependents ownerToDependentsList created + length toRestore.

Definition initialReplay (created : gmap string bool)
    (numOwnerReferences : gmap string nat) (toRestore : list restoreObj)
    (cl : Cluster) : replayState :=
  {| rsToRestore := toRestore; rsCreated := created;
     rsNumOwnerReferences := numOwnerReferences; rsErrList := [];
     rsCountRestored := 0; rsCluster := cl; rsLog := [] |}.

(** [createFromDependencyGraph]: the final state of the loop and what the
    function returns, [util.ErrList(errList)].  ([numTotalDependents] is
    computed and never read.) *)
Definition createFromDependencyGraph
    (ownerToDependentsList : gmap string (list restoreObj))
    (created : gmap string bool) (numOwnerReferences : gmap string nat)
    (toRestore : list restoreObj)
    (resourcesWithStatusSubresource : gmap string bool) (cl : Cluster)
  : replayState * outcome (option error) :=
  let '(st, e) :=
    replayLoop (replayFuel ownerToDependentsList created toRestore)
      ownerToDependentsList resourcesWithStatusSubresource
      (initialReplay created numOwnerReferences toRestore cl) in
  (st, match e with
       | Drained => Done (ErrList (rsErrList st))
       | Crashed msg => Panic msg
       | Exhausted => Panic "replay did not finish"
       end).

(** The objects a replay applied, in order: the calls that returned nil. *)
Definition appliedObjects (log : list applyRecord) : list restoreObj :=
  omap (λ r, match arResult r with
             | Done None => Some (arObj r)
             | _ => None
             end) log.

(** The calls on the cluster of a replay, in order. *)
Definition logEvents (log : list applyRecord) : list event :=
  concat (map arEvents log).

(** *** The handler *)

(** The error exit that recurs in [OnRestoreChange]: remove the temporary
    directory; a failure to remove it is returned with the error; else
    the error is returned, or raised where the source has [panic(err)]
    before its [return]. *)
Definition removeDirAfter (fs : FS) (backupPath : string) (err : error)
    (panics : bool) : FS * list event * outcome (option error) :=
  let '(fs', removeDirErr) := os_RemoveAll fs backupPath in
  (fs', [EvRemoveAll backupPath],
   match removeDirErr with
   | Some rerr => Done (Some (ErrPlain (errorString err +:+ errorString rerr)))
   | None => if panics then Panic (errorString err) else Done (Some err)
   end).

(** The same exit in the S3 branch, which also removes the downloaded
    file. *)
Definition removeDirAndFileAfter (fs : FS) (backupPath backupFilePath : string)
    (err : error) : FS * list event * outcome (option error) :=
  let '(fs1, removeDirErr) := os_RemoveAll fs backupPath in
  match removeDirErr with
  | Some rerr =>
      (fs1, [EvRemoveAll backupPath],
       Done (Some (ErrPlain (errorString err +:+ errorString rerr))))
  | None =>
      let '(fs2, removeFileErr) := os_Remove fs1 backupFilePath in
      (fs2, [EvRemoveAll backupPath; EvRemove backupFilePath],
       match removeFileErr with
       | Some rerr =>
           Done (Some (ErrPlain (errorString err +:+ errorString rerr)))
       | None => Done (Some err)
       end)
  end.

(** Lines 101 to 140: bring the archive into the temporary directory.
    [Done None] goes on with the restore. *)
Definition fetchArchive (fs : FS) (restore : Restore)
    (backupLocation : StorageLocation) (backupPath : string)
  : FS * list event * outcome (option error) :=
  let backupName := BackupFilename restore in
  if negb (String.eqb (Local backupLocation) "") then
    let backupFilePath := Filepath.Join [Local backupLocation; backupName] in
    let '(fs1, loadErr) := LoadFromTarGzip fs backupFilePath backupPath in
    let evs1 := [EvLoadFromTarGzip backupFilePath backupPath] in
    match loadErr with
    | Some err =>
        let '(fs2, evs2, out) := removeDirAfter fs1 backupPath err false in
        (fs2, evs1 ++ evs2, out)
    | None => (fs1, evs1, Done None)
    end
  else
    match S3 backupLocation with
    | None => (fs, [], Done None)
    | Some _ =>
        let '(fs1, (backupFilePath, dlErr)) := downloadFromS3 fs restore in
        let evs1 := [EvDownloadFromS3] in
        match dlErr with
        | Some err =>
            let '(fs2, evs2, out) :=
              removeDirAndFileAfter fs1 backupPath backupFilePath err in
            (fs2, evs1 ++ evs2, out)
        | None =>
            let '(fs2, loadErr) :=
              LoadFromTarGzip fs1 backupFilePath backupPath in
            let evs2 := evs1 ++ [EvLoadFromTarGzip backupFilePath backupPath] in
            match loadErr with
            | Some err =>
                let '(fs3, evs3, out) :=
                  removeDirAndFileAfter fs2 backupPath backupFilePath err in
                (fs3, evs2 ++ evs3, out)
            | None =>
                let '(fs3, removeFileErr) := os_Remove fs2 backupFilePath in
                let evs3 := evs2 ++ [EvRemove backupFilePath] in
                match removeFileErr with
                | Some _ =>
                    (* [err.Error()] on the nil [err] of the download *)
                    (fs3, evs3, Panic "nil pointer dereference")
                | None => (fs3, evs3, Done None)
                end
            end
        end
    end.

(** Lines 160 to 222: definitions, status set, graph, replay, prune and
    the final removal of the temporary directory. *)
Definition restoreFromArchive (fs : FS) (cl : Cluster) (restore : Restore)
    (backupPath : string) (transformerMap : TransformerMap)
  : FS * Cluster * list event * outcome (option error) :=
  match restoreCRDs fs backupPath transformerMap cl ∅ with
  | (cl1, evs1, Panic msg) => (fs, cl1, evs1, Panic msg)
  | (cl1, evs1, Done (created, Some err)) =>
      let '(fs', evs', out) := removeDirAfter fs backupPath err true in
      (fs', cl1, evs1 ++ evs', out)
  | (cl1, evs1, Done (created, None)) =>
      match findResourcesWithStatusSubresource fs backupPath ∅ with
      | (_, Some err) =>
          let '(fs', evs', out) := removeDirAfter fs backupPath err false in
          (fs', cl1, evs1 ++ evs', out)
      | (resourcesWithStatusSubresource, None) =>
          match generateDependencyGraph fs cl1 backupPath transformerMap
                  emptyGraph with
          | Panic msg => (fs, cl1, evs1, Panic msg)
          | Done (_, Some err) =>
              let '(fs', evs', out) := removeDirAfter fs backupPath err true in
              (fs', cl1, evs1 ++ evs', out)
          | Done (g, None) =>
              let '(st, res) :=
                createFromDependencyGraph (ownerToDependentsList g) created
                  (numOwnerReferences g) (toRestore g)
                  resourcesWithStatusSubresource cl1 in
              let cl2 := rsCluster st in
              let evs2 := evs1 ++ logEvents (rsLog st) in
              match res with
              | Panic msg => (fs, cl2, evs2, Panic msg)
              | Done (Some err) =>
                  let '(fs', evs', out) :=
                    removeDirAfter fs backupPath err true in
                  (fs', cl2, evs2 ++ evs', out)
              | Done None =>
                  let '(fs3, cl3, evs3, pruneErr) :=
                    if Prune restore then
                      let '(fs', cl', perr) :=
                        prune fs cl2
                          (GoStrings.TrimSuffix (BackupFilename restore)
                             ".tar.gz")
                          backupPath (DeleteTimeout restore)
                          transformerMap in
                      (fs', cl', evs2 ++ [EvPrune], perr)
                    else (fs, cl2, evs2, None) in
                  match pruneErr with
                  | Some err =>
                      (fs3, cl3, evs3,
                       Done (Some (ErrPlain ("error pruning during restore: "
                                             +:+ errorString err))))
                  | None =>
                      let '(fs4, removeErr) := os_RemoveAll fs3 backupPath in
                      (fs4, cl3, evs3 ++ [EvRemoveAll backupPath],
                       Done removeErr)
                  end
              end
          end
      end
  end.

(** [OnRestoreChange]: the restore request comes back as it was given,
    with the error. *)
Definition OnRestoreChange (fs : FS) (cl : Cluster) (restore : Restore)
  : FS * Cluster * list event * outcome (Restore * option error) :=
  let backupName := BackupFilename restore in
  let '(fs0, made) :=
    ioutil_TempDir fs (GoStrings.TrimSuffix backupName ".tar.gz") in
  match made with
  | inr err => (fs0, cl, [], Done (restore, Some err))
  | inl backupPath =>
      let evs0 := [EvTempDir backupPath] in
      match RestoreStorageLocation restore with
      | None =>
          (fs0, cl, evs0,
           Done (restore,
                 Some (ErrPlain "Specify backup location during restore")))
      | Some backupLocation =>
          match fetchArchive fs0 restore backupLocation backupPath with
          | (fs1, evs1, Panic msg) => (fs1, cl, evs0 ++ evs1, Panic msg)
          | (fs1, evs1, Done (Some err)) =>
              (fs1, cl, evs0 ++ evs1, Done (restore, Some err))
          | (fs1, evs1, Done None) =>
              let backupPath := GoStrings.TrimSuffix backupPath ".tar.gz" in
              let exit '(fs', evs', out) :=
                (fs', cl, evs0 ++ evs1 ++ evs',
                 match out with
                 | Done e => Done (restore, e)
                 | Panic msg => Panic msg
                 end) in
              match encryptionConfigs_Get cl "default"
                      (EncryptionConfigName restore) with
              | inr err => exit (removeDirAfter fs1 backupPath err false)
              | inl config =>
                  match GetEncryptionTransformers config with
                  | inr err => exit (removeDirAfter fs1 backupPath err false)
                  | inl transformerMap =>
                      let '(fs2, cl2, evs2, out) :=
                        restoreFromArchive fs1 cl restore backupPath
                          transformerMap in
                      (fs2, cl2, evs0 ++ evs1 ++ evs2,
                       match out with
                       | Done e => Done (restore, e)
                       | Panic msg => Panic msg
                       end)
                  end
              end
          end
      end
  end.

End Engine.

(** ** The archive as the graph builder sees it *)

Section Archive.
Context `{Collaborators}.

(** The owner-reference list of an object, when its metadata has one. *)
Definition ownerRefsOf (d : restoreObj) : option (list JSON) :=
  match Data d with
  | Some fileMap =>
      match asObject (lookupField fileMap metadataMapKey) with
      | Some metadata => asArray (lookupField metadata ownerRefsMapKey)
      | None => None
      end
  | None => None
  end.

(** The archive path of the owner an entry resolves to. *)
Definition ownerTarget (cl : Cluster) (backupPath : string) (d : restoreObj)
    (owner : JSON) : option string :=
  match resolveOwner cl backupPath d owner with
  | OwnerResolved ownerObj => Some (ResourceConfigPath ownerObj)
  | _ => None
  end.

(** The archive paths of the owners of an object, one for every entry of
    its owner-reference list that resolves, in order. *)
Definition ownerTargets (cl : Cluster) (backupPath : string) (d : restoreObj)
  : list string :=
  omap (ownerTarget cl backupPath d) (default [] (ownerRefsOf d)).

(** How often the path [k] occurs among the paths [l], and among the
    objects [l]. *)
Definition occurrences (k : string) (l : list string) : nat :=
  length (filter (λ p, p = k) l).

Definition occurrencesOf (k : string) (l : list restoreObj) : nat :=
  length (filter (λ d, ResourceConfigPath d = k) l).

(** The objects of the archive in the order [generateDependencyGraph]
    meets them: one for every file that decodes to a document with a
    metadata map. *)
Definition documentObjects (fs : FS) (resConfigPath aad : string)
    (gvr : GroupVersionResource) (tr : option Transformer)
  : list restoreObj :=
  match readDocument fs resConfigPath aad tr with
  | inl fileMap =>
      match asObject (lookupField fileMap metadataMapKey) with
      | Some metadata => [makeRestoreObj resConfigPath gvr fileMap metadata]
      | None => []
      end
  | inr _ => []
  end.

Definition namespacedFileObjects (fs : FS)
    (resourceNamespaceDirPath namespace : string)
    (gvr : GroupVersionResource) (tr : option Transformer)
    (resourceFile : dirent) : list restoreObj :=
  documentObjects fs
    (Filepath.Join [resourceNamespaceDirPath; entryName resourceFile])
    (namespace +:+ "#"
     +:+ GoStrings.TrimSuffix (entryName resourceFile) ".json")
    gvr tr.

Definition resourceDirEntryObjects (fs : FS)
    (backupPath resourceGVK resourceDirPath : string)
    (gvr : GroupVersionResource) (tr : option Transformer) (entry : dirent)
  : list restoreObj :=
  if IsDir entry then
    let resourceNamespaceDirPath :=
      Filepath.Join [backupPath; resourceGVK; entryName entry] in
    match ioutil_ReadDir fs resourceNamespaceDirPath with
    | inr _ => []
    | inl resourceFiles =>
        flat_map (namespacedFileObjects fs resourceNamespaceDirPath
                    (entryName entry) gvr tr) resourceFiles
    end
  else
    documentObjects fs (Filepath.Join [resourceDirPath; entryName entry])
      (GoStrings.TrimSuffix (entryName entry) ".json") gvr tr.

Definition backupEntryObjects (fs : FS) (backupPath : string)
    (transformerMap : TransformerMap) (backupEntry : dirent)
  : list restoreObj :=
  if String.eqb (entryName backupEntry) "filters" then []
  else
    let resourceGVK := entryName backupEntry in
    let resourceDirPath := Filepath.Join [backupPath; resourceGVK] in
    match getGVR resourceGVK with
    | Panic _ => []
    | Done gvr =>
        match ioutil_ReadDir fs resourceDirPath with
        | inr _ => []
        | inl resourceDirEntries =>
            flat_map (resourceDirEntryObjects fs backupPath resourceGVK
                        resourceDirPath gvr
                        (transformerMap (GVR_GroupResource gvr)))
              resourceDirEntries
        end
    end.

Definition archiveObjects (fs : FS) (backupPath : string)
    (transformerMap : TransformerMap) : list restoreObj :=
  match ioutil_ReadDir fs backupPath with
  | inr _ => []
  | inl backupEntries =>
      flat_map (backupEntryObjects fs backupPath transformerMap) backupEntries
  end.

(** The files of the archive have pairwise different paths. *)
Definition distinctPaths (objs : list restoreObj) : Prop :=
  NoDup (map ResourceConfigPath objs).

(** A call on the cluster that writes. *)
Definition isWrite (e : event) : bool :=
  match e with
  | EvCreate _ _ _ | EvUpdate _ _ _ | EvUpdateStatus _ _ _ | EvPrune => true
  | _ => false
  end.

Definition isStatusWrite (e : event) : bool :=
  match e with
  | EvUpdateStatus _ _ _ => true
  | _ => false
  end.

Definition isRemoveAll (e : event) : bool :=
  match e with
  | EvRemoveAll _ => true
  | _ => false
  end.

(** An owner-reference entry that is a map without a string under
    [apiVersion], or, its [apiVersion] parsed, without a string under
    [kind], or, its kind resolved, without a string under [name]. *)
Definition lacksStringValue (cl : Cluster) (ownerRefData : object) : Prop :=
  asString (lookupField ownerRefData "apiVersion") = None
  ∨ ∃ groupVersion gv,
      asString (lookupField ownerRefData "apiVersion") = Some groupVersion
      ∧ ParseGroupVersion groupVersion = inl gv
      ∧ (asString (lookupField ownerRefData "kind") = None
         ∨ ∃ kind mapping,
             asString (lookupField ownerRefData "kind") = Some kind
             ∧ ResourceForGVK cl (WithKind gv kind) = inl mapping
             ∧ asString (lookupField ownerRefData "name") = None).

(** An entry the loop of the builder gets past: skipped or resolved. *)
Definition passes (cl : Cluster) (backupPath : string) (d : restoreObj)
    (owner : JSON) : Prop :=
  match resolveOwner cl backupPath d owner with
  | OwnerSkipped | OwnerResolved _ => True
  | _ => False
  end.

(** An unpacked archive with nothing in it: no entry in the root, neither
    of the two definition directories, no status-subresource file. *)
Definition emptyArchiveAt (fs : FS) (backupPath : string) : Prop :=
  ioutil_ReadDir fs backupPath = inl []
  ∧ (∀ d, d ∈ ["customresourcedefinitions.apiextensions.k8s.io#v1";
               "customresourcedefinitions.apiextensions.k8s.io#v1beta1"] →
          ∃ e, os_Stat fs (Filepath.Join [backupPath; d]) = Some e
               ∧ IsNotExist e = true)
  ∧ ∃ err, ioutil_ReadFile fs
             (Filepath.Join [backupPath; "filters"; "statussubresource.json"])
           = inr err.

(** What is left to do in a replay: the queue, and the dependents not yet
    released. *)
Definition remaining (deps : gmap string (list restoreObj))
    (st : replayState) : nat :=
  pendingDependents deps (rsCreated st) + length (rsToRestore st).

(** The status subresource of an object of [gvr] was written among the
    calls [evs]. *)
Definition statusWritten (gvr : GroupVersionResource) (evs : list event)
  : Prop :=
  ∃ namespace obj, EvUpdateStatus gvr namespace obj ∈ evs.

(** A call of the replay loop that returned nil wrote the status exactly
    when the set has a true entry for the object. *)
Definition statusMatches (status : gmap string bool) (r : applyRecord)
  : Prop :=
  arResult r = Done None →
  statusWritten (GVR (arObj r)) (arEvents r)
  ↔ status !! GVR_String (GVR (arObj r)) = Some true.

(** The graph of the objects [objs], as the builder leaves it: the queue
    holds objects without an owner list; the dependents lists hold objects
    of the archive, each under an owner path as often as its owner list
    resolves to that path; the count of an object with an owner list is
    the length of that list. *)
Record graphOf (cl : Cluster) (backupPath : string)
    (objs : list restoreObj) (g : graph) : Prop := {
  queued_ownerless :
    ∀ d, d ∈ toRestore g → d ∈ objs ∧ ownerRefsOf d = None;
  dependents_known :
    ∀ P d, d ∈ dependentsOf (ownerToDependentsList g) P → d ∈ objs;
  counted :
    ∀ d refs, d ∈ objs → ownerRefsOf d = Some refs →
      numOwnerReferences g !! ResourceConfigPath d = Some (length refs);
  listed :
    ∀ d P, d ∈ objs →
      occurrencesOf (ResourceConfigPath d)
        (dependentsOf (ownerToDependentsList g) P)
      = occurrences P (ownerTargets cl backupPath d)
}.

(** The paths of the objects a replay applied, in order. *)
Definition appliedPaths (log : list applyRecord) : list string :=
  map ResourceConfigPath (appliedObjects log).

(** The owners of [d] not among the paths [done]. *)
Definition unresolved (cl : Cluster) (backupPath : string)
    (done : list string) (d : restoreObj) : nat :=
  length (filter (λ P, P ∉ done) (ownerTargets cl backupPath d)).

(** An object all of whose owners are among the paths [done]. *)
Definition released (cl : Cluster) (backupPath : string)
    (objs : list restoreObj) (done : list string) (d : restoreObj) : Prop :=
  d ∈ objs ∧ ∀ P, P ∈ ownerTargets cl backupPath d → P ∈ done.

(** What holds of the replay loop at every iteration, for the graph of
    [objs] and the map [created0] the loop started with. *)
Record replayInv (cl : Cluster) (backupPath : string)
    (objs : list restoreObj) (created0 : gmap string bool)
    (st : replayState) : Prop := {
  inv_queue :
    ∀ d, d ∈ rsToRestore st →
      released cl backupPath objs (appliedPaths (rsLog st)) d;
  inv_count :
    ∀ d, d ∈ objs →
      unresolved cl backupPath (appliedPaths (rsLog st)) d
      ≤ count (rsNumOwnerReferences st) (ResourceConfigPath d);
  inv_created :
    ∀ P, P ∈ appliedPaths (rsLog st) → flag (rsCreated st) P = true;
  inv_kept :
    ∀ P, flag created0 P = true → flag (rsCreated st) P = true;
  inv_fresh :
    ∀ P, P ∈ appliedPaths (rsLog st) → flag created0 P = false;
  inv_order :
    ∀ i d, appliedObjects (rsLog st) !! i = Some d →
      d ∈ objs
      ∧ ∀ P, P ∈ ownerTargets cl backupPath d →
          ∃ j a, j < i ∧ appliedObjects (rsLog st) !! j = Some a
                 ∧ ResourceConfigPath a = P
}.

(** The errors the calls of a replay returned, in order. *)
Definition loggedErrors (log : list applyRecord) : list error :=
  omap (λ r, match arResult r with
             | Done (Some err) => Some err
             | _ => None
             end) log.

(** The books of the replay loop, for the map [created0] it started
    with: no path is applied twice; [created] is what it was plus the
    paths applied; no call is made for an object that was created before
    the loop; the count of restored objects is that of the calls that
    returned nil. *)
Record replayBooks (created0 : gmap string bool) (st : replayState)
  : Prop := {
  books_once : NoDup (appliedPaths (rsLog st));
  books_created :
    ∀ P, flag (rsCreated st) P = true
         ↔ flag created0 P = true ∨ P ∈ appliedPaths (rsLog st);
  books_calls :
    ∀ r, r ∈ rsLog st → flag created0 (ResourceConfigPath (arObj r)) = false;
  books_count : rsCountRestored st = length (appliedObjects (rsLog st))
}.

(** The entries of the owner list of [d] that do not resolve to a path:
    those the builder logs and passes over. *)
Definition skippedOwners (cl : Cluster) (backupPath : string)
    (d : restoreObj) : nat :=
  length (default [] (ownerRefsOf d)) - length (ownerTargets cl backupPath d).

(** The counts of the replay loop also cover the entries that were passed
    over: an object that has one is neither queued nor applied. *)
Record replaySlack (cl : Cluster) (backupPath : string)
    (objs : list restoreObj) (st : replayState) : Prop := {
  slack_queue :
    ∀ d, d ∈ rsToRestore st → skippedOwners cl backupPath d = 0;
  slack_count :
    ∀ d, d ∈ objs →
      unresolved cl backupPath (appliedPaths (rsLog st)) d
      + skippedOwners cl backupPath d
      ≤ count (rsNumOwnerReferences st) (ResourceConfigPath d);
  slack_applied :
    ∀ d, d ∈ appliedObjects (rsLog st) → skippedOwners cl backupPath d = 0
}.

(** A read of the cluster. *)
Definition isGet (e : event) : bool :=
  match e with
  | EvGet _ _ _ => true
  | _ => false
  end.

(** The writes one call of [restoreResource] can make on the cluster for
    an object of [gvr]: none; a create or an update; or either followed by
    the write of the status, which is asked for. *)
Inductive applyWrites (gvr : GroupVersionResource)
    (hasStatusSubresource : bool) : list event → Prop :=
| writes_none : applyWrites gvr hasStatusSubresource []
| writes_create (namespace : string) (obj : object) :
    applyWrites gvr hasStatusSubresource [EvCreate gvr namespace obj]
| writes_create_status (namespace : string) (obj createdObj : object) :
    hasStatusSubresource = true →
    applyWrites gvr hasStatusSubresource
      [EvCreate gvr namespace obj; EvUpdateStatus gvr namespace createdObj]
| writes_update (namespace : string) (obj : object) :
    applyWrites gvr hasStatusSubresource [EvUpdate gvr namespace obj]
| writes_update_status (namespace : string) (obj : object) :
    hasStatusSubresource = true →
    applyWrites gvr hasStatusSubresource
      [EvUpdate gvr namespace obj; EvUpdateStatus gvr namespace obj].

(** An owner-reference entry the rewriter passes over: a map whose
    apiVersion or kind is empty, absent or no string. *)
Definition blankEntry (ownerRef : JSON) : Prop :=
  ∃ reference,
    ownerRef = JObject reference
    ∧ (default "" (asString (lookupField reference "apiVersion")) = ""
       ∨ default "" (asString (lookupField reference "kind")) = "").

(** An entry after the rewriter: as it was, or with a new uid. *)
Definition uidRewritten (before after : JSON) : Prop :=
  after = before
  ∨ ∃ reference uid,
      before = JObject reference
      ∧ after = JObject (setField reference "uid" (JString uid)).

(** The files of the definition directories that are there, as
    [restoreCRDs] names them. *)
Definition definitionFiles (fs : FS) (backupPath : string) : list string :=
  flat_map
    (λ resourceGVK,
       let resourceDirPath := Filepath.Join [backupPath; resourceGVK] in
       if match os_Stat fs resourceDirPath with
          | Some err => IsNotExist err
          | None => false
          end
       then []
       else match ioutil_ReadDir fs resourceDirPath with
            | inl dirContents =>
                map (λ resFile,
                       Filepath.Join [resourceDirPath; entryName resFile])
                  dirContents
            | inr _ => []
            end)
    ["customresourcedefinitions.apiextensions.k8s.io#v1";
     "customresourcedefinitions.apiextensions.k8s.io#v1beta1"].

(** The byte [c] does not occur in [s]. *)
Definition lacks (c : ascii) (s : string) : Prop :=
  GoStrings.Cut c s = None.

(** A name of a directory entry: not empty, neither [.] nor [..], and
    without a slash. *)
Definition plainName (s : string) : Prop :=
  s ≠ "" ∧ s ≠ "." ∧ s ≠ ".." ∧ lacks Filepath.slash s.

(** A path that starts at the root. *)
Definition rooted (p : string) : Prop := String.prefix "/" p = true.

(** A call on the cluster through the dynamic client. *)
Definition isClusterCall (e : event) : bool :=
  match e with
  | EvGet _ _ _ | EvCreate _ _ _ | EvUpdate _ _ _ | EvUpdateStatus _ _ _ =>
      true
  | _ => false
  end.

(** An object without an owner list. *)
Definition ownerless (d : restoreObj) : bool :=
  match ownerRefsOf d with
  | None => true
  | Some _ => false
  end.

(** The dependents the objects [objs] give the path [P]: the objects in
    their order, each as often as its owner list resolves to [P]. *)
Definition dependentsAmong (cl : Cluster) (backupPath P : string)
    (objs : list restoreObj) : list restoreObj :=
  flat_map
    (λ d, replicate (occurrences P (ownerTargets cl backupPath d)) d) objs.

(** The queue and the dependents lists of the graph of [objs], as lists:
    this needs no two files to differ. *)
Record graphExact (cl : Cluster) (backupPath : string)
    (objs : list restoreObj) (g : graph) : Prop := {
  exact_queue : toRestore g = List.filter ownerless objs;
  exact_dependents :
    ∀ P, dependentsOf (ownerToDependentsList g) P
         = dependentsAmong cl backupPath P objs
}.

(** The object [d] was created before the loop, or the loop made a call
    of [restoreResource] for it. *)
Definition attempted (created0 : gmap string bool) (log : list applyRecord)
    (d : restoreObj) : Prop :=
  flag created0 (ResourceConfigPath d) = true ∨ ∃ r, r ∈ log ∧ arObj r = d.

(** An object the loop is to take up: it has no owner list, or its list
    has resolving entries and its count is down to zero. *)
Definition ready (cl : Cluster) (backupPath : string)
    (nums : gmap string nat) (d : restoreObj) : Prop :=
  ownerRefsOf d = None
  ∨ (ownerTargets cl backupPath d ≠ []
     ∧ count nums (ResourceConfigPath d) = 0).

(** The counts of the replay loop are exact, and no object that is ready
    is lost: it is in the queue, or it was attempted. *)
Record replayLive (cl : Cluster) (backupPath : string)
    (objs : list restoreObj) (created0 : gmap string bool)
    (st : replayState) : Prop := {
  live_count :
    ∀ d refs, d ∈ objs → ownerRefsOf d = Some refs →
      count (rsNumOwnerReferences st) (ResourceConfigPath d)
      = unresolved cl backupPath (appliedPaths (rsLog st)) d
        + skippedOwners cl backupPath d;
  live_ready :
    ∀ d, d ∈ objs → ready cl backupPath (rsNumOwnerReferences st) d →
      d ∈ rsToRestore st ∨ attempted created0 (rsLog st) d
}.

(** *** The specification's readings that the code departs from *)

(** The base directory of a core-group owner with the dot suppressed,
    [<resource>#<version>]. *)
Definition suppressedDotDir (resource version : string) : string :=
  resource +:+ "#" +:+ version.

(** The key of the status-subresource set written with slashes,
    [group/version/resource]. *)
Definition slashedKey (gvr : GroupVersionResource) : string :=
  Group gvr +:+ "/" +:+ Version gvr +:+ "/" +:+ Resource gvr.

(** The counter of invariant 2: the distinct parents of the
    owner-reference list that are not yet in [Created], a parent whose
    path is not a file of the archive counting for nothing. *)
Definition distinctUnresolvedParents (fs : FS) (created : gmap string bool)
    (targets : list string) : nat :=
  length (List.filter
            (λ p, negb (flag created p)
                  && match ioutil_ReadFile fs p with
                     | inl _ => true
                     | inr _ => false
                     end)
            (remove_dups targets)).

End Archive.

(** ** A small world to run the handler in

    A file system as a map from cleaned paths to nodes, where a stored
    archive unpacks into the nodes it lists; a cluster that stores what is
    created, gives every created object a uid, and refuses objects named
    [broken]; no encryption. *)

Module Scenario.

Inductive node : Type :=
| FileNode (content : JSON)
| DirNode (entries : list dirent)
| TarNode (contents : list (string * node)).

Definition unpack (dest : string) (contents : list (string * node))
    (disk : gmap string node) : gmap string node :=
  fold_left (λ d '(rel, n), <[Filepath.Join [dest; rel] := n]> d)
    contents disk.

Definition objectKey (gvr : GroupVersionResource) (namespace name : string)
  : string :=
  Group gvr +:+ "/" +:+ Version gvr +:+ "/" +:+ Resource gvr +:+ "/"
  +:+ namespace +:+ "/" +:+ name.

Definition nameOf (obj : object) : string :=
  default ""
    (asString (lookupField (default [] (asObject (lookupField obj "metadata")))
                 "name")).

Definition withMetadata (obj : object) (k : string) (v : JSON) : object :=
  setField obj "metadata"
    (JObject (setField (default [] (asObject (lookupField obj "metadata")))
                k v)).

Definition store (cl : gmap string object) (gvr : GroupVersionResource)
    (namespace : string) (obj : object) : gmap string object * result object :=
  (<[objectKey gvr namespace (nameOf obj) := obj]> cl, inl obj).

Definition create (cl : gmap string object) (gvr : GroupVersionResource)
    (namespace : string) (obj : object) : gmap string object * result object :=
  if String.eqb (nameOf obj) "broken"
  then (cl, inr (ErrPlain "admission webhook denied the request"))
  else
    store cl gvr namespace
      (withMetadata
         (withMetadata obj "uid" (JString ("uid-" +:+ nameOf obj)))
         "resourceVersion" (JString "1")).

Definition restMapping (gvk : GroupVersionKind)
  : result (GroupVersionResource * bool) :=
  let to resource namespaced :=
    inl ({| Group := gvkGroup gvk; Version := gvkVersion gvk;
            Resource := resource |}, namespaced) in
  if String.eqb (gvkKind gvk) "Namespace" then to "namespaces" false
  else if String.eqb (gvkKind gvk) "Catalog" then to "catalogs" false
  else if String.eqb (gvkKind gvk) "Template" then to "templates" false
  else if String.eqb (gvkKind gvk) "ConfigMap" then to "configmaps" true
  else if String.eqb (gvkKind gvk) "CustomResourceDefinition"
  then to "customresourcedefinitions" false
  else inr (ErrPlain "no matches for kind").

Fixpoint boolEntries (fields : object) (m : gmap string bool)
  : gmap string bool * option error :=
  match fields with
  | [] => (m, None)
  | (k, JBool b) :: rest => boolEntries rest (<[k := b]> m)
  | _ :: _ => (m, Some (ErrPlain "json: cannot unmarshal into bool"))
  end.

#[export] Instance world : Collaborators := {|
  FS := gmap string node;
  Cluster := gmap string object;
  bytes := JSON;
  EncryptionConfig := unit;
  os_Stat fs p :=
    match fs !! p with
    | Some _ => None
    | None => Some (ErrNotExist "no such file or directory")
    end;
  ioutil_ReadDir fs p :=
    match fs !! p with
    | Some (DirNode entries) => inl entries
    | Some _ => inr (ErrPlain "not a directory")
    | None => inr (ErrNotExist "no such file or directory")
    end;
  ioutil_ReadFile fs p :=
    match fs !! p with
    | Some (FileNode content) => inl content
    | Some _ => inr (ErrPlain "is a directory")
    | None => inr (ErrNotExist "no such file or directory")
    end;
  ioutil_TempDir fs prefix :=
    let p := "/tmp/" +:+ prefix +:+ "123" in
    (<[p := DirNode []]> fs, inl p);
  os_RemoveAll fs p :=
    (filter (λ kv, String.prefix p (fst kv) = false) fs, None);
  os_Remove fs p := (delete p fs, None);
  LoadFromTarGzip fs file dest :=
    match fs !! file with
    | Some (TarNode contents) => (unpack dest contents fs, None)
    | _ => (fs, Some (ErrPlain "cannot open archive"))
    end;
  downloadFromS3 fs _ := (fs, ("", Some (ErrPlain "no object store")));
  GetEncryptionTransformers _ := inl (λ _, None);
  prune fs cl _ _ _ _ := (fs, cl, None);
  json_Unmarshal_object b :=
    match b with
    | JObject m => inl m
    | JNull => inl []   (* [null] leaves a nil map, without error *)
    | _ => inr (ErrPlain "json: cannot unmarshal into map")
    end;
  json_Unmarshal_bytes _ := inr (ErrPlain "json: cannot unmarshal into bytes");
  json_Unmarshal_boolmap b m :=
    match b with
    | JObject fields => boolEntries fields m
    | JNull => (m, None)   (* [null] adds no entry, without error *)
    | _ => (m, Some (ErrPlain "json: cannot unmarshal into map"))
    end;
  encryptionConfigs_Get _ _ _ := inl tt;
  ResourceForGVK _ gvk := restMapping gvk;
  dynamic_Get cl gvr namespace name :=
    (cl, match cl !! objectKey gvr namespace name with
         | Some obj => inl obj
         | None => inr (ErrNotFound "not found")
         end);
  dynamic_Create := create;
  dynamic_Update := store;
  dynamic_UpdateStatus := store
|}.

(** Documents. *)
Definition ownerRef (apiVersion kind name : string) : JSON :=
  JObject [("apiVersion", JString apiVersion); ("kind", JString kind);
           ("name", JString name); ("uid", JString "stale")].

Definition document (apiVersion kind name : string) (more : object) : node :=
  FileNode (JObject [("apiVersion", JString apiVersion);
                     ("kind", JString kind);
                     ("metadata", JObject (("name", JString name) :: more))]).

Definition owners (refs : list JSON) : object :=
  [("ownerReferences", JArray refs)].

Definition file (name : string) : dirent :=
  {| entryName := name; IsDir := false |}.
Definition dir (name : string) : dirent :=
  {| entryName := name; IsDir := true |}.

Definition filtersDir (entries : object) : list (string * node) :=
  [("filters", DirNode [file "statussubresource.json"]);
   ("filters/statussubresource.json", FileNode (JObject entries))].

Definition catalogsDir : string := "catalogs.management.cattle.io#v3".
Definition templatesDir : string := "templates.management.cattle.io#v3".
Definition crdDir : string :=
  "customresourcedefinitions.apiextensions.k8s.io#v1".

(** A disk holding one stored archive, and the request to restore it. *)
Definition diskWith (contents : list (string * node)) : gmap string node :=
  {[ "/backups/backup.tar.gz" := TarNode contents ]}.

Definition request : Restore :=
  {| BackupFilename := "backup.tar.gz";
     RestoreStorageLocation := Some {| Local := "/backups"; S3 := None |};
     EncryptionConfigName := "enc"; Prune := false; DeleteTimeout := 10 |}.

Definition root : string := "/tmp/backup123".

(** The archive on disk after unpacking into [root]. *)
Definition unpacked (contents : list (string * node)) : gmap string node :=
  unpack root contents ∅.

(** Catalog [a], and template [b] owned by [a]. *)
Definition chainArchive : list (string * node) :=
  [("", DirNode [dir catalogsDir; dir "filters"; dir templatesDir]);
   (catalogsDir, DirNode [file "a.json"]);
   (catalogsDir +:+ "/a.json",
    document "management.cattle.io/v3" "Catalog" "a" []);
   (templatesDir, DirNode [file "b.json"]);
   (templatesDir +:+ "/b.json",
    document "management.cattle.io/v3" "Template" "b"
      (owners [ownerRef "management.cattle.io/v3" "Catalog" "a"]))]
  ++ filtersDir [("management.cattle.io/v3, Resource=templates", JBool true)].

(** Definition [widgets], and catalog [w] owned by that definition. *)
Definition definitionArchive : list (string * node) :=
  [("", DirNode [dir catalogsDir; dir crdDir; dir "filters"]);
   (crdDir, DirNode [file "widgets.json"]);
   (crdDir +:+ "/widgets.json",
    document "apiextensions.k8s.io/v1" "CustomResourceDefinition" "widgets" []);
   (catalogsDir, DirNode [file "w.json"]);
   (catalogsDir +:+ "/w.json",
    document "management.cattle.io/v3" "Catalog" "w"
      (owners [ownerRef "apiextensions.k8s.io/v1" "CustomResourceDefinition"
                 "widgets"]))]
  ++ filtersDir [].

(** Catalog [e] with [ownerReferences: []], catalog [p] without the
    field. *)
Definition emptyOwnersArchive : list (string * node) :=
  [("", DirNode [dir catalogsDir; dir "filters"]);
   (catalogsDir, DirNode [file "e.json"; file "p.json"]);
   (catalogsDir +:+ "/e.json",
    document "management.cattle.io/v3" "Catalog" "e" (owners []));
   (catalogsDir +:+ "/p.json",
    document "management.cattle.io/v3" "Catalog" "p" [])]
  ++ filtersDir [].

(** Catalog [a], and template [x] naming [a] twice and a catalog [z]
    that is not in the archive. *)
Definition countingArchive : list (string * node) :=
  [("", DirNode [dir catalogsDir; dir "filters"; dir templatesDir]);
   (catalogsDir, DirNode [file "a.json"]);
   (catalogsDir +:+ "/a.json",
    document "management.cattle.io/v3" "Catalog" "a" []);
   (templatesDir, DirNode [file "x.json"]);
   (templatesDir +:+ "/x.json",
    document "management.cattle.io/v3" "Template" "x"
      (owners [ownerRef "management.cattle.io/v3" "Catalog" "a";
               ownerRef "management.cattle.io/v3" "Catalog" "a";
               ownerRef "management.cattle.io/v3" "Catalog" "z"]))]
  ++ filtersDir [].

(** Catalog [broken], which the cluster refuses, and catalog [fine]. *)
Definition failingArchive : list (string * node) :=
  [("", DirNode [dir catalogsDir; dir "filters"]);
   (catalogsDir, DirNode [file "broken.json"; file "fine.json"]);
   (catalogsDir +:+ "/broken.json",
    document "management.cattle.io/v3" "Catalog" "broken" []);
   (catalogsDir +:+ "/fine.json",
    document "management.cattle.io/v3" "Catalog" "fine" [])]
  ++ filtersDir [].

(** Nothing at all, and nothing but the filters directory. *)
Definition emptyArchive : list (string * node) := [("", DirNode [])].

Definition filtersOnlyArchive : list (string * node) :=
  [("", DirNode [dir "filters"])] ++ filtersDir [].

(** Template [m] whose owner reference has no name. *)
Definition malformedArchive : list (string * node) :=
  [("", DirNode [dir "filters"; dir templatesDir]);
   (templatesDir, DirNode [file "m.json"]);
   (templatesDir +:+ "/m.json",
    document "management.cattle.io/v3" "Template" "m"
      (owners [JObject [("apiVersion", JString "management.cattle.io/v3");
                        ("kind", JString "Catalog")]]))]
  ++ filtersDir [].

(** Config map [c] in namespace [ns1], owned by the namespace. *)
Definition coreArchive : list (string * node) :=
  [("", DirNode [dir "configmaps.#v1"; dir "filters"; dir "namespaces.#v1"]);
   ("namespaces.#v1", DirNode [file "ns1.json"]);
   ("namespaces.#v1/ns1.json", document "v1" "Namespace" "ns1" []);
   ("configmaps.#v1", DirNode [dir "ns1"]);
   ("configmaps.#v1/ns1", DirNode [file "c.json"]);
   ("configmaps.#v1/ns1/c.json",
    document "v1" "ConfigMap" "c"
      [("namespace", JString "ns1");
       ("ownerReferences", JArray [ownerRef "v1" "Namespace" "ns1"])])]
  ++ filtersDir [].

(** The graph built from an unpacked archive, on an empty cluster, and
    the replay of that graph with nothing created before. *)
Definition builtGraph (contents : list (string * node)) : graph :=
  match generateDependencyGraph (unpacked contents) (∅ : gmap string object)
          root (λ _, None) emptyGraph with
  | Done (g, _) => g
  | Panic _ => emptyGraph
  end.

Definition replayOf (contents : list (string * node))
    (created status : gmap string bool) : replayState :=
  (createFromDependencyGraph (ownerToDependentsList (builtGraph contents))
     created (numOwnerReferences (builtGraph contents))
     (toRestore (builtGraph contents)) status
     (∅ : gmap string object)).1.

(** The set of the chain archive: templates have a status subresource. *)
Definition templatesHaveStatus : gmap string bool :=
  {[ "management.cattle.io/v3, Resource=templates" := true ]}.

(** A record that stands for none. *)
Definition noRecord : applyRecord :=
  {| arObj := {| Name := ""; Namespace := "";
                 GVR := {| Group := ""; Version := ""; Resource := "" |};
                 ResourceConfigPath := ""; Data := None |};
     arEvents := []; arResult := Panic "" |}.

(** The objects of an unpacked archive, and an object that stands for
    none. *)
Definition objectsOf (contents : list (string * node)) : list restoreObj :=
  archiveObjects (unpacked contents) root (λ _, None).

Definition noObject : restoreObj := arObj noRecord.

Definition objectAt (contents : list (string * node)) (i : nat)
  : restoreObj :=
  default noObject (objectsOf contents !! i).

(** What [restoreCRDs] leaves in [created] for the definition archive. *)
Definition widgetsCreated : gmap string bool :=
  {[ "/tmp/backup123/customresourcedefinitions.apiextensions.k8s.io#v1/widgets.json"
     := true ]}.

(** Catalog [a], and template [s] owned by [a] through one entry and
    carrying a second entry whose apiVersion does not parse. *)
Definition skippedArchive : list (string * node) :=
  [("", DirNode [dir catalogsDir; dir "filters"; dir templatesDir]);
   (catalogsDir, DirNode [file "a.json"]);
   (catalogsDir +:+ "/a.json",
    document "management.cattle.io/v3" "Catalog" "a" []);
   (templatesDir, DirNode [file "s.json"]);
   (templatesDir +:+ "/s.json",
    document "management.cattle.io/v3" "Template" "s"
      (owners [ownerRef "management.cattle.io/v3" "Catalog" "a";
               ownerRef "management/cattle/io" "Catalog" "a"]))]
  ++ filtersDir [].

(** A cluster that already holds catalog [a], at resource version 7. *)
Definition liveCatalog : object :=
  [("apiVersion", JString "management.cattle.io/v3");
   ("kind", JString "Catalog");
   ("metadata", JObject [("name", JString "a"); ("uid", JString "uid-live");
                         ("resourceVersion", JString "7")])].

Definition catalogsGVR : GroupVersionResource :=
  {| Group := "management.cattle.io"; Version := "v3";
     Resource := "catalogs" |}.

Definition clusterWithCatalog : gmap string object :=
  {[ objectKey catalogsGVR "" "a" := liveCatalog ]}.

(** The archived catalog [a], as the builder makes it. *)
Definition archivedCatalog : restoreObj :=
  {| Name := "a"; Namespace := ""; GVR := catalogsGVR;
     ResourceConfigPath :=
       "/tmp/backup123/catalogs.management.cattle.io#v3/a.json";
     Data := Some [("apiVersion", JString "management.cattle.io/v3");
                   ("kind", JString "Catalog");
                   ("metadata", JObject [("name", JString "a")])] |}.

(** A catalog document without a name. *)
Definition namelessCatalog : restoreObj :=
  {| Name := ""; Namespace := ""; GVR := catalogsGVR;
     ResourceConfigPath :=
       "/tmp/backup123/catalogs.management.cattle.io#v3/n.json";
     Data := Some [("apiVersion", JString "management.cattle.io/v3");
                   ("kind", JString "Catalog");
                   ("metadata", JObject [("labels", JObject [])])] |}.

(** Two definitions, of both versions. *)
Definition twoDefinitionsArchive : list (string * node) :=
  [("", DirNode [dir crdDir;
                 dir "customresourcedefinitions.apiextensions.k8s.io#v1beta1";
                 dir "filters"]);
   (crdDir, DirNode [file "widgets.json"]);
   (crdDir +:+ "/widgets.json",
    document "apiextensions.k8s.io/v1" "CustomResourceDefinition" "widgets" []);
   ("customresourcedefinitions.apiextensions.k8s.io#v1beta1",
    DirNode [file "gadgets.json"]);
   ("customresourcedefinitions.apiextensions.k8s.io#v1beta1/gadgets.json",
    document "apiextensions.k8s.io/v1beta1" "CustomResourceDefinition"
      "gadgets" [])]
  ++ filtersDir [].

(** What [restoreCRDs] leaves in [created] on an empty cluster. *)
Definition installed (contents : list (string * node)) : gmap string bool :=
  match restoreCRDs (unpacked contents) root (λ _, None)
          (∅ : gmap string object) ∅ with
  | (_, _, Done (created, _)) => created
  | _ => ∅
  end.

(** A stray file at the root of the archive. *)
Definition strayArchive : list (string * node) :=
  [("", DirNode [file "README"; dir "filters"])] ++ filtersDir [].

(** The same world with an object store: the download lands in
    [/tmp/download.tar.gz], the removal of a single file is refused, and
    the prune pass fails. *)
Definition flakyWorld : Collaborators := {|
  FS := gmap string node;
  Cluster := gmap string object;
  bytes := JSON;
  EncryptionConfig := unit;
  os_Stat := @os_Stat world;
  ioutil_ReadDir := @ioutil_ReadDir world;
  ioutil_ReadFile := @ioutil_ReadFile world;
  ioutil_TempDir := @ioutil_TempDir world;
  os_RemoveAll := @os_RemoveAll world;
  os_Remove fs _ := (fs, Some (ErrPlain "operation not permitted"));
  LoadFromTarGzip := @LoadFromTarGzip world;
  downloadFromS3 fs _ := (fs, ("/tmp/download.tar.gz", None));
  GetEncryptionTransformers := @GetEncryptionTransformers world;
  prune fs cl _ _ _ _ := (fs, cl, Some (ErrPlain "timed out"));
  json_Unmarshal_object := @json_Unmarshal_object world;
  json_Unmarshal_bytes := @json_Unmarshal_bytes world;
  json_Unmarshal_boolmap := @json_Unmarshal_boolmap world;
  encryptionConfigs_Get := @encryptionConfigs_Get world;
  ResourceForGVK := @ResourceForGVK world;
  dynamic_Get := @dynamic_Get world;
  dynamic_Create := @dynamic_Create world;
  dynamic_Update := @dynamic_Update world;
  dynamic_UpdateStatus := @dynamic_UpdateStatus world
|}.

(** A disk holding a downloaded archive, and requests for the object
    store and for a restore with pruning. *)
Definition downloadedDisk (contents : list (string * node))
  : gmap string node :=
  {[ "/tmp/download.tar.gz" := TarNode contents ]}.

Definition s3Request : Restore :=
  {| BackupFilename := "backup.tar.gz";
     RestoreStorageLocation := Some {| Local := ""; S3 := Some "bucket" |};
     EncryptionConfigName := "enc"; Prune := false; DeleteTimeout := 10 |}.

Definition pruneRequest : Restore :=
  {| BackupFilename := "backup.tar.gz";
     RestoreStorageLocation := Some {| Local := "/backups"; S3 := None |};
     EncryptionConfigName := "enc"; Prune := true; DeleteTimeout := 10 |}.

(** The chain archive with the templates entered in the set under the
    key [group/version/resource]. *)
Definition slashedKeyArchive : list (string * node) :=
  [("", DirNode [dir catalogsDir; dir "filters"; dir templatesDir]);
   (catalogsDir, DirNode [file "a.json"]);
   (catalogsDir +:+ "/a.json",
    document "management.cattle.io/v3" "Catalog" "a" []);
   (templatesDir, DirNode [file "b.json"]);
   (templatesDir +:+ "/b.json",
    document "management.cattle.io/v3" "Template" "b"
      (owners [ownerRef "management.cattle.io/v3" "Catalog" "a"]))]
  ++ filtersDir [("management.cattle.io/v3/templates", JBool true)].

(** The set the handler loads from an unpacked archive. *)
Definition loadedSet (contents : list (string * node)) : gmap string bool :=
  (findResourcesWithStatusSubresource (unpacked contents) root ∅).1.

(** The handler on a stored archive, from an empty cluster. *)
Definition run (contents : list (string * node)) :=
  OnRestoreChange (diskWith contents) (∅ : gmap string object) request.

(** The names of the objects created or updated, in order. *)
Definition written (evs : list event) : list string :=
  omap (λ e, match e with
             | EvCreate _ _ obj | EvUpdate _ _ obj => Some (nameOf obj)
             | _ => None
             end) evs.

End Scenario.

(** * Properties *)

(** ** Go's strings *)

Lemma Split_nonempty (sep : ascii) (s : string) :
  (1 ≤ length (GoStrings.Split sep s))%nat.
Proof.
  induction s as [|c s IH]; simpl; [lia|].
  destruct (Ascii.eqb c sep); simpl; [lia|].
  destruct (GoStrings.Split sep s); simpl in *; lia.
Qed.

Lemma Cut_Some_Split (sep : ascii) (s a b : string) :
  GoStrings.Cut sep s = Some (a, b) → (2 ≤ length (GoStrings.Split sep s))%nat.
Proof.
  revert a b. induction s as [|c s IH]; intros a b; simpl; [discriminate|].
  destruct (Ascii.eqb c sep).
  - intros _. pose proof (Split_nonempty sep s). simpl. lia.
  - destruct (GoStrings.Cut sep s) as [[a' b']|] eqn:Hcut; [|discriminate].
    intros _. specialize (IH a' b' eq_refl).
    destruct (GoStrings.Split sep s); simpl in *; lia.
Qed.

Lemma Count_zero_Cut (sep : ascii) (s : string) :
  GoStrings.Count sep s = 0 → GoStrings.Cut sep s = None.
Proof.
  unfold GoStrings.Count. intros Hc.
  destruct (GoStrings.Cut sep s) as [[a b]|] eqn:Hcut; [|done].
  apply Cut_Some_Split in Hcut. lia.
Qed.

Section Properties.
Context `{Collaborators}.

(** ** The owner directory *)

(** When [schema.ParseGroupVersion] finds no group, the split of the
    handler finds none either, and the same version. *)
Lemma splitGroupVersion_core (groupVersion : string) (gv : GroupVersion) :
  ParseGroupVersion groupVersion = inl gv →
  gvGroup gv = "" →
  splitGroupVersion groupVersion = ("", gvVersion gv).
Proof.
  unfold ParseGroupVersion, splitGroupVersion, GoStrings.SplitN2.
  destruct (String.eqb groupVersion "" || String.eqb groupVersion "/") eqn:He.
  - intros [= <-] _. apply orb_true_iff in He as [He|He];
      apply String.eqb_eq in He; subst; reflexivity.
  - destruct (GoStrings.Count Filepath.slash groupVersion) as [|[|n]] eqn:Hc.
    + intros [= <-] _. rewrite (Count_zero_Cut _ _ Hc). reflexivity.
    + destruct (GoStrings.Cut Filepath.slash groupVersion) as [[g v]|].
      * intros [= <-]. simpl. intros ->. reflexivity.
      * intros [= <-] _. reflexivity.
    + discriminate.
Qed.

(** C4, as the code has it: for an owner-reference entry whose parsed
    group is empty, the parent path is built on the base directory
    [<resource>.#<version>]: the dot between resource and group is kept,
    and the owner file lies under it, below the namespace of the dependent
    when the owner kind is namespaced. *)
Theorem core_owner_directory_keeps_dot
    (cl : Cluster) (backupPath : string) (currRestoreObj : restoreObj)
    (ownerRefData : object) (groupVersion kind ownerName : string)
    (gv : GroupVersion) (ownerGVR : GroupVersionResource)
    (isNamespaced : bool) :
  asString (lookupField ownerRefData "apiVersion") = Some groupVersion →
  ParseGroupVersion groupVersion = inl gv →
  gvGroup gv = "" →
  asString (lookupField ownerRefData "kind") = Some kind →
  ResourceForGVK cl (WithKind gv kind) = inl (ownerGVR, isNamespaced) →
  asString (lookupField ownerRefData "name") = Some ownerName →
  ownerTarget cl backupPath currRestoreObj (JObject ownerRefData)
  = Some (Filepath.Join
            [backupPath;
             Resource ownerGVR +:+ ".#" +:+ gvVersion gv;
             if isNamespaced
             then Filepath.Join [Namespace currRestoreObj;
                                 ownerName +:+ ".json"]
             else ownerName +:+ ".json"]).
Proof.
  intros Hav Hgv Hcore Hkind Hres Hname.
  unfold ownerTarget, resolveOwner.
  rewrite Hav, Hgv, Hkind, Hres, Hname.
  rewrite (splitGroupVersion_core _ _ Hgv Hcore).
  unfold ownerDirPathOf. destruct isNamespaced; reflexivity.
Qed.

End Properties.

(** The entry [v1/Namespace/ns1] of config map [c]: the parent path goes
    through [namespaces.#v1]. *)
Lemma core_owner_directory_keeps_dot_witness :
  ownerTarget (H := Scenario.world) ∅ Scenario.root
    {| Name := "c"; Namespace := "ns1";
       GVR := {| Group := ""; Version := "v1"; Resource := "configmaps" |};
       ResourceConfigPath := "/tmp/backup123/configmaps.#v1/ns1/c.json";
       Data := None |}
    (Scenario.ownerRef "v1" "Namespace" "ns1")
  = Some "/tmp/backup123/namespaces.#v1/ns1.json".
Proof.
  apply (core_owner_directory_keeps_dot (H := Scenario.world)
           ∅ Scenario.root
           {| Name := "c"; Namespace := "ns1";
              GVR := {| Group := ""; Version := "v1";
                        Resource := "configmaps" |};
              ResourceConfigPath :=
                "/tmp/backup123/configmaps.#v1/ns1/c.json";
              Data := None |}
           [("apiVersion", JString "v1"); ("kind", JString "Namespace");
            ("name", JString "ns1"); ("uid", JString "stale")]
           "v1" "Namespace" "ns1"
           {| gvGroup := ""; gvVersion := "v1" |}
           {| Group := ""; Version := "v1"; Resource := "namespaces" |} false);
    reflexivity.
Defined.

(** C4 as the specification words it fails: the parent path of that entry
    is not the one under [namespaces#v1]. *)
Lemma core_owner_directory_dot_not_suppressed :
  ownerTarget (H := Scenario.world) ∅ Scenario.root
    {| Name := "c"; Namespace := "ns1";
       GVR := {| Group := ""; Version := "v1"; Resource := "configmaps" |};
       ResourceConfigPath := "/tmp/backup123/configmaps.#v1/ns1/c.json";
       Data := None |}
    (Scenario.ownerRef "v1" "Namespace" "ns1")
  ≠ Some (Filepath.Join [Scenario.root; suppressedDotDir "namespaces" "v1";
                         "ns1.json"]).
Proof. vm_compute. discriminate. Qed.

Section Builder.
Context `{Collaborators}.

(** ** Malformed owner references *)

Lemma resolveOwner_lacks (cl : Cluster) (backupPath : string)
    (d : restoreObj) (ownerRefData : object) :
  lacksStringValue cl ownerRefData →
  ∃ msg, resolveOwner cl backupPath d (JObject ownerRefData)
         = OwnerPanicked msg.
Proof.
  unfold resolveOwner.
  intros [Hav|(groupVersion & gv & Hav & Hgv & [Hk|(kind & [r ns] & Hk & Hr & Hn)])];
    rewrite Hav; [eauto|rewrite Hgv, Hk..]; [eauto|].
  rewrite Hr. destruct (splitGroupVersion groupVersion). rewrite Hn. eauto.
Qed.

Lemma ownerRefsLoop_cons (cl : Cluster) (backupPath : string)
    (d : restoreObj) (owner : JSON) (rest : list JSON) (numOwners : nat)
    (deps : gmap string (list restoreObj)) :
  ownerRefsLoop cl backupPath d (owner :: rest) numOwners deps
  = match resolveOwner cl backupPath d owner with
    | OwnerSkipped => ownerRefsLoop cl backupPath d rest (S numOwners) deps
    | OwnerPanicked msg => Panic msg
    | OwnerFailed err => Done (deps, inr err)
    | OwnerResolved ownerObj =>
        ownerRefsLoop cl backupPath d rest (S numOwners)
          (addDependent deps (ResourceConfigPath ownerObj) d)
    end.
Proof. reflexivity. Qed.

Lemma ownerRefsLoop_panics (cl : Cluster) (backupPath : string)
    (d : restoreObj) (before after : list JSON) (ownerRefData : object)
    (numOwners : nat) (deps : gmap string (list restoreObj)) :
  Forall (passes cl backupPath d) before →
  lacksStringValue cl ownerRefData →
  ∃ msg, ownerRefsLoop cl backupPath d (before ++ JObject ownerRefData :: after)
           numOwners deps = Panic msg.
Proof.
  intros Hbefore Hlacks. revert numOwners deps.
  induction Hbefore as [|owner before Hpass _ IH]; intros numOwners deps.
  - destruct (resolveOwner_lacks cl backupPath d _ Hlacks) as [msg Hmsg].
    rewrite app_nil_l, ownerRefsLoop_cons, Hmsg. eauto.
  - rewrite <- app_comm_cons, ownerRefsLoop_cons. unfold passes in Hpass.
    destruct (resolveOwner cl backupPath d owner); try done; apply IH.
Qed.

(** C10: an owner-reference entry that is a map lacking a string
    [apiVersion] (or a string [kind] once the apiVersion parsed, or a
    string [name] once the kind resolved) makes
    [addToOwnersToDependentsList] panic on its unchecked type assertion,
    whatever the earlier entries the loop got past: the entry is neither
    skipped nor turned into an error. *)
Theorem malformed_owner_reference_panics
    (fs : FS) (cl : Cluster) (backupPath resConfigPath aad : string)
    (gvr : GroupVersionResource) (tr : option Transformer) (g : graph)
    (fileMap metadata : object) (before after : list JSON)
    (ownerRefData : object) :
  readDocument fs resConfigPath aad tr = inl fileMap →
  asObject (lookupField fileMap metadataMapKey) = Some metadata →
  asArray (lookupField metadata ownerRefsMapKey)
  = Some (before ++ JObject ownerRefData :: after) →
  Forall (passes cl backupPath
            (makeRestoreObj resConfigPath gvr fileMap metadata)) before →
  lacksStringValue cl ownerRefData →
  ∃ msg, addToOwnersToDependentsList fs cl backupPath resConfigPath aad gvr
           tr g = Panic msg.
Proof.
  intros Hdoc Hmeta Hrefs Hbefore Hlacks.
  unfold addToOwnersToDependentsList. rewrite Hdoc, Hmeta, Hrefs.
  destruct (ownerRefsLoop_panics cl backupPath _ before after ownerRefData
              0 (ownerToDependentsList g) Hbefore Hlacks) as [msg ->].
  eauto.
Qed.

(** A panic of the loop body is a panic of the loop. *)
Lemma forEach_panics {A : Type}
    (body : A → graph → outcome (graph * option error))
    (x : A) (rest : list A) (g : graph) (msg : string) :
  body x g = Panic msg → forEach body (x :: rest) g = Panic msg.
Proof. intros Hx. simpl. by rewrite Hx. Qed.

(** ** Empty owner-reference lists *)

(** C5, what the code does: a document whose metadata carries
    [ownerReferences: []] is not appended to [toRestore]; the builder only
    records a count of zero for it, and no owner lists it as a dependent. *)
Theorem empty_owner_list_not_queued
    (fs : FS) (cl : Cluster) (backupPath resConfigPath aad : string)
    (gvr : GroupVersionResource) (tr : option Transformer) (g : graph)
    (fileMap metadata : object) :
  readDocument fs resConfigPath aad tr = inl fileMap →
  asObject (lookupField fileMap metadataMapKey) = Some metadata →
  asArray (lookupField metadata ownerRefsMapKey) = Some [] →
  addToOwnersToDependentsList fs cl backupPath resConfigPath aad gvr tr g
  = Done ({| ownerToDependentsList := ownerToDependentsList g;
             toRestore := toRestore g;
             numOwnerReferences :=
               <[resConfigPath := 0]> (numOwnerReferences g) |}, None).
Proof.
  intros Hdoc Hmeta Hrefs.
  unfold addToOwnersToDependentsList. by rewrite Hdoc, Hmeta, Hrefs.
Qed.

(** The sibling path: without the field the object is queued. *)
Lemma absent_owner_list_queued
    (fs : FS) (cl : Cluster) (backupPath resConfigPath aad : string)
    (gvr : GroupVersionResource) (tr : option Transformer) (g : graph)
    (fileMap metadata : object) :
  readDocument fs resConfigPath aad tr = inl fileMap →
  asObject (lookupField fileMap metadataMapKey) = Some metadata →
  asArray (lookupField metadata ownerRefsMapKey) = None →
  addToOwnersToDependentsList fs cl backupPath resConfigPath aad gvr tr g
  = Done ({| ownerToDependentsList := ownerToDependentsList g;
             toRestore :=
               toRestore g
               ++ [makeRestoreObj resConfigPath gvr fileMap metadata];
             numOwnerReferences := numOwnerReferences g |}, None).
Proof.
  intros Hdoc Hmeta Hrefs.
  unfold addToOwnersToDependentsList. by rewrite Hdoc, Hmeta, Hrefs.
Qed.

End Builder.

(** Template [m] of the malformed archive: its only entry has no name. *)
Lemma malformed_owner_reference_panics_witness :
  ∃ msg,
    addToOwnersToDependentsList (H := Scenario.world)
      (Scenario.unpacked Scenario.malformedArchive) ∅ Scenario.root
      "/tmp/backup123/templates.management.cattle.io#v3/m.json" "m"
      {| Group := "management.cattle.io"; Version := "v3";
         Resource := "templates" |}
      None emptyGraph
    = Panic msg.
Proof.
  eapply (malformed_owner_reference_panics (H := Scenario.world)
            _ _ _ _ _ _ _ _ _ _ [] []
            [("apiVersion", JString "management.cattle.io/v3");
             ("kind", JString "Catalog")]).
  - vm_compute. reflexivity.
  - vm_compute. reflexivity.
  - vm_compute. reflexivity.
  - constructor.
  - right. exists "management.cattle.io/v3",
      {| gvGroup := "management.cattle.io"; gvVersion := "v3" |}.
    split; [reflexivity|]. split; [reflexivity|].
    right. exists "Catalog",
      ({| Group := "management.cattle.io"; Version := "v3";
          Resource := "catalogs" |}, false).
    split; [reflexivity|]. split; reflexivity.
Defined.

(** The whole restore of that archive ends in the panic, the temporary
    directory left behind. *)
Lemma malformed_owner_reference_run_panics :
  let '(_, _, evs, out) := Scenario.run Scenario.malformedArchive in
  out = Panic "interface conversion: name is not string"
  ∧ evs = [EvTempDir "/tmp/backup123";
           EvLoadFromTarGzip "/backups/backup.tar.gz" "/tmp/backup123"].
Proof. vm_compute. split; reflexivity. Qed.

(** Catalog [e] of the archive with [ownerReferences: []]. *)
Lemma empty_owner_list_not_queued_witness :
  ∃ g,
    addToOwnersToDependentsList (H := Scenario.world)
      (Scenario.unpacked Scenario.emptyOwnersArchive) ∅ Scenario.root
      "/tmp/backup123/catalogs.management.cattle.io#v3/e.json" "e"
      {| Group := "management.cattle.io"; Version := "v3";
         Resource := "catalogs" |}
      None emptyGraph
    = Done (g, None) ∧ toRestore g = [].
Proof.
  eexists. split.
  - eapply (empty_owner_list_not_queued (H := Scenario.world));
      vm_compute; reflexivity.
  - reflexivity.
Defined.

(** The restore of that archive succeeds and writes [p] alone: [e] is
    never applied. *)
Lemma empty_owner_list_never_applied :
  let '(_, _, evs, out) := Scenario.run Scenario.emptyOwnersArchive in
  out = Done (Scenario.request, None) ∧ Scenario.written evs = ["p"].
Proof. vm_compute. split; reflexivity. Qed.

Section Handler.
Context `{Collaborators}.

(** ** The temporary directory *)

(** C8, what the code does when the request names no storage location:
    the temporary directory is made, and the handler returns its error
    with no attempt to remove the directory. *)
Theorem missing_location_leaves_temporary_directory
    (fs : FS) (cl : Cluster) (name config : string) (pruneAfter : bool)
    (timeout : nat) :
  let restore :=
    {| BackupFilename := name; RestoreStorageLocation := None;
       EncryptionConfigName := config; Prune := pruneAfter;
       DeleteTimeout := timeout |} in
  match ioutil_TempDir fs (GoStrings.TrimSuffix name ".tar.gz") with
  | (fs0, inl backupPath) =>
      OnRestoreChange fs cl restore
      = (fs0, cl, [EvTempDir backupPath],
         Done (restore,
               Some (ErrPlain "Specify backup location during restore")))
  | (fs0, inr err) =>
      OnRestoreChange fs cl restore = (fs0, cl, [], Done (restore, Some err))
  end.
Proof.
  intros restore. unfold OnRestoreChange. simpl.
  destruct (ioutil_TempDir fs (GoStrings.TrimSuffix name ".tar.gz"))
    as [fs0 [backupPath|err]]; reflexivity.
Qed.

(** ** The empty archive *)

Lemma restoreCRDs_no_directories (fs : FS) (backupPath : string)
    (transformerMap : TransformerMap) (cl : Cluster)
    (created : gmap string bool) :
  emptyArchiveAt fs backupPath →
  restoreCRDs fs backupPath transformerMap cl created
  = (cl, [], Done (created, None)).
Proof.
  intros (_ & Hdirs & _). unfold restoreCRDs.
  destruct (Hdirs "customresourcedefinitions.apiextensions.k8s.io#v1")
    as (e1 & Hs1 & He1); [set_solver|].
  destruct (Hdirs "customresourcedefinitions.apiextensions.k8s.io#v1beta1")
    as (e2 & Hs2 & He2); [set_solver|].
  cbn [restoreCRDDirs]. rewrite Hs1, He1, Hs2, He2. reflexivity.
Qed.

Lemma removeDirAfter_no_write (fs : FS) (backupPath : string) (err : error)
    (panics : bool) :
  Forall (λ e, isWrite e = false)
    (removeDirAfter fs backupPath err panics).1.2.
Proof.
  unfold removeDirAfter. destruct (os_RemoveAll fs backupPath).
  repeat constructor.
Qed.

Lemma removeDirAndFileAfter_no_write (fs : FS)
    (backupPath backupFilePath : string) (err : error) :
  Forall (λ e, isWrite e = false)
    (removeDirAndFileAfter fs backupPath backupFilePath err).1.2.
Proof.
  unfold removeDirAndFileAfter.
  destruct (os_RemoveAll fs backupPath) as [fs1 [rerr|]].
  - repeat constructor.
  - destruct (os_Remove fs1 backupFilePath). repeat constructor.
Qed.

Lemma fetchArchive_no_write (fs : FS) (restore : Restore)
    (backupLocation : StorageLocation) (backupPath : string) :
  Forall (λ e, isWrite e = false)
    (fetchArchive fs restore backupLocation backupPath).1.2.
Proof.
  unfold fetchArchive.
  destruct (negb (String.eqb (Local backupLocation) "")).
  - destruct (LoadFromTarGzip fs _ backupPath) as [fs1 [err|]].
    + pose proof (removeDirAfter_no_write fs1 backupPath err false) as Hrm.
      destruct (removeDirAfter fs1 backupPath err false) as [[fs2 evs2] out].
      simpl in *. by constructor.
    + repeat constructor.
  - destruct (S3 backupLocation); [|constructor].
    destruct (downloadFromS3 fs restore) as [fs1 [backupFilePath [err|]]].
    + pose proof (removeDirAndFileAfter_no_write fs1 backupPath
                    backupFilePath err) as Hrm.
      destruct (removeDirAndFileAfter fs1 backupPath backupFilePath err)
        as [[fs2 evs2] out].
      simpl in *. by constructor.
    + destruct (LoadFromTarGzip fs1 backupFilePath backupPath)
        as [fs2 [err|]].
      * pose proof (removeDirAndFileAfter_no_write fs2 backupPath
                      backupFilePath err) as Hrm.
        destruct (removeDirAndFileAfter fs2 backupPath backupFilePath err)
          as [[fs3 evs3] out].
        simpl in *. by repeat constructor.
      * destruct (os_Remove fs2 backupFilePath) as [fs3 [rerr|]];
          repeat constructor.
Qed.

(** C9, as the code has it: when the unpacked archive is empty (no kind
    directory, no filters directory), the handler applies nothing, removes
    the temporary directory and returns an error: the error of reading
    [filters/statussubresource.json], or, when the removal fails too, the
    text of that error followed by the text of the error of the
    removal. *)
Theorem empty_archive_fails_on_status_set
    (fs : FS) (cl : Cluster) (restore : Restore) (fs0 fs1 : FS)
    (tmp : string) (backupLocation : StorageLocation) (evs1 : list event)
    (config : EncryptionConfig) (transformerMap : TransformerMap)
    (readErr : error) :
  ioutil_TempDir fs (GoStrings.TrimSuffix (BackupFilename restore) ".tar.gz")
  = (fs0, inl tmp) →
  RestoreStorageLocation restore = Some backupLocation →
  fetchArchive fs0 restore backupLocation tmp = (fs1, evs1, Done None) →
  encryptionConfigs_Get cl "default" (EncryptionConfigName restore)
  = inl config →
  GetEncryptionTransformers config = inl transformerMap →
  let backupPath := GoStrings.TrimSuffix tmp ".tar.gz" in
  emptyArchiveAt fs1 backupPath →
  ioutil_ReadFile fs1
    (Filepath.Join [backupPath; "filters"; "statussubresource.json"])
  = inr readErr →
  OnRestoreChange fs cl restore
  = ((os_RemoveAll fs1 backupPath).1, cl,
     [EvTempDir tmp] ++ evs1 ++ [EvRemoveAll backupPath],
     Done (restore,
           Some (match (os_RemoveAll fs1 backupPath).2 with
                 | None => readErr
                 | Some removeDirErr =>
                     ErrPlain (errorString readErr
                               +:+ errorString removeDirErr)
                 end)))
  ∧ Forall (λ e, isWrite e = false) evs1.
Proof.
  intros Htmp Hloc Hfetch Hconfig Htm backupPath Hempty Hread.
  pose proof (fetchArchive_no_write fs0 restore backupLocation tmp) as Hev.
  rewrite Hfetch in Hev. simpl in Hev. split; [|done].
  unfold OnRestoreChange. rewrite Htmp, Hloc, Hfetch, Hconfig, Htm.
  fold backupPath. unfold restoreFromArchive.
  rewrite (restoreCRDs_no_directories _ _ _ _ _ Hempty).
  unfold findResourcesWithStatusSubresource. rewrite Hread.
  unfold removeDirAfter.
  by destruct (os_RemoveAll fs1 backupPath) as [fs2 [rerr|]].
Qed.

(** ** Errors of the replay *)

(** C7, what the code does with the composite error of the replay: once
    the temporary directory is removed the handler raises it as a panic;
    the [return] after the [panic] is never reached. *)
Theorem replay_error_panics_the_handler
    (fs : FS) (cl : Cluster) (restore : Restore) (backupPath : string)
    (transformerMap : TransformerMap) (err : error) :
  let crds := restoreCRDs fs backupPath transformerMap cl ∅ in
  let cl1 := crds.1.1 in
  let status := (findResourcesWithStatusSubresource fs backupPath ∅).1 in
  let built :=
    generateDependencyGraph fs cl1 backupPath transformerMap emptyGraph in
  ∀ created g,
  crds.2 = Done (created, None) →
  (findResourcesWithStatusSubresource fs backupPath ∅).2 = None →
  built = Done (g, None) →
  (createFromDependencyGraph (ownerToDependentsList g) created
     (numOwnerReferences g) (toRestore g) status cl1).2 = Done (Some err) →
  (os_RemoveAll fs backupPath).2 = None →
  (restoreFromArchive fs cl restore backupPath transformerMap).2
  = Panic (errorString err).
Proof.
  intros crds cl1 status built created g Hcrds Hstatus Hbuilt Hreplay Hrm.
  unfold restoreFromArchive. subst crds cl1 status built.
  destruct (restoreCRDs fs backupPath transformerMap cl ∅)
    as [[cl1 evs1] out]. simpl in *. subst out.
  destruct (findResourcesWithStatusSubresource fs backupPath ∅)
    as [status serr]. simpl in *. subst serr.
  rewrite Hbuilt.
  destruct (createFromDependencyGraph _ _ _ _ _ _) as [st res].
  simpl in *. subst res.
  unfold removeDirAfter.
  destruct (os_RemoveAll fs backupPath) as [fs' rerr]. simpl in *.
  subst rerr. reflexivity.
Qed.

End Handler.

(** A request without a storage location in the scenario world: the
    directory [/tmp/backup123] is made and never removed. *)
Lemma missing_location_example :
  OnRestoreChange (H := Scenario.world) ∅ ∅
    {| BackupFilename := "backup.tar.gz"; RestoreStorageLocation := None;
       EncryptionConfigName := "enc"; Prune := false; DeleteTimeout := 10 |}
  = ({[ "/tmp/backup123" := Scenario.DirNode [] ]}, ∅,
     [EvTempDir "/tmp/backup123"],
     Done ({| BackupFilename := "backup.tar.gz";
              RestoreStorageLocation := None;
              EncryptionConfigName := "enc"; Prune := false;
              DeleteTimeout := 10 |},
           Some (ErrPlain "Specify backup location during restore"))).
Proof. vm_compute. reflexivity. Qed.

(** C9 as the specification words it fails: the restore of the empty
    archive returns an error, not success. *)
Lemma empty_archive_returns_error :
  (Scenario.run Scenario.emptyArchive).2
  = Done (Scenario.request, Some (ErrNotExist "no such file or directory"))
  ∧ (Scenario.run Scenario.emptyArchive).2 ≠ Done (Scenario.request, None).
Proof. split; [vm_compute; reflexivity|vm_compute; discriminate]. Qed.

Lemma empty_archive_fails_on_status_set_witness :
  OnRestoreChange (H := Scenario.world)
    (Scenario.diskWith Scenario.emptyArchive) ∅ Scenario.request
  = ((os_RemoveAll (Collaborators := Scenario.world)
        (Scenario.unpack "/tmp/backup123" Scenario.emptyArchive
           (<["/tmp/backup123" := Scenario.DirNode []]>
              (Scenario.diskWith Scenario.emptyArchive)))
        (GoStrings.TrimSuffix "/tmp/backup123" ".tar.gz")).1,
     ∅,
     [EvTempDir "/tmp/backup123"]
     ++ [EvLoadFromTarGzip "/backups/backup.tar.gz" "/tmp/backup123"]
     ++ [EvRemoveAll (GoStrings.TrimSuffix "/tmp/backup123" ".tar.gz")],
     Done (Scenario.request,
           Some (match (os_RemoveAll (Collaborators := Scenario.world)
                          (Scenario.unpack "/tmp/backup123"
                             Scenario.emptyArchive
                             (<["/tmp/backup123" := Scenario.DirNode []]>
                                (Scenario.diskWith Scenario.emptyArchive)))
                          (GoStrings.TrimSuffix "/tmp/backup123"
                             ".tar.gz")).2 with
                 | None => ErrNotExist "no such file or directory"
                 | Some removeDirErr =>
                     ErrPlain (errorString
                                 (ErrNotExist "no such file or directory")
                               +:+ errorString removeDirErr)
                 end)))
  ∧ Forall (λ e, isWrite e = false)
      [EvLoadFromTarGzip "/backups/backup.tar.gz" "/tmp/backup123"].
Proof.
  apply (empty_archive_fails_on_status_set (H := Scenario.world)
           (Scenario.diskWith Scenario.emptyArchive) ∅ Scenario.request
           (<["/tmp/backup123" := Scenario.DirNode []]>
              (Scenario.diskWith Scenario.emptyArchive))
           (Scenario.unpack "/tmp/backup123" Scenario.emptyArchive
              (<["/tmp/backup123" := Scenario.DirNode []]>
                 (Scenario.diskWith Scenario.emptyArchive)))
           "/tmp/backup123" {| Local := "/backups"; S3 := None |}
           [EvLoadFromTarGzip "/backups/backup.tar.gz" "/tmp/backup123"]
           tt (λ _, None) (ErrNotExist "no such file or directory")).
  - reflexivity.
  - reflexivity.
  - vm_compute. reflexivity.
  - reflexivity.
  - reflexivity.
  - split; [vm_compute; reflexivity|]. split.
    + intros d Hd. exists (ErrNotExist "no such file or directory").
      apply list_elem_of_In in Hd.
      destruct Hd as [<-|[<-|[]]]; split; vm_compute; reflexivity.
    + exists (ErrNotExist "no such file or directory").
      vm_compute. reflexivity.
  - vm_compute. reflexivity.
Defined.

(** The archive with catalog [broken]: the replay collects the refusal,
    goes on to apply [fine], and the handler panics with the composite. *)
Lemma replay_error_panics_the_handler_witness :
  (restoreFromArchive (H := Scenario.world)
     (Scenario.unpacked Scenario.failingArchive) ∅ Scenario.request
     Scenario.root (λ _, None)).2
  = Panic (errorString
             (ErrComposite
                [ErrPlain "admission webhook denied the request"])).
Proof.
  eapply (replay_error_panics_the_handler (H := Scenario.world)
            (Scenario.unpacked Scenario.failingArchive) ∅ Scenario.request
            Scenario.root (λ _, None)).
  - vm_compute. reflexivity.
  - vm_compute. reflexivity.
  - vm_compute. reflexivity.
  - vm_compute. reflexivity.
  - vm_compute. reflexivity.
Defined.

Lemma replay_error_run_panics :
  let '(_, _, evs, out) := Scenario.run Scenario.failingArchive in
  out = Panic "admission webhook denied the request;"
  ∧ Scenario.written evs = ["broken"; "fine"].
Proof. vm_compute. split; reflexivity. Qed.

Section Replay.
Context `{Collaborators}.

(** ** The replay loop ends *)

Lemma pendingDependents_empty (created : gmap string bool) :
  pendingDependents ∅ created = 0.
Proof. apply map_fold_empty. Qed.

Lemma pendingDependents_insert (deps : gmap string (list restoreObj))
    (created : gmap string bool) (owner : string) (l : list restoreObj) :
  deps !! owner = None →
  pendingDependents (<[owner := l]> deps) created
  = if flag created owner then pendingDependents deps created
    else length l + pendingDependents deps created.
Proof.
  intros Hnone. unfold pendingDependents.
  rewrite map_fold_insert_L; [done| |done].
  intros k1 k2 l1 l2 acc _ _ _.
  destruct (flag created k1), (flag created k2); lia.
Qed.

(** Marking an owner as created takes its dependents off the pending
    ones. *)
Lemma pendingDependents_created (deps : gmap string (list restoreObj))
    (created : gmap string bool) (owner : string) :
  flag created owner = false →
  pendingDependents deps (<[owner := true]> created)
  + length (dependentsOf deps owner)
  = pendingDependents deps created.
Proof.
  intros Hfresh.
  induction deps as [|k l deps Hnone IH] using map_ind.
  - rewrite !pendingDependents_empty. unfold dependentsOf.
    by rewrite lookup_empty.
  - rewrite !pendingDependents_insert by done.
    unfold dependentsOf, flag in *.
    destruct (decide (k = owner)) as [->|Hne].
    + rewrite !lookup_insert_eq, Hnone in *. simpl in *.
      rewrite Hfresh. lia.
    + rewrite !lookup_insert_ne by done.
      destruct (default false (created !! k)); lia.
Qed.

Lemma releaseDependents_length (dependents : list restoreObj)
    (nums : gmap string nat) (queue : list restoreObj) :
  length (releaseDependents dependents nums queue).2
  ≤ length queue + length dependents.
Proof.
  revert nums queue.
  induction dependents as [|d rest IH]; intros nums queue; simpl; [lia|].
  etrans; [apply IH|].
  destruct (decide (count _ _ = 0)); rewrite ?length_app; simpl; lia.
Qed.

Lemma replayStep_remaining (deps : gmap string (list restoreObj))
    (status : gmap string bool) (st st' : replayState) :
  replayStep deps status st = Some (st', None) →
  remaining deps st' < remaining deps st.
Proof.
  unfold replayStep, remaining.
  destruct (rsToRestore st) as [|curr rest] eqn:Hq; [done|].
  destruct (flag (rsCreated st) (ResourceConfigPath curr)) eqn:Hc.
  - intros [= <-]. simpl. lia.
  - destruct (restoreResource _ _ _ _) as [[cl' evs] [[err|]|msg]].
    + intros [= <-]. simpl. lia.
    + pose proof (releaseDependents_length
                    (dependentsOf deps (ResourceConfigPath curr))
                    (rsNumOwnerReferences st) rest) as Hlen.
      destruct (releaseDependents _ _ _) as [nums' queue'].
      intros [= <-]. simpl in *.
      pose proof (pendingDependents_created deps _ _ Hc). lia.
    + done.
Qed.

Lemma replayLoop_ends (deps : gmap string (list restoreObj))
    (status : gmap string bool) (fuel : nat) (st : replayState) :
  remaining deps st ≤ fuel →
  (replayLoop fuel deps status st).2 ≠ Exhausted.
Proof.
  revert st. induction fuel as [|fuel IH]; intros st Hfuel.
  - simpl. destruct (replayStep deps status st) as [[st' [msg|]]|] eqn:Hstep;
      [done| |done].
    apply replayStep_remaining in Hstep. lia.
  - simpl. destruct (replayStep deps status st) as [[st' [msg|]]|] eqn:Hstep;
      [done| |done].
    apply replayStep_remaining in Hstep. apply IH. lia.
Qed.

(** X25: [createFromDependencyGraph] always comes to an end: it returns
    the aggregate of the errors it collected, with the queue empty, or it
    stops in the panic of an apply. *)
Theorem createFromDependencyGraph_ends
    (deps : gmap string (list restoreObj)) (created : gmap string bool)
    (nums : gmap string nat) (toRestore : list restoreObj)
    (status : gmap string bool) (cl : Cluster) :
  let '(st, res) :=
    createFromDependencyGraph deps created nums toRestore status cl in
  (res = Done (ErrList (rsErrList st)) ∧ rsToRestore st = [])
  ∨ (∃ msg, res = Panic msg
            ∧ ∃ r, last (rsLog st) = Some r ∧ arResult r = Panic msg).
Proof.
  unfold createFromDependencyGraph.
  pose proof (replayLoop_ends deps status (replayFuel deps created toRestore)
                (initialReplay created nums toRestore cl)) as Hends.
  specialize (Hends ltac:(unfold remaining, replayFuel; simpl; lia)).
  generalize dependent (initialReplay created nums toRestore cl).
  generalize (replayFuel deps created toRestore).
  intros fuel. induction fuel as [|fuel IH]; intros st0; simpl.
  - unfold replayStep.
    destruct (rsToRestore st0) as [|curr rest] eqn:Hq; [by left|].
    destruct (flag _ _); [done|].
    destruct (restoreResource _ _ _ _) as [[cl' evs] [[err|]|msg]];
      [done| |].
    + destruct (releaseDependents _ _ _). done.
    + intros _. right. exists msg. split; [done|]. eexists. simpl.
      rewrite last_snoc. done.
  - unfold replayStep at 1 2.
    destruct (rsToRestore st0) as [|curr rest] eqn:Hq; [by left|].
    destruct (flag _ _); [apply IH|].
    destruct (restoreResource _ _ _ _) as [[cl' evs] [[err|]|msg]];
      [apply IH| |].
    + destruct (releaseDependents _ _ _). apply IH.
    + intros _. right. exists msg. split; [done|]. eexists. simpl.
      rewrite last_snoc. done.
Qed.

End Replay.

Section StatusSubresource.
Context `{Collaborators}.

(** ** The status-subresource write *)

Lemma getOwnerNewUID_no_status (cl : Cluster) (owner : restoreObj) :
  Forall (λ e, isStatusWrite e = false) (getOwnerNewUID cl owner).1.2.
Proof.
  unfold getOwnerNewUID. destruct (dynamic_Get _ _ _ _) as [cl' [obj|err]].
  - repeat case_match; repeat constructor.
  - repeat constructor.
Qed.

Lemma updateOwnerRefs_no_status (cl : Cluster) (refs : list JSON)
    (namespace : string) :
  Forall (λ e, isStatusWrite e = false)
    (updateOwnerRefs cl refs namespace).1.2.
Proof.
  revert cl. induction refs as [|ownerRef rest IH]; intros cl; simpl;
    [constructor|].
  destruct ownerRef; try constructor.
  destruct (_ || _).
  - specialize (IH cl).
    destruct (updateOwnerRefs cl rest namespace) as [[cl' evs] [[l|e]|m]];
      done.
  - destruct (ParseGroupVersion _); [|constructor].
    destruct (ResourceForGVK _ _) as [[gvr ns]|]; [|constructor].
    match goal with
    | |- context [getOwnerNewUID ?c ?o] =>
        pose proof (getOwnerNewUID_no_status c o) as Huid;
        destruct (getOwnerNewUID c o) as [[cl1 evs1] [[uid|e]|m]]
    end; simpl in *; try done.
    specialize (IH cl1).
    destruct (updateOwnerRefs cl1 rest namespace) as [[cl2 evs2] [[l|e]|m]];
      simpl in *; by apply Forall_app.
Qed.

(** A call of [restoreResource] that returns nil made its calls in two
    parts: none that writes a status, then the status write when asked. *)
Lemma restoreResource_events (cl cl' : Cluster) (d : restoreObj)
    (gvr : GroupVersionResource) (hasStatusSubresource : bool)
    (evs : list event) :
  restoreResource cl d gvr hasStatusSubresource = (cl', evs, Done None) →
  ∃ before namespace obj,
    Forall (λ e, isStatusWrite e = false) before
    ∧ evs = before ++ (if hasStatusSubresource
                       then [EvUpdateStatus gvr namespace obj] else []).
Proof.
  unfold restoreResource, writeStatus. intros Hr.
  destruct hasStatusSubresource.
  all: repeat case_match; simplify_eq.
  all: try match goal with
      | Hu : updateOwnerRefs ?c ?l ?n = _ |- _ =>
          pose proof (updateOwnerRefs_no_status c l n) as Hno;
          rewrite Hu in Hno; simpl in Hno
      end.
  all: first [ eexists _, "", []; split; [|reflexivity]
             | do 3 eexists; split; [|reflexivity] ].
  all: repeat (apply Forall_app; split); repeat constructor; done.
Qed.

Lemma restoreResource_status (cl cl' : Cluster) (d : restoreObj)
    (gvr : GroupVersionResource) (hasStatusSubresource : bool)
    (evs : list event) :
  restoreResource cl d gvr hasStatusSubresource = (cl', evs, Done None) →
  statusWritten gvr evs ↔ hasStatusSubresource = true.
Proof.
  intros Hr.
  destruct (restoreResource_events _ _ _ _ _ _ Hr)
    as (before & namespace & obj & Hbefore & ->).
  unfold statusWritten. split.
  - intros (ns & o & Hin). apply elem_of_app in Hin as [Hin|Hin].
    + rewrite Forall_forall in Hbefore. by apply Hbefore in Hin.
    + destruct hasStatusSubresource; [done|]. by apply elem_of_nil in Hin.
  - intros ->. exists namespace, obj. apply elem_of_app. right.
    apply list_elem_of_singleton. done.
Qed.

Lemma flag_true (m : gmap string bool) (k : string) :
  flag m k = true ↔ m !! k = Some true.
Proof. unfold flag. destruct (m !! k) as [[]|]; simpl; naive_solver. Qed.

Lemma replayStep_status (deps : gmap string (list restoreObj))
    (status : gmap string bool) (st st' : replayState) (e : option string) :
  replayStep deps status st = Some (st', e) →
  Forall (statusMatches status) (rsLog st) →
  Forall (statusMatches status) (rsLog st').
Proof.
  unfold replayStep. intros Hstep Hlog.
  destruct (rsToRestore st) as [|curr rest]; [done|].
  destruct (flag (rsCreated st) _); [by simplify_eq|].
  destruct (restoreResource _ _ _ _) as [[cl' evs] res] eqn:Hr.
  assert (statusMatches status
            {| arObj := curr; arEvents := evs; arResult := res |}) as Hnew.
  { unfold statusMatches. simpl. intros ->.
    rewrite (restoreResource_status _ _ _ _ _ _ Hr). apply flag_true. }
  destruct res as [[err|]|msg]; [| |];
    try destruct (releaseDependents _ _ _);
    simplify_eq; simpl; apply Forall_app; split; try done;
    by apply Forall_singleton.
Qed.

Lemma replayLoop_status (deps : gmap string (list restoreObj))
    (status : gmap string bool) (fuel : nat) (st : replayState) :
  Forall (statusMatches status) (rsLog st) →
  Forall (statusMatches status) (rsLog (replayLoop fuel deps status st).1).
Proof.
  revert st. induction fuel as [|fuel IH]; intros st Hlog; simpl;
    destruct (replayStep deps status st) as [[st' [msg|]]|] eqn:Hstep;
    simpl; eauto using replayStep_status.
Qed.

Lemma createFromDependencyGraph_status
    (deps : gmap string (list restoreObj)) (created : gmap string bool)
    (nums : gmap string nat) (toRestore : list restoreObj)
    (status : gmap string bool) (cl : Cluster) :
  Forall (statusMatches status)
    (rsLog (createFromDependencyGraph deps created nums toRestore status
              cl).1).
Proof.
  unfold createFromDependencyGraph.
  pose proof (replayLoop_status deps status
                (replayFuel deps created toRestore)
                (initialReplay created nums toRestore cl)
                ltac:(constructor)) as Hlog.
  by destruct (replayLoop _ _ _ _) as [st e].
Qed.

(** C3, as the code has it: in a run of the handler on an unpacked
    archive, the calls on the cluster after the definitions are those of
    the replay run with the map decoded from
    [filters/statussubresource.json]; and for every object that replay
    applied (its [restoreResource] returned nil), the update of the
    status subresource was among the calls made for it if and only if
    that map has a true entry under the string of the object's
    group-version-resource, [<group>/<version>, Resource=<resource>]. *)
Theorem status_write_iff_in_set
    (fs : FS) (cl : Cluster) (restore : Restore) (backupPath : string)
    (transformerMap : TransformerMap) (fileBytes : bytes)
    (loaded created : gmap string bool) (g : graph) :
  let crds := restoreCRDs fs backupPath transformerMap cl ∅ in
  crds.2 = Done (created, None) →
  ioutil_ReadFile fs
    (Filepath.Join [backupPath; "filters"; "statussubresource.json"])
  = inl fileBytes →
  json_Unmarshal_boolmap fileBytes ∅ = (loaded, None) →
  generateDependencyGraph fs crds.1.1 backupPath transformerMap emptyGraph
  = Done (g, None) →
  let replay :=
    createFromDependencyGraph (ownerToDependentsList g) created
      (numOwnerReferences g) (toRestore g) loaded crds.1.1 in
  (∃ tail,
     (restoreFromArchive fs cl restore backupPath transformerMap).1.2
     = crds.1.2 ++ logEvents (rsLog replay.1) ++ tail
     ∧ Forall (λ e, isClusterCall e = false) tail)
  ∧ ∀ r, r ∈ rsLog replay.1 → arResult r = Done None →
      let gvr := GVR (arObj r) in
      statusWritten gvr (arEvents r)
      ↔ loaded !! (Group gvr +:+ "/" +:+ Version gvr +:+ ", Resource="
                   +:+ Resource gvr) = Some true.
Proof.
  intros crds Hcrds Hread Hdecode Hbuilt replay. split.
  - unfold restoreFromArchive. subst replay crds.
    destruct (restoreCRDs fs backupPath transformerMap cl ∅)
      as [[cl1 evs1] out]. cbn [fst snd] in Hcrds, Hbuilt |- *. subst out.
    unfold findResourcesWithStatusSubresource.
    rewrite Hread, Hdecode, Hbuilt.
    destruct (createFromDependencyGraph _ _ _ _ _ _) as [st res]. simpl.
    destruct res as [[err|]|msg].
    + unfold removeDirAfter.
      destruct (os_RemoveAll fs backupPath) as [fs' rerr]. simpl.
      exists [EvRemoveAll backupPath].
      split; [by rewrite app_assoc|by repeat constructor].
    + destruct (Prune restore).
      * destruct (prune fs (rsCluster st) _ backupPath _ transformerMap)
          as [[fs' cl'] [perr|]]; simpl.
        -- exists [EvPrune].
           split; [by rewrite app_assoc|by repeat constructor].
        -- destruct (os_RemoveAll fs' backupPath) as [fs4 removeErr]. simpl.
           exists [EvPrune; EvRemoveAll backupPath].
           split; [by rewrite <- !app_assoc|by repeat constructor].
      * destruct (os_RemoveAll fs backupPath) as [fs4 removeErr]. simpl.
        exists [EvRemoveAll backupPath].
        split; [by rewrite <- !app_assoc|by repeat constructor].
    + exists []. split; [by rewrite app_nil_r|constructor].
  - intros r Hin Hok gvr.
    pose proof (createFromDependencyGraph_status (ownerToDependentsList g)
                  created (numOwnerReferences g) (toRestore g) loaded
                  crds.1.1) as Hlog.
    rewrite Forall_forall in Hlog. by apply Hlog.
Qed.

End StatusSubresource.

(** The chain archive: the handler applies catalog [a] and template [b],
    and writes the status of [b] alone, the set holding
    [management.cattle.io/v3, Resource=templates]. *)
Lemma status_write_iff_in_set_witness :
  let crds :=
    restoreCRDs (H := Scenario.world)
      (Scenario.unpacked Scenario.chainArchive) Scenario.root (λ _, None)
      ∅ ∅ in
  let replay :=
    createFromDependencyGraph (H := Scenario.world)
      (ownerToDependentsList (Scenario.builtGraph Scenario.chainArchive))
      ∅ (numOwnerReferences (Scenario.builtGraph Scenario.chainArchive))
      (toRestore (Scenario.builtGraph Scenario.chainArchive))
      Scenario.templatesHaveStatus crds.1.1 in
  (∃ tail,
     (restoreFromArchive (H := Scenario.world)
        (Scenario.unpacked Scenario.chainArchive) ∅ Scenario.request
        Scenario.root (λ _, None)).1.2
     = crds.1.2 ++ logEvents (rsLog replay.1) ++ tail
     ∧ Forall (λ e, isClusterCall e = false) tail)
  ∧ ∀ r, r ∈ rsLog replay.1 → arResult r = Done None →
      let gvr := GVR (arObj r) in
      statusWritten gvr (arEvents r)
      ↔ Scenario.templatesHaveStatus
          !! (Group gvr +:+ "/" +:+ Version gvr +:+ ", Resource="
              +:+ Resource gvr) = Some true.
Proof.
  apply (status_write_iff_in_set (H := Scenario.world)
           (Scenario.unpacked Scenario.chainArchive) ∅ Scenario.request
           Scenario.root (λ _, None)
           (JObject [("management.cattle.io/v3, Resource=templates",
                      JBool true)])
           Scenario.templatesHaveStatus ∅
           (Scenario.builtGraph Scenario.chainArchive)).
  - vm_compute. reflexivity.
  - vm_compute. reflexivity.
  - vm_compute. reflexivity.
  - vm_compute. reflexivity.
Defined.

Lemma statusWritten_seen (gvr : GroupVersionResource) (evs : list event) :
  statusWritten gvr evs → ¬ Forall (λ e, isStatusWrite e = false) evs.
Proof.
  intros (namespace & obj & Hin) Hno.
  rewrite Forall_forall in Hno. by apply Hno in Hin.
Qed.

(** C3 as the specification words it fails.  The set of this archive has
    a true entry [management.cattle.io/v3/templates]; the handler applies
    template [b] and writes no status: the replay looks the set up under
    [management.cattle.io/v3, Resource=templates]. *)
Lemma status_write_not_by_slashed_key :
  let loaded := Scenario.loadedSet Scenario.slashedKeyArchive in
  let r :=
    default Scenario.noRecord
      (rsLog (Scenario.replayOf Scenario.slashedKeyArchive ∅ loaded) !! 1) in
  (arResult r = Done None
   ∧ loaded !! slashedKey (GVR (arObj r)) = Some true
   ∧ ¬ statusWritten (GVR (arObj r)) (arEvents r))
  ∧ let '(_, _, evs, out) := Scenario.run Scenario.slashedKeyArchive in
    out = Done (Scenario.request, None)
    ∧ Scenario.written evs = ["a"; "b"]
    ∧ Forall (λ e, isStatusWrite e = false) evs.
Proof.
  split.
  - split; [vm_compute; reflexivity|]. split; [vm_compute; reflexivity|].
    intros Hw. apply statusWritten_seen in Hw. apply Hw.
    vm_compute. repeat constructor.
  - vm_compute. split; [reflexivity|]. split; [reflexivity|].
    repeat constructor.
Qed.

(** The same run with the key as the code reads it: the status of [b] is
    written. *)
Lemma status_written_by_string_key :
  let '(_, _, evs, out) := Scenario.run Scenario.chainArchive in
  out = Done (Scenario.request, None)
  ∧ Scenario.written evs = ["a"; "b"]
  ∧ Exists (λ e, isStatusWrite e = true) evs.
Proof.
  vm_compute. split; [reflexivity|]. split; [reflexivity|].
  repeat first [by apply Exists_cons_hd | apply Exists_cons_tl].
Qed.

Section Graph.
Context `{Collaborators}.

(** ** The graph the builder leaves *)

Lemma occurrences_cons (k p : string) (l : list string) :
  occurrences k (p :: l)
  = (if decide (p = k) then 1 else 0) + occurrences k l.
Proof.
  unfold occurrences. rewrite filter_cons. by destruct (decide (p = k)).
Qed.

Lemma occurrencesOf_app (k : string) (l1 l2 : list restoreObj) :
  occurrencesOf k (l1 ++ l2) = occurrencesOf k l1 + occurrencesOf k l2.
Proof. unfold occurrencesOf. by rewrite filter_app, length_app. Qed.

Lemma occurrencesOf_cons (k : string) (d : restoreObj)
    (l : list restoreObj) :
  occurrencesOf k (d :: l)
  = (if decide (ResourceConfigPath d = k) then 1 else 0) + occurrencesOf k l.
Proof.
  unfold occurrencesOf. rewrite filter_cons.
  by destruct (decide (ResourceConfigPath d = k)).
Qed.

Lemma occurrencesOf_replicate (k : string) (n : nat) (c : restoreObj) :
  occurrencesOf k (replicate n c)
  = if decide (ResourceConfigPath c = k) then n else 0.
Proof.
  induction n as [|n IH]; simpl.
  - by destruct (decide _).
  - rewrite occurrencesOf_cons, IH. destruct (decide _); lia.
Qed.

Lemma occurrencesOf_none (k : string) (l : list restoreObj) :
  (∀ d, d ∈ l → ResourceConfigPath d ≠ k) → occurrencesOf k l = 0.
Proof.
  induction l as [|d l IH]; intros Hne; [done|].
  rewrite occurrencesOf_cons, IH.
  - destruct (decide _) as [Heq|]; [|done].
    exfalso. apply (Hne d); [left|done].
  - intros d' Hd'. apply Hne. by right.
Qed.

Lemma dependentsOf_addDependent (deps : gmap string (list restoreObj))
    (P Q : string) (c : restoreObj) :
  dependentsOf (addDependent deps P c) Q
  = if decide (P = Q) then dependentsOf deps Q ++ [c]
    else dependentsOf deps Q.
Proof.
  unfold addDependent, dependentsOf.
  destruct (deps !! P) as [l|] eqn:HP; destruct (decide (P = Q)) as [<-|Hne];
    rewrite ?lookup_insert_eq, ?lookup_insert_ne by done;
    rewrite ?HP; done.
Qed.

(** The loop over the owner list, when it comes through: every entry was
    counted, and the object was appended under each owner path as often
    as entries resolve to it. *)
Lemma ownerRefsLoop_done (cl : Cluster) (backupPath : string)
    (c : restoreObj) (refs : list JSON) (n n' : nat)
    (deps deps' : gmap string (list restoreObj)) :
  ownerRefsLoop cl backupPath c refs n deps = Done (deps', inl n') →
  n' = n + length refs
  ∧ ∀ Q, dependentsOf deps' Q
         = dependentsOf deps Q
           ++ replicate
                (occurrences Q (omap (ownerTarget cl backupPath c) refs)) c.
Proof.
  revert n deps. induction refs as [|owner rest IH]; intros n deps.
  - simpl. intros [= <- <-]. split; [lia|].
    intros Q. by rewrite app_nil_r.
  - rewrite ownerRefsLoop_cons. simpl omap. unfold ownerTarget at 1.
    destruct (resolveOwner cl backupPath c owner) as [|o|err|msg];
      try done.
    + intros Hloop. apply IH in Hloop as [-> Hdeps]. split; [simpl; lia|done].
    + intros Hloop. apply IH in Hloop as [-> Hdeps]. split; [simpl; lia|].
      intros Q. rewrite Hdeps, dependentsOf_addDependent, occurrences_cons.
      destruct (decide (ResourceConfigPath o = Q)); [|done].
      by rewrite <- app_assoc.
Qed.

Lemma omap_length_le {A B : Type} (f : A → option B) (l : list A) :
  length (omap f l) ≤ length l.
Proof.
  induction l as [|x l IH]; [done|].
  change (omap f (x :: l))
    with (match f x with Some y => y :: omap f l | None => omap f l end).
  destruct (f x); simpl; lia.
Qed.

Lemma ownerTargets_length (cl : Cluster) (backupPath : string)
    (d : restoreObj) (refs : list JSON) :
  ownerRefsOf d = Some refs →
  length (ownerTargets cl backupPath d) ≤ length refs.
Proof.
  unfold ownerTargets. intros ->. apply omap_length_le.
Qed.

Lemma graphOf_empty (cl : Cluster) (backupPath : string) :
  graphOf cl backupPath [] emptyGraph.
Proof.
  split; simpl.
  - intros d Hd. by apply elem_of_nil in Hd.
  - intros P d. unfold dependentsOf. rewrite lookup_empty. simpl.
    intros Hd. by apply elem_of_nil in Hd.
  - intros d refs Hd. by apply elem_of_nil in Hd.
  - intros d P Hd. by apply elem_of_nil in Hd.
Qed.

Lemma distinctPaths_fresh (objs : list restoreObj) (c d : restoreObj) :
  distinctPaths (objs ++ [c]) → d ∈ objs →
  ResourceConfigPath d ≠ ResourceConfigPath c.
Proof.
  unfold distinctPaths. rewrite map_app. simpl.
  intros Hnd Hd Heq. apply NoDup_app in Hnd as (_ & Hdisj & _).
  apply (Hdisj (ResourceConfigPath d)).
  - apply list_elem_of_fmap. eauto.
  - rewrite Heq. left.
Qed.

Lemma distinctPaths_app_l (objs more : list restoreObj) :
  distinctPaths (objs ++ more) → distinctPaths objs.
Proof.
  unfold distinctPaths. rewrite map_app. intros Hnd.
  by apply NoDup_app in Hnd as (? & _ & _).
Qed.

(** One file more keeps the graph that of the objects read so far. *)
Lemma addToOwnersToDependentsList_graphOf
    (fs : FS) (cl : Cluster) (backupPath resConfigPath aad : string)
    (gvr : GroupVersionResource) (tr : option Transformer)
    (objs : list restoreObj) (g g' : graph) :
  graphOf cl backupPath objs g →
  distinctPaths (objs ++ documentObjects fs resConfigPath aad gvr tr) →
  addToOwnersToDependentsList fs cl backupPath resConfigPath aad gvr tr g
  = Done (g', None) →
  graphOf cl backupPath
    (objs ++ documentObjects fs resConfigPath aad gvr tr) g'.
Proof.
  intros [Hq Hk Hc Hl].
  unfold addToOwnersToDependentsList, documentObjects.
  destruct (readDocument fs resConfigPath aad tr) as [fileMap|err];
    [|done].
  destruct (asObject (lookupField fileMap metadataMapKey))
    as [metadata|] eqn:Hmeta.
  2:{ intros _ [= <-]. rewrite app_nil_r. by split. }
  set (c := makeRestoreObj resConfigPath gvr fileMap metadata).
  intros Hnd.
  assert (Hrefs : ownerRefsOf c
                  = asArray (lookupField metadata ownerRefsMapKey)).
  { unfold ownerRefsOf. simpl. by rewrite Hmeta. }
  assert (Hfresh : ∀ d, d ∈ objs →
                        ResourceConfigPath d ≠ ResourceConfigPath c)
    by eauto using distinctPaths_fresh.
  assert (Hzero : ∀ P, occurrencesOf (ResourceConfigPath c)
                         (dependentsOf (ownerToDependentsList g) P) = 0).
  { intros P. apply occurrencesOf_none. intros d Hd. eauto. }
  destruct (asArray (lookupField metadata ownerRefsMapKey))
    as [refs|] eqn:Harr.
  - destruct (ownerRefsLoop cl backupPath c refs 0
                (ownerToDependentsList g))
      as [[deps' [n'|err]]|msg] eqn:Hloop; [|done..].
    intros [= <-].
    apply ownerRefsLoop_done in Hloop as [-> Hdeps].
    split; simpl.
    + intros d Hd. destruct (Hq d Hd). split; [|done].
      apply elem_of_app. by left.
    + intros P d. rewrite Hdeps, !elem_of_app.
      intros [Hd|Hd]; [left; eauto|right].
      apply elem_of_replicate in Hd as [-> _]. left.
    + intros d refs' Hd Hr. apply elem_of_app in Hd as [Hd|Hd].
      * rewrite lookup_insert_ne; [eauto|]. intros Heq.
        by apply (Hfresh d Hd).
      * apply list_elem_of_singleton in Hd as ->.
        rewrite Hrefs in Hr. injection Hr as <-.
        by rewrite lookup_insert_eq.
    + intros d P Hd. rewrite Hdeps, occurrencesOf_app,
        occurrencesOf_replicate.
      apply elem_of_app in Hd as [Hd|Hd].
      * rewrite decide_False by (intros Heq; by apply (Hfresh d Hd)).
        rewrite Hl by done. lia.
      * apply list_elem_of_singleton in Hd as ->.
        rewrite decide_True by done. rewrite Hzero.
        unfold ownerTargets. rewrite Hrefs. done.
  - intros [= <-]. split; simpl.
    + intros d Hd. rewrite elem_of_app. apply elem_of_app in Hd as [Hd|Hd].
      * destruct (Hq d Hd). split; [by left|done].
      * apply list_elem_of_singleton in Hd as ->.
        split; [right; left|]. done.
    + intros P d Hd. apply elem_of_app. left. eauto.
    + intros d refs' Hd Hr. apply elem_of_app in Hd as [Hd|Hd]; [eauto|].
      apply list_elem_of_singleton in Hd as ->. by rewrite Hrefs in Hr.
    + intros d P Hd. apply elem_of_app in Hd as [Hd|Hd]; [eauto|].
      apply list_elem_of_singleton in Hd as ->.
      rewrite Hzero. unfold ownerTargets. by rewrite Hrefs.
Qed.

(** A loop of the walk keeps the graph that of the objects read so far,
    when its body does. *)
Lemma forEach_graphOf {A : Type} (cl : Cluster) (backupPath : string)
    (body : A → graph → outcome (graph * option error))
    (objsOf : A → list restoreObj) :
  (∀ x objs g g',
      graphOf cl backupPath objs g →
      distinctPaths (objs ++ objsOf x) →
      body x g = Done (g', None) →
      graphOf cl backupPath (objs ++ objsOf x) g') →
  ∀ xs objs g g',
    graphOf cl backupPath objs g →
    distinctPaths (objs ++ flat_map objsOf xs) →
    forEach body xs g = Done (g', None) →
    graphOf cl backupPath (objs ++ flat_map objsOf xs) g'.
Proof.
  intros Hbody xs. induction xs as [|x xs IH]; intros objs g g' Hg Hnd.
  - simpl. intros [= <-]. by rewrite app_nil_r.
  - simpl in *. rewrite app_assoc in *.
    destruct (body x g) as [[g1 [err|]]|msg] eqn:Hx; [done| |done].
    intros Hrest. apply (IH _ g1); [|done..].
    apply (Hbody x objs g); [done| |done].
    by apply distinctPaths_app_l in Hnd.
Qed.

Lemma resourceDirEntry_graphOf
    (fs : FS) (cl : Cluster) (backupPath resourceGVK resourceDirPath : string)
    (gvr : GroupVersionResource) (tr : option Transformer) (entry : dirent)
    (objs : list restoreObj) (g g' : graph) :
  graphOf cl backupPath objs g →
  distinctPaths
    (objs ++ resourceDirEntryObjects fs backupPath resourceGVK
               resourceDirPath gvr tr entry) →
  resourceDirEntry fs cl backupPath resourceGVK resourceDirPath gvr tr
    entry g = Done (g', None) →
  graphOf cl backupPath
    (objs ++ resourceDirEntryObjects fs backupPath resourceGVK
               resourceDirPath gvr tr entry) g'.
Proof.
  unfold resourceDirEntry, resourceDirEntryObjects.
  destruct (IsDir entry).
  - destruct (ioutil_ReadDir fs _) as [resourceFiles|err]; [|done].
    intros Hg Hnd. apply forEach_graphOf; [|done..].
    intros x objs' g1 g2. apply addToOwnersToDependentsList_graphOf.
  - apply addToOwnersToDependentsList_graphOf.
Qed.

Lemma backupEntryStep_graphOf
    (fs : FS) (cl : Cluster) (backupPath : string)
    (transformerMap : TransformerMap) (backupEntry : dirent)
    (objs : list restoreObj) (g g' : graph) :
  graphOf cl backupPath objs g →
  distinctPaths
    (objs ++ backupEntryObjects fs backupPath transformerMap backupEntry) →
  backupEntryStep fs cl backupPath transformerMap backupEntry g
  = Done (g', None) →
  graphOf cl backupPath
    (objs ++ backupEntryObjects fs backupPath transformerMap backupEntry) g'.
Proof.
  unfold backupEntryStep, backupEntryObjects.
  destruct (String.eqb (entryName backupEntry) "filters").
  - intros Hg _ [= <-]. by rewrite app_nil_r.
  - destruct (getGVR (entryName backupEntry)) as [gvr|msg]; [|done].
    destruct (ioutil_ReadDir fs _) as [resourceDirEntries|err]; [|done].
    intros Hg Hnd. apply forEach_graphOf; [|done..].
    intros x objs' g1 g2. apply resourceDirEntry_graphOf.
Qed.

(** When [generateDependencyGraph] comes through on an archive whose
    files have different paths, its graph is that of the objects of the
    archive. *)
Theorem generateDependencyGraph_graphOf
    (fs : FS) (cl : Cluster) (backupPath : string)
    (transformerMap : TransformerMap) (g : graph) :
  generateDependencyGraph fs cl backupPath transformerMap emptyGraph
  = Done (g, None) →
  distinctPaths (archiveObjects fs backupPath transformerMap) →
  graphOf cl backupPath (archiveObjects fs backupPath transformerMap) g.
Proof.
  unfold generateDependencyGraph, archiveObjects.
  destruct (ioutil_ReadDir fs backupPath) as [backupEntries|err]; [|done].
  intros Hbuilt Hnd.
  apply (forEach_graphOf cl backupPath _ _
           (λ x objs g1 g2, backupEntryStep_graphOf fs cl backupPath
                              transformerMap x objs g1 g2)
           backupEntries [] emptyGraph g);
    [apply graphOf_empty|done..].
Qed.

(** C6, as the code has it: after graph construction the counter of an
    object with an owner-reference list is the length of that list; every
    entry counts for one, be it a repeated parent, a parent already in
    [Created], or a parent whose path is no file of the archive. *)
Theorem counter_is_length_of_owner_list
    (fs : FS) (cl : Cluster) (backupPath : string)
    (transformerMap : TransformerMap) (g : graph) (c : restoreObj)
    (refs : list JSON) :
  generateDependencyGraph fs cl backupPath transformerMap emptyGraph
  = Done (g, None) →
  distinctPaths (archiveObjects fs backupPath transformerMap) →
  c ∈ archiveObjects fs backupPath transformerMap →
  ownerRefsOf c = Some refs →
  count (numOwnerReferences g) (ResourceConfigPath c) = length refs.
Proof.
  intros Hbuilt Hnd Hc Hrefs.
  destruct (generateDependencyGraph_graphOf _ _ _ _ _ Hbuilt Hnd)
    as [_ _ Hcounted _].
  unfold count. by rewrite (Hcounted c refs Hc Hrefs).
Qed.

End Graph.

(** Template [x] of the counting archive lists three owners. *)
Lemma counter_is_length_of_owner_list_witness :
  count (numOwnerReferences (Scenario.builtGraph Scenario.countingArchive))
    "/tmp/backup123/templates.management.cattle.io#v3/x.json"
  = 3.
Proof.
  apply (counter_is_length_of_owner_list (H := Scenario.world)
           (Scenario.unpacked Scenario.countingArchive) ∅ Scenario.root
           (λ _, None) (Scenario.builtGraph Scenario.countingArchive)
           (Scenario.objectAt Scenario.countingArchive 1)
           (default [] (ownerRefsOf
                          (Scenario.objectAt Scenario.countingArchive 1)))).
  - vm_compute. reflexivity.
  - unfold distinctPaths. apply (bool_decide_unpack _). vm_compute. exact I.
  - apply (list_elem_of_lookup_2 _ 1). vm_compute. reflexivity.
  - vm_compute. reflexivity.
Defined.

(** C6 as the specification words it fails.  Template [x] names catalog
    [a] twice and catalog [z], which is no file of the archive: its
    counter is 3, the distinct unresolved parents in the archive are 1.
    Catalog [w] names the installed definition [widgets]: its counter is
    1, the parents not yet in [Created] are 0. *)
Lemma counter_not_distinct_unresolved_parents :
  let x := Scenario.objectAt Scenario.countingArchive 1 in
  let w := Scenario.objectAt Scenario.definitionArchive 0 in
  count (numOwnerReferences (Scenario.builtGraph Scenario.countingArchive))
    (ResourceConfigPath x)
  ≠ distinctUnresolvedParents (H := Scenario.world)
      (Scenario.unpacked Scenario.countingArchive) ∅
      (ownerTargets (H := Scenario.world) ∅ Scenario.root x)
  ∧ count (numOwnerReferences
             (Scenario.builtGraph Scenario.definitionArchive))
      (ResourceConfigPath w)
    ≠ distinctUnresolvedParents (H := Scenario.world)
        (Scenario.unpacked Scenario.definitionArchive)
        Scenario.widgetsCreated
        (ownerTargets (H := Scenario.world) ∅ Scenario.root w).
Proof. split; vm_compute; discriminate. Qed.

Lemma counter_values :
  let x := Scenario.objectAt Scenario.countingArchive 1 in
  let w := Scenario.objectAt Scenario.definitionArchive 0 in
  (count (numOwnerReferences (Scenario.builtGraph Scenario.countingArchive))
     (ResourceConfigPath x),
   distinctUnresolvedParents (H := Scenario.world)
     (Scenario.unpacked Scenario.countingArchive) ∅
     (ownerTargets (H := Scenario.world) ∅ Scenario.root x),
   count (numOwnerReferences
            (Scenario.builtGraph Scenario.definitionArchive))
     (ResourceConfigPath w),
   distinctUnresolvedParents (H := Scenario.world)
     (Scenario.unpacked Scenario.definitionArchive)
     Scenario.widgetsCreated
     (ownerTargets (H := Scenario.world) ∅ Scenario.root w))
  = (3, 1, 1, 0).
Proof. vm_compute. reflexivity. Qed.

Section Order.
Context `{Collaborators}.

(** ** Owners before dependents *)

Lemma appliedObjects_snoc (log : list applyRecord) (r : applyRecord) :
  appliedObjects (log ++ [r])
  = appliedObjects log
    ++ match arResult r with Done None => [arObj r] | _ => [] end.
Proof.
  unfold appliedObjects. rewrite omap_app. f_equal.
  cbn. by destruct (arResult r) as [[err|]|msg].
Qed.

Lemma count_insert (m : gmap string nat) (k k' : string) (v : nat) :
  count (<[k := v]> m) k' = if decide (k = k') then v else count m k'.
Proof.
  unfold count. destruct (decide (k = k')) as [<-|Hne].
  - by rewrite lookup_insert_eq.
  - by rewrite lookup_insert_ne.
Qed.

Lemma flag_insert (m : gmap string bool) (k k' : string) (v : bool) :
  flag (<[k := v]> m) k' = if decide (k = k') then v else flag m k'.
Proof.
  unfold flag. destruct (decide (k = k')) as [<-|Hne].
  - by rewrite lookup_insert_eq.
  - by rewrite lookup_insert_ne.
Qed.

(** Applying the owner [P] resolves as many owners of [d] as [d] names
    [P]. *)
Lemma unresolved_snoc (cl : Cluster) (backupPath : string)
    (done : list string) (P : string) (d : restoreObj) :
  P ∉ done →
  unresolved cl backupPath done d
  = unresolved cl backupPath (done ++ [P]) d
    + occurrences P (ownerTargets cl backupPath d).
Proof.
  intros Hnew. unfold unresolved, occurrences.
  induction (ownerTargets cl backupPath d) as [|t ts IH]; [done|].
  rewrite !filter_cons.
  destruct (decide (t = P)) as [->|Hne].
  - rewrite decide_True by done.
    rewrite decide_False by (rewrite elem_of_app, list_elem_of_singleton;
                             tauto).
    simpl. lia.
  - destruct (decide (t ∉ done)) as [Hout|Hin].
    + rewrite decide_True
        by (rewrite elem_of_app, list_elem_of_singleton; tauto).
      simpl. lia.
    + rewrite decide_False
        by (rewrite elem_of_app, list_elem_of_singleton; tauto).
      done.
Qed.

Lemma unresolved_zero (cl : Cluster) (backupPath : string)
    (done : list string) (d : restoreObj) (P : string) :
  unresolved cl backupPath done d = 0 →
  P ∈ ownerTargets cl backupPath d → P ∈ done.
Proof.
  unfold unresolved. intros Hzero HP.
  destruct (decide (P ∈ done)) as [|Hout]; [done|].
  assert (P ∈ filter (λ P, P ∉ done) (ownerTargets cl backupPath d)) as Hin
    by (by apply list_elem_of_filter).
  destruct (filter _ _); [by apply elem_of_nil in Hin|done].
Qed.

Lemma released_mono (cl : Cluster) (backupPath : string)
    (objs : list restoreObj) (done : list string) (P : string)
    (d : restoreObj) :
  released cl backupPath objs done d →
  released cl backupPath objs (done ++ [P]) d.
Proof.
  intros [Hd Hdone]. split; [done|].
  intros Q HQ. apply elem_of_app. left. eauto.
Qed.

(** The loop over the dependents of an applied owner: the counts keep
    covering the unresolved owners, and what is queued has none left. *)
Lemma releaseDependents_released (cl : Cluster) (backupPath : string)
    (objs : list restoreObj) (done : list string)
    (l : list restoreObj) (nums : gmap string nat)
    (queue : list restoreObj) :
  (∀ d, d ∈ l → d ∈ objs) →
  (∀ d, d ∈ objs →
        unresolved cl backupPath done d
        + occurrencesOf (ResourceConfigPath d) l
        ≤ count nums (ResourceConfigPath d)) →
  (∀ d, d ∈ queue → released cl backupPath objs done d) →
  (∀ d, d ∈ objs →
        unresolved cl backupPath done d
        ≤ count (releaseDependents l nums queue).1 (ResourceConfigPath d))
  ∧ (∀ d, d ∈ (releaseDependents l nums queue).2 →
          released cl backupPath objs done d).
Proof.
  revert nums queue.
  induction l as [|x t IH]; intros nums queue Hl Hcount Hqueue.
  - simpl. split; [|done]. intros d Hd. specialize (Hcount d Hd).
    unfold occurrencesOf in Hcount. simpl in Hcount. lia.
  - cbn [releaseDependents].
    set (key := ResourceConfigPath x).
    assert (Hx : x ∈ objs) by (apply Hl; left).
    pose proof (Hcount x Hx) as Hcx.
    rewrite occurrencesOf_cons, decide_True in Hcx by done.
    fold key in Hcx.
    rewrite decide_True by lia.
    set (nums1 := <[key := count nums key - 1]> nums).
    assert (Hcount1 : ∀ d, d ∈ objs →
              unresolved cl backupPath done d
              + occurrencesOf (ResourceConfigPath d) t
              ≤ count nums1 (ResourceConfigPath d)).
    { intros d Hd. specialize (Hcount d Hd).
      rewrite occurrencesOf_cons in Hcount. fold key in Hcount.
      unfold nums1. rewrite count_insert.
      destruct (decide (key = ResourceConfigPath d)) as [Heq|Hne].
      - rewrite <- Heq in *. lia.
      - lia. }
    apply IH.
    + intros d Hd. apply Hl. by right.
    + done.
    + destruct (decide (count nums1 key = 0)) as [Hzero|]; [|done].
      intros d Hd. apply elem_of_app in Hd as [Hd|Hd]; [eauto|].
      apply list_elem_of_singleton in Hd as ->.
      split; [done|]. intros P HP.
      apply (unresolved_zero cl backupPath done x); [|done].
      specialize (Hcount1 x Hx). fold key in Hcount1. lia.
Qed.

Lemma initialReplay_inv (cl cl' : Cluster) (backupPath : string)
    (objs : list restoreObj) (g : graph) (created : gmap string bool) :
  graphOf cl backupPath objs g →
  replayInv cl backupPath objs created
    (initialReplay created (numOwnerReferences g) (toRestore g) cl').
Proof.
  intros [Hq Hk Hc Hl]. split; simpl.
  - intros d Hd. destruct (Hq d Hd) as [Hobj Hnone]. split; [done|].
    unfold ownerTargets. rewrite Hnone. intros P HP.
    by apply elem_of_nil in HP.
  - intros d Hd. unfold unresolved.
    etrans; [apply length_filter|].
    destruct (ownerRefsOf d) as [refs|] eqn:Hrefs.
    + unfold count. rewrite (Hc d refs Hd Hrefs). simpl.
      by apply ownerTargets_length.
    + unfold ownerTargets. rewrite Hrefs. simpl. lia.
  - intros P HP. by apply elem_of_nil in HP.
  - done.
  - intros P HP. by apply elem_of_nil in HP.
  - intros i d Hi. by rewrite lookup_nil in Hi.
Qed.

(** An iteration that applies nothing keeps what holds of the loop. *)
Lemma replayInv_pass (cl : Cluster) (backupPath : string)
    (objs : list restoreObj) (created0 : gmap string bool)
    (st st' : replayState) :
  replayInv cl backupPath objs created0 st →
  (∀ d, d ∈ rsToRestore st' → d ∈ rsToRestore st) →
  rsCreated st' = rsCreated st →
  rsNumOwnerReferences st' = rsNumOwnerReferences st →
  appliedObjects (rsLog st') = appliedObjects (rsLog st) →
  replayInv cl backupPath objs created0 st'.
Proof.
  intros [Hq Hc Hcr Hk Hf Ho] Hsub Hcreated Hnums Hlog.
  split; unfold appliedPaths in *; rewrite ?Hcreated, ?Hnums, ?Hlog; eauto.
Qed.

Lemma replayStep_inv (cl : Cluster) (backupPath : string)
    (objs : list restoreObj) (g : graph) (created0 status : gmap string bool)
    (st st' : replayState) (e : option string) :
  graphOf cl backupPath objs g →
  replayInv cl backupPath objs created0 st →
  replayStep (ownerToDependentsList g) status st = Some (st', e) →
  replayInv cl backupPath objs created0 st'.
Proof.
  intros [Gq Gk Gc Gl] Hinv. unfold replayStep.
  destruct (rsToRestore st) as [|curr rest] eqn:Hqueue; [done|].
  destruct (flag (rsCreated st) (ResourceConfigPath curr)) eqn:Hfresh.
  { intros [= <- <-]. apply (replayInv_pass _ _ _ _ st); try done.
    simpl. intros d Hd. rewrite Hqueue. by right. }
  destruct (restoreResource _ _ _ _) as [[cl' evs] res].
  destruct res as [[err|]|msg].
  { intros [= <- <-]. apply (replayInv_pass _ _ _ _ st); try done; simpl.
    - intros d Hd. rewrite Hqueue. by right.
    - by rewrite appliedObjects_snoc, app_nil_r. }
  2:{ intros [= <- <-]. apply (replayInv_pass _ _ _ _ st); try done; simpl.
      - intros d Hd. rewrite Hqueue. by right.
      - by rewrite appliedObjects_snoc, app_nil_r. }
  destruct Hinv as [Hq Hc Hcr Hk Hf Ho].
  set (P := ResourceConfigPath curr) in *.
  set (done := appliedPaths (rsLog st)) in *.
  assert (Hnew : P ∉ done).
  { intros HP. apply Hcr in HP. congruence. }
  assert (Hcurr : released cl backupPath objs done curr).
  { apply Hq. rewrite Hqueue. left. }
  pose proof (releaseDependents_released cl backupPath objs (done ++ [P])
                (dependentsOf (ownerToDependentsList g) P)
                (rsNumOwnerReferences st) rest) as Hrel.
  destruct Hrel as [Hcount' Hqueue'].
  { intros d Hd. eauto. }
  { intros d Hd. specialize (Hc d Hd).
    rewrite (unresolved_snoc cl backupPath done P d Hnew) in Hc.
    rewrite Gl by done. done. }
  { intros d Hd. apply released_mono, Hq. rewrite Hqueue. by right. }
  destruct (releaseDependents _ _ _) as [nums' queue'].
  intros [= <- <-].
  assert (Hlog : appliedObjects
                   (rsLog st ++ [{| arObj := curr; arEvents := evs;
                                    arResult := Done None |}])
                 = appliedObjects (rsLog st) ++ [curr])
    by (by rewrite appliedObjects_snoc).
  assert (Hpaths : appliedPaths
                     (rsLog st ++ [{| arObj := curr; arEvents := evs;
                                      arResult := Done None |}])
                   = done ++ [P]).
  { unfold appliedPaths. by rewrite Hlog, map_app. }
  split; cbn [rsToRestore rsCreated rsNumOwnerReferences rsLog];
    rewrite ?Hpaths, ?Hlog.
  - done.
  - done.
  - intros Q HQ. rewrite flag_insert. destruct (decide (P = Q)); [done|].
    apply Hcr. apply elem_of_app in HQ as [HQ|HQ]; [done|].
    apply list_elem_of_singleton in HQ. congruence.
  - intros Q HQ. rewrite flag_insert. destruct (decide (P = Q)); [done|].
    eauto.
  - intros Q HQ. apply elem_of_app in HQ as [HQ|HQ]; [eauto|].
    apply list_elem_of_singleton in HQ as ->.
    destruct (flag created0 P) eqn:H0; [|done].
    apply Hk in H0. congruence.
  - intros i d Hi.
    destruct (decide (i < length (appliedObjects (rsLog st)))) as [Hlt|Hge].
    + rewrite lookup_app_l in Hi by done.
      destruct (Ho i d Hi) as [Hobj Hbefore]. split; [done|].
      intros Q HQ. destruct (Hbefore Q HQ) as (j & a & Hj & Ha & Hpath).
      exists j, a. split; [done|]. split; [|done].
      rewrite lookup_app_l by lia. done.
    + rewrite lookup_app_r in Hi by lia.
      apply list_lookup_singleton_Some in Hi as [Hi <-].
      destruct Hcurr as [Hobj Hdone]. split; [done|].
      intros Q HQ. specialize (Hdone Q HQ).
      unfold done, appliedPaths in Hdone.
      apply list_elem_of_fmap in Hdone as (a & -> & Ha).
      apply list_elem_of_lookup in Ha as [j Hj].
      exists j, a. pose proof (lookup_lt_Some _ _ _ Hj).
      split; [lia|]. split; [|done].
      by apply lookup_app_l_Some.
Qed.

Lemma replayLoop_inv (cl : Cluster) (backupPath : string)
    (objs : list restoreObj) (g : graph) (created0 status : gmap string bool)
    (fuel : nat) (st : replayState) :
  graphOf cl backupPath objs g →
  replayInv cl backupPath objs created0 st →
  replayInv cl backupPath objs created0
    (replayLoop fuel (ownerToDependentsList g) status st).1.
Proof.
  intros Hg. revert st. induction fuel as [|fuel IH]; intros st Hinv; simpl;
    destruct (replayStep (ownerToDependentsList g) status st)
      as [[st' [msg|]]|] eqn:Hstep;
    simpl; eauto using replayStep_inv.
Qed.

Lemma createFromDependencyGraph_inv (cl cl' : Cluster) (backupPath : string)
    (objs : list restoreObj) (g : graph) (created status : gmap string bool) :
  graphOf cl backupPath objs g →
  replayInv cl backupPath objs created
    (createFromDependencyGraph (ownerToDependentsList g) created
       (numOwnerReferences g) (toRestore g) status cl').1.
Proof.
  intros Hg. unfold createFromDependencyGraph.
  pose proof (replayLoop_inv cl backupPath objs g created status
                (replayFuel (ownerToDependentsList g) created (toRestore g))
                (initialReplay created (numOwnerReferences g) (toRestore g)
                   cl')
                Hg (initialReplay_inv cl cl' backupPath objs g created Hg))
    as Hinv.
  by destruct (replayLoop _ _ _ _).
Qed.

Lemma distinctPaths_eq (objs : list restoreObj) (a b : restoreObj) :
  distinctPaths objs → a ∈ objs → b ∈ objs →
  ResourceConfigPath a = ResourceConfigPath b → a = b.
Proof.
  unfold distinctPaths. induction objs as [|x objs IH]; simpl.
  - intros _ Ha. by apply elem_of_nil in Ha.
  - intros Hnd Ha Hb Heq. apply NoDup_cons in Hnd as [Hx Hnd].
    apply elem_of_cons in Ha as [->|Ha]; apply elem_of_cons in Hb as [->|Hb];
      try done.
    + exfalso. apply Hx. rewrite Heq. apply list_elem_of_fmap. eauto.
    + exfalso. apply Hx. rewrite <- Heq. apply list_elem_of_fmap. eauto.
    + eauto.
Qed.

(** C1: for objects [A] and [B] of the archive such that the
    owner-reference list of [B] resolves to the file of [A], if the replay
    applies [B] then it applied [A] strictly before: an object is never
    applied while a parent of the archive is not. *)
Theorem owners_applied_before_dependents
    (fs : FS) (cl cl' : Cluster) (backupPath : string)
    (transformerMap : TransformerMap) (g : graph)
    (created status : gmap string bool) (A B : restoreObj) (i : nat) :
  generateDependencyGraph fs cl backupPath transformerMap emptyGraph
  = Done (g, None) →
  distinctPaths (archiveObjects fs backupPath transformerMap) →
  A ∈ archiveObjects fs backupPath transformerMap →
  ResourceConfigPath A ∈ ownerTargets cl backupPath B →
  appliedObjects
    (rsLog (createFromDependencyGraph (ownerToDependentsList g) created
              (numOwnerReferences g) (toRestore g) status cl').1) !! i
  = Some B →
  ∃ j, j < i
       ∧ appliedObjects
           (rsLog (createFromDependencyGraph (ownerToDependentsList g)
                     created (numOwnerReferences g) (toRestore g) status
                     cl').1) !! j
         = Some A.
Proof.
  intros Hbuilt Hnd HA Howner HB.
  pose proof (generateDependencyGraph_graphOf _ _ _ _ _ Hbuilt Hnd) as Hg.
  destruct (createFromDependencyGraph_inv cl cl' backupPath _ g created
              status Hg) as [_ _ _ _ _ Horder].
  destruct (Horder i B HB) as [_ Hbefore].
  destruct (Hbefore _ Howner) as (j & a & Hj & Ha & Hpath).
  exists j. split; [done|].
  destruct (Horder j a Ha) as [Hobj _].
  by rewrite (distinctPaths_eq _ a A Hnd Hobj HA Hpath) in Ha.
Qed.

(** C2, what the code does: an object one of whose owners is already in
    [created] when the replay starts (an installed definition) is never
    applied; the installed owner is passed over in the queue and releases
    no dependent. *)
Theorem owned_by_created_never_applied
    (fs : FS) (cl cl' : Cluster) (backupPath : string)
    (transformerMap : TransformerMap) (g : graph)
    (created status : gmap string bool) (B : restoreObj) (P : string) :
  generateDependencyGraph fs cl backupPath transformerMap emptyGraph
  = Done (g, None) →
  distinctPaths (archiveObjects fs backupPath transformerMap) →
  P ∈ ownerTargets cl backupPath B →
  flag created P = true →
  B ∉ appliedObjects
        (rsLog (createFromDependencyGraph (ownerToDependentsList g) created
                  (numOwnerReferences g) (toRestore g) status cl').1).
Proof.
  intros Hbuilt Hnd Howner Hcreated HB.
  pose proof (generateDependencyGraph_graphOf _ _ _ _ _ Hbuilt Hnd) as Hg.
  destruct (createFromDependencyGraph_inv cl cl' backupPath _ g created
              status Hg) as [_ _ _ _ Hfresh Horder].
  apply list_elem_of_lookup in HB as [i HB].
  destruct (Horder i B HB) as [_ Hbefore].
  destruct (Hbefore _ Howner) as (j & a & Hj & Ha & Hpath).
  assert (P ∈ appliedPaths
                (rsLog (createFromDependencyGraph (ownerToDependentsList g)
                          created (numOwnerReferences g) (toRestore g)
                          status cl').1)) as HP.
  { unfold appliedPaths. apply list_elem_of_fmap. exists a.
    split; [done|]. by apply list_elem_of_lookup_2 in Ha. }
  apply Hfresh in HP. congruence.
Qed.

End Order.

(** Catalog [a] and template [b] of the chain archive: [b] is the second
    object applied, [a] the first. *)
Lemma owners_applied_before_dependents_witness :
  ∃ j, j < 1
       ∧ appliedObjects
           (rsLog (createFromDependencyGraph (H := Scenario.world)
                     (ownerToDependentsList
                        (Scenario.builtGraph Scenario.chainArchive))
                     ∅
                     (numOwnerReferences
                        (Scenario.builtGraph Scenario.chainArchive))
                     (toRestore (Scenario.builtGraph Scenario.chainArchive))
                     Scenario.templatesHaveStatus ∅).1) !! j
         = Some (Scenario.objectAt Scenario.chainArchive 0).
Proof.
  apply (owners_applied_before_dependents (H := Scenario.world)
           (Scenario.unpacked Scenario.chainArchive) ∅ ∅ Scenario.root
           (λ _, None) (Scenario.builtGraph Scenario.chainArchive) ∅
           Scenario.templatesHaveStatus
           (Scenario.objectAt Scenario.chainArchive 0)
           (Scenario.objectAt Scenario.chainArchive 1) 1).
  - vm_compute. reflexivity.
  - unfold distinctPaths. apply (bool_decide_unpack _). vm_compute. exact I.
  - apply (list_elem_of_lookup_2 _ 0). vm_compute. reflexivity.
  - apply (list_elem_of_lookup_2 _ 0). vm_compute. reflexivity.
  - vm_compute. reflexivity.
Defined.

(** Catalog [w] of the definition archive, owned by the installed
    definition [widgets]. *)
Lemma owned_by_created_never_applied_witness :
  Scenario.objectAt Scenario.definitionArchive 0
  ∉ appliedObjects
      (rsLog (createFromDependencyGraph (H := Scenario.world)
                (ownerToDependentsList
                   (Scenario.builtGraph Scenario.definitionArchive))
                Scenario.widgetsCreated
                (numOwnerReferences
                   (Scenario.builtGraph Scenario.definitionArchive))
                (toRestore (Scenario.builtGraph Scenario.definitionArchive))
                ∅ ∅).1).
Proof.
  apply (owned_by_created_never_applied (H := Scenario.world)
           (Scenario.unpacked Scenario.definitionArchive) ∅ ∅ Scenario.root
           (λ _, None) (Scenario.builtGraph Scenario.definitionArchive)
           Scenario.widgetsCreated ∅
           (Scenario.objectAt Scenario.definitionArchive 0)
           "/tmp/backup123/customresourcedefinitions.apiextensions.k8s.io#v1/widgets.json").
  - vm_compute. reflexivity.
  - unfold distinctPaths. apply (bool_decide_unpack _). vm_compute. exact I.
  - apply (list_elem_of_lookup_2 _ 0). vm_compute. reflexivity.
  - vm_compute. reflexivity.
Defined.

(** The restore of the definition archive installs [widgets], returns
    nil, and never writes [w]; its counter stays at one. *)
Lemma definition_owned_object_dropped :
  let '(_, _, evs, out) := Scenario.run Scenario.definitionArchive in
  out = Done (Scenario.request, None)
  ∧ Scenario.written evs = ["widgets"]
  ∧ count (rsNumOwnerReferences
             (Scenario.replayOf Scenario.definitionArchive
                Scenario.widgetsCreated ∅))
      "/tmp/backup123/catalogs.management.cattle.io#v3/w.json"
    = 1.
Proof. vm_compute. repeat split; reflexivity. Qed.

(** The whole restore of the chain archive: [a], then [b], then the
    status of [b]. *)
Lemma chain_restored_in_order :
  let '(_, _, evs, out) := Scenario.run Scenario.chainArchive in
  out = Done (Scenario.request, None)
  ∧ Scenario.written evs = ["a"; "b"]
  ∧ length (List.filter isStatusWrite evs) = 1.
Proof. vm_compute. repeat split; reflexivity. Qed.

Section Aggregation.
Context `{Collaborators}.

(** ** The errors of the replay are collected *)

Lemma loggedErrors_snoc (log : list applyRecord) (r : applyRecord) :
  loggedErrors (log ++ [r])
  = loggedErrors log
    ++ match arResult r with Done (Some err) => [err] | _ => [] end.
Proof.
  unfold loggedErrors. rewrite omap_app. f_equal.
  cbn. by destruct (arResult r) as [[err|]|msg].
Qed.

Lemma replayStep_errors (deps : gmap string (list restoreObj))
    (status : gmap string bool) (st st' : replayState) (e : option string) :
  replayStep deps status st = Some (st', e) →
  rsErrList st = loggedErrors (rsLog st) →
  rsErrList st' = loggedErrors (rsLog st').
Proof.
  unfold replayStep. intros Hstep Herrs.
  destruct (rsToRestore st) as [|curr rest]; [done|].
  destruct (flag (rsCreated st) _); [by simplify_eq|].
  destruct (restoreResource _ _ _ _) as [[cl' evs] [[err|]|msg]];
    try destruct (releaseDependents _ _ _);
    simplify_eq; simpl; rewrite loggedErrors_snoc, Herrs; simpl;
    by rewrite ?app_nil_r.
Qed.

End Aggregation.

Section Books.
Context `{Collaborators}.

(** ** The books of the replay *)

Lemma appliedPaths_snoc (log : list applyRecord) (r : applyRecord) :
  appliedPaths (log ++ [r])
  = appliedPaths log
    ++ match arResult r with
       | Done None => [ResourceConfigPath (arObj r)]
       | _ => []
       end.
Proof.
  unfold appliedPaths. rewrite appliedObjects_snoc, map_app.
  by destruct (arResult r) as [[err|]|msg].
Qed.

Lemma initialReplay_books (created : gmap string bool)
    (nums : gmap string nat) (toRestore : list restoreObj) (cl : Cluster) :
  replayBooks created (initialReplay created nums toRestore cl).
Proof.
  split; simpl.
  - constructor.
  - intros P. split; [by left|]. intros [HP|HP]; [done|].
    by apply elem_of_nil in HP.
  - intros r Hr. by apply elem_of_nil in Hr.
  - done.
Qed.

Lemma replayStep_books (deps : gmap string (list restoreObj))
    (created0 status : gmap string bool) (st st' : replayState)
    (e : option string) :
  replayBooks created0 st →
  replayStep deps status st = Some (st', e) →
  replayBooks created0 st'.
Proof.
  intros [Honce Hcreated Hcalls Hcount]. unfold replayStep.
  destruct (rsToRestore st) as [|curr rest]; [done|].
  destruct (flag (rsCreated st) (ResourceConfigPath curr)) eqn:Hfresh.
  { intros [= <- <-]. by split. }
  assert (Hbefore : flag created0 (ResourceConfigPath curr) = false).
  { destruct (flag created0 (ResourceConfigPath curr)) eqn:H0; [|done].
    assert (flag (rsCreated st) (ResourceConfigPath curr) = true)
      by (apply Hcreated; by left).
    congruence. }
  assert (Hnew : ResourceConfigPath curr ∉ appliedPaths (rsLog st)).
  { intros Hin.
    assert (flag (rsCreated st) (ResourceConfigPath curr) = true)
      by (apply Hcreated; by right).
    congruence. }
  assert (Hcalls' : ∀ evs res r,
            r ∈ rsLog st ++ [{| arObj := curr; arEvents := evs;
                                arResult := res |}] →
            flag created0 (ResourceConfigPath (arObj r)) = false).
  { intros evs res r Hr. apply elem_of_app in Hr as [Hr|Hr]; [eauto|].
    by apply list_elem_of_singleton in Hr as ->. }
  destruct (restoreResource _ _ _ _) as [[cl' evs] [[err|]|msg]].
  - intros [= <- <-]. split; simpl;
      rewrite ?appliedPaths_snoc, ?appliedObjects_snoc, ?app_nil_r; eauto.
  - destruct (releaseDependents _ _ _) as [nums' queue'].
    intros [= <- <-]. split; simpl;
      rewrite ?appliedPaths_snoc, ?appliedObjects_snoc; simpl; eauto.
    + apply NoDup_app. split; [done|]. split; [|apply NoDup_singleton].
      intros P HP HP'. apply list_elem_of_singleton in HP' as ->. done.
    + intros P. rewrite flag_insert, elem_of_app, list_elem_of_singleton.
      destruct (decide (ResourceConfigPath curr = P)) as [<-|Hne].
      * split; [intros _; right; by right|done].
      * rewrite Hcreated. split; intros [HP|HP]; [by left|right; by left|
                                                  by left|].
        destruct HP as [HP|HP]; [by right|congruence].
    + rewrite length_app, Hcount. simpl. lia.
  - intros [= <- <-]. split; simpl;
      rewrite ?appliedPaths_snoc, ?appliedObjects_snoc, ?app_nil_r; eauto.
Qed.

Lemma createFromDependencyGraph_books
    (deps : gmap string (list restoreObj)) (created : gmap string bool)
    (nums : gmap string nat) (toRestore : list restoreObj)
    (status : gmap string bool) (cl : Cluster) :
  replayBooks created
    (createFromDependencyGraph deps created nums toRestore status cl).1.
Proof.
  unfold createFromDependencyGraph.
  assert (Hloop : ∀ fuel st0,
             replayBooks created st0 →
             replayBooks created (replayLoop fuel deps status st0).1).
  { induction fuel as [|fuel IH]; intros st0 Hbooks; simpl;
      destruct (replayStep deps status st0) as [[st' [msg|]]|] eqn:Hstep;
      simpl; eauto using replayStep_books. }
  specialize (Hloop (replayFuel deps created toRestore)
                (initialReplay created nums toRestore cl)
                (initialReplay_books created nums toRestore cl)).
  by destruct (replayLoop _ _ _ _).
Qed.

(** X1: whatever the graph and the queue, the replay applies no archive
    path twice: the paths of the calls that returned nil are pairwise
    different. *)
Theorem replay_applies_each_path_once
    (deps : gmap string (list restoreObj)) (created : gmap string bool)
    (nums : gmap string nat) (toRestore : list restoreObj)
    (status : gmap string bool) (cl : Cluster) :
  NoDup (appliedPaths
           (rsLog (createFromDependencyGraph deps created nums toRestore
                     status cl).1)).
Proof.
  by destruct (createFromDependencyGraph_books deps created nums toRestore
                 status cl).
Qed.

(** X2: when the replay ends, [created] holds the paths it held at the
    start and the paths the replay applied, and no other path. *)
Theorem replay_created_is_initial_or_applied
    (deps : gmap string (list restoreObj)) (created : gmap string bool)
    (nums : gmap string nat) (toRestore : list restoreObj)
    (status : gmap string bool) (cl : Cluster) (P : string) :
  flag (rsCreated (createFromDependencyGraph deps created nums toRestore
                     status cl).1) P = true
  ↔ flag created P = true
    ∨ P ∈ appliedPaths
            (rsLog (createFromDependencyGraph deps created nums toRestore
                      status cl).1).
Proof.
  by destruct (createFromDependencyGraph_books deps created nums toRestore
                 status cl).
Qed.

(** X3: the replay makes no call of [restoreResource], successful or
    not, for an object whose path was in [created] when it started: what
    the definition installer applied is not applied again. *)
Theorem replay_never_calls_created
    (deps : gmap string (list restoreObj)) (created : gmap string bool)
    (nums : gmap string nat) (toRestore : list restoreObj)
    (status : gmap string bool) (cl : Cluster) (r : applyRecord) :
  r ∈ rsLog (createFromDependencyGraph deps created nums toRestore status
               cl).1 →
  flag created (ResourceConfigPath (arObj r)) = false.
Proof.
  destruct (createFromDependencyGraph_books deps created nums toRestore
              status cl) as [_ _ Hcalls _].
  apply Hcalls.
Qed.

(** X4: the number the replay prints as restored is the number of calls
    of [restoreResource] that returned nil; objects passed over as already
    created and failed applies are not counted. *)
Theorem replay_counts_applied
    (deps : gmap string (list restoreObj)) (created : gmap string bool)
    (nums : gmap string nat) (toRestore : list restoreObj)
    (status : gmap string bool) (cl : Cluster) :
  rsCountRestored
    (createFromDependencyGraph deps created nums toRestore status cl).1
  = length (appliedObjects
              (rsLog (createFromDependencyGraph deps created nums toRestore
                        status cl).1)).
Proof.
  by destruct (createFromDependencyGraph_books deps created nums toRestore
                 status cl).
Qed.

End Books.

(** The first call of a replay of the failing archive that starts with the
    definition [widgets] created. *)
Lemma replay_never_calls_created_witness :
  let r :=
    default Scenario.noRecord
      (rsLog (Scenario.replayOf Scenario.failingArchive
                Scenario.widgetsCreated ∅) !! 0) in
  flag Scenario.widgetsCreated (ResourceConfigPath (arObj r)) = false.
Proof.
  intros r.
  apply (replay_never_calls_created (H := Scenario.world)
           (ownerToDependentsList
              (Scenario.builtGraph Scenario.failingArchive))
           Scenario.widgetsCreated
           (numOwnerReferences (Scenario.builtGraph Scenario.failingArchive))
           (toRestore (Scenario.builtGraph Scenario.failingArchive))
           ∅ ∅ r).
  apply (list_elem_of_lookup_2 _ 0). vm_compute. reflexivity.
Defined.

Section Blocked.
Context `{Collaborators}.

(** ** Objects the replay never reaches *)

(** X5: an object one of whose owner entries resolves to a path that no
    object of the archive has is never applied by the replay (and nothing
    is reported for it). *)
Theorem missing_parent_never_applied
    (fs : FS) (cl cl' : Cluster) (backupPath : string)
    (transformerMap : TransformerMap) (g : graph)
    (created status : gmap string bool) (B : restoreObj) (P : string) :
  generateDependencyGraph fs cl backupPath transformerMap emptyGraph
  = Done (g, None) →
  distinctPaths (archiveObjects fs backupPath transformerMap) →
  P ∈ ownerTargets cl backupPath B →
  (∀ d, d ∈ archiveObjects fs backupPath transformerMap →
        ResourceConfigPath d ≠ P) →
  B ∉ appliedObjects
        (rsLog (createFromDependencyGraph (ownerToDependentsList g) created
                  (numOwnerReferences g) (toRestore g) status cl').1).
Proof.
  intros Hbuilt Hnd Howner Hmissing HB.
  pose proof (generateDependencyGraph_graphOf _ _ _ _ _ Hbuilt Hnd) as Hg.
  destruct (createFromDependencyGraph_inv cl cl' backupPath _ g created
              status Hg) as [_ _ _ _ _ Horder].
  apply list_elem_of_lookup in HB as [i HB].
  destruct (Horder i B HB) as [_ Hbefore].
  destruct (Hbefore _ Howner) as (j & a & Hj & Ha & Hpath).
  destruct (Horder j a Ha) as [Hobj _].
  by apply (Hmissing a Hobj).
Qed.

(** The loop over the dependents, for any measure [u] the counts cover
    and any property [Q] of the objects whose measure is zero. *)
Lemma releaseDependents_covered (objs : list restoreObj)
    (u : restoreObj → nat) (Q : restoreObj → Prop)
    (l : list restoreObj) (nums : gmap string nat)
    (queue : list restoreObj) :
  (∀ d, d ∈ l → d ∈ objs) →
  (∀ d, d ∈ objs →
        u d + occurrencesOf (ResourceConfigPath d) l
        ≤ count nums (ResourceConfigPath d)) →
  (∀ d, d ∈ queue → Q d) →
  (∀ d, d ∈ objs → u d = 0 → Q d) →
  (∀ d, d ∈ objs →
        u d ≤ count (releaseDependents l nums queue).1 (ResourceConfigPath d))
  ∧ (∀ d, d ∈ (releaseDependents l nums queue).2 → Q d).
Proof.
  intros Hl Hcount Hqueue HQ. revert nums queue Hl Hcount Hqueue.
  induction l as [|x t IH]; intros nums queue Hl Hcount Hqueue.
  - simpl. split; [|done]. intros d Hd. specialize (Hcount d Hd).
    unfold occurrencesOf in Hcount. simpl in Hcount. lia.
  - cbn [releaseDependents].
    set (key := ResourceConfigPath x).
    assert (Hx : x ∈ objs) by (apply Hl; left).
    pose proof (Hcount x Hx) as Hcx.
    rewrite occurrencesOf_cons, decide_True in Hcx by done.
    fold key in Hcx.
    rewrite decide_True by lia.
    set (nums1 := <[key := count nums key - 1]> nums).
    assert (Hcount1 : ∀ d, d ∈ objs →
              u d + occurrencesOf (ResourceConfigPath d) t
              ≤ count nums1 (ResourceConfigPath d)).
    { intros d Hd. specialize (Hcount d Hd).
      rewrite occurrencesOf_cons in Hcount. fold key in Hcount.
      unfold nums1. rewrite count_insert.
      destruct (decide (key = ResourceConfigPath d)) as [Heq|Hne].
      - rewrite <- Heq in *. lia.
      - lia. }
    apply IH.
    + intros d Hd. apply Hl. by right.
    + done.
    + destruct (decide (count nums1 key = 0)) as [Hzero|]; [|done].
      intros d Hd. apply elem_of_app in Hd as [Hd|Hd]; [eauto|].
      apply list_elem_of_singleton in Hd as ->.
      apply HQ; [done|]. specialize (Hcount1 x Hx). fold key in Hcount1.
      lia.
Qed.

Lemma initialReplay_slack (cl cl' : Cluster) (backupPath : string)
    (objs : list restoreObj) (g : graph) (created : gmap string bool) :
  graphOf cl backupPath objs g →
  replaySlack cl backupPath objs
    (initialReplay created (numOwnerReferences g) (toRestore g) cl').
Proof.
  intros [Hq Hk Hc Hl]. split; simpl.
  - intros d Hd. destruct (Hq d Hd) as [_ Hnone].
    unfold skippedOwners. by rewrite Hnone.
  - intros d Hd. unfold unresolved, skippedOwners.
    destruct (ownerRefsOf d) as [refs|] eqn:Hrefs.
    + pose proof (ownerTargets_length cl backupPath d refs Hrefs).
      unfold count. rewrite (Hc d refs Hd Hrefs). simpl.
      match goal with
      | |- context [@filter _ _ _ ?f ?dec ?l] =>
          pose proof (@length_filter _ f dec l)
      end.
      lia.
    + unfold ownerTargets. rewrite Hrefs. simpl. lia.
  - intros d Hd. by apply elem_of_nil in Hd.
Qed.

Lemma replaySlack_pass (cl : Cluster) (backupPath : string)
    (objs : list restoreObj) (st st' : replayState) :
  replaySlack cl backupPath objs st →
  (∀ d, d ∈ rsToRestore st' → d ∈ rsToRestore st) →
  rsNumOwnerReferences st' = rsNumOwnerReferences st →
  appliedObjects (rsLog st') = appliedObjects (rsLog st) →
  replaySlack cl backupPath objs st'.
Proof.
  intros [Hq Hc Ha] Hsub Hnums Hlog.
  split; unfold appliedPaths in *; rewrite ?Hnums, ?Hlog; eauto.
Qed.

Lemma replayStep_slack (cl : Cluster) (backupPath : string)
    (objs : list restoreObj) (g : graph) (created0 status : gmap string bool)
    (st st' : replayState) (e : option string) :
  graphOf cl backupPath objs g →
  replayInv cl backupPath objs created0 st →
  replaySlack cl backupPath objs st →
  replayStep (ownerToDependentsList g) status st = Some (st', e) →
  replaySlack cl backupPath objs st'.
Proof.
  intros [Gq Gk Gc Gl] Hinv Hslack. unfold replayStep.
  destruct (rsToRestore st) as [|curr rest] eqn:Hqueue; [done|].
  destruct (flag (rsCreated st) (ResourceConfigPath curr)) eqn:Hfresh.
  { intros [= <- <-]. apply (replaySlack_pass _ _ _ st); try done.
    simpl. intros d Hd. rewrite Hqueue. by right. }
  destruct (restoreResource _ _ _ _) as [[cl' evs] res].
  destruct res as [[err|]|msg].
  { intros [= <- <-]. apply (replaySlack_pass _ _ _ st); try done; simpl.
    - intros d Hd. rewrite Hqueue. by right.
    - by rewrite appliedObjects_snoc, app_nil_r. }
  2:{ intros [= <- <-]. apply (replaySlack_pass _ _ _ st); try done; simpl.
      - intros d Hd. rewrite Hqueue. by right.
      - by rewrite appliedObjects_snoc, app_nil_r. }
  destruct Hinv as [Hq _ Hcr _ _ _].
  destruct Hslack as [Sq Sc Sa].
  set (P := ResourceConfigPath curr) in *.
  set (done := appliedPaths (rsLog st)) in *.
  assert (Hnew : P ∉ done).
  { intros HP. apply Hcr in HP. congruence. }
  pose proof (releaseDependents_covered objs
                (λ d, unresolved cl backupPath (done ++ [P]) d
                      + skippedOwners cl backupPath d)
                (λ d, skippedOwners cl backupPath d = 0)
                (dependentsOf (ownerToDependentsList g) P)
                (rsNumOwnerReferences st) rest) as Hrel.
  destruct Hrel as [Hcount' Hqueue'].
  { intros d Hd. eauto. }
  { intros d Hd. specialize (Sc d Hd). fold done in Sc.
    rewrite (unresolved_snoc cl backupPath done P d Hnew) in Sc.
    rewrite Gl by done. lia. }
  { intros d Hd. apply Sq. rewrite Hqueue. by right. }
  { intros d _ Hzero. lia. }
  destruct (releaseDependents _ _ _) as [nums' queue'].
  intros [= <- <-].
  split; cbn [rsToRestore rsNumOwnerReferences rsLog].
  - done.
  - rewrite appliedPaths_snoc. done.
  - rewrite appliedObjects_snoc. simpl. intros d Hd.
    apply elem_of_app in Hd as [Hd|Hd]; [eauto|].
    apply list_elem_of_singleton in Hd as ->.
    apply Sq. rewrite Hqueue. left.
Qed.

Lemma createFromDependencyGraph_slack (cl cl' : Cluster)
    (backupPath : string) (objs : list restoreObj) (g : graph)
    (created status : gmap string bool) :
  graphOf cl backupPath objs g →
  replaySlack cl backupPath objs
    (createFromDependencyGraph (ownerToDependentsList g) created
       (numOwnerReferences g) (toRestore g) status cl').1.
Proof.
  intros Hg. unfold createFromDependencyGraph.
  assert (Hloop : ∀ fuel st0,
             replayInv cl backupPath objs created st0 →
             replaySlack cl backupPath objs st0 →
             replaySlack cl backupPath objs
               (replayLoop fuel (ownerToDependentsList g) status st0).1).
  { induction fuel as [|fuel IH]; intros st0 Hinv Hslack; simpl;
      destruct (replayStep (ownerToDependentsList g) status st0)
        as [[st' [msg|]]|] eqn:Hstep;
      simpl; eauto using replayStep_slack, replayStep_inv. }
  specialize (Hloop (replayFuel (ownerToDependentsList g) created
                       (toRestore g))
                (initialReplay created (numOwnerReferences g) (toRestore g)
                   cl')
                (initialReplay_inv cl cl' backupPath objs g created Hg)
                (initialReplay_slack cl cl' backupPath objs g created Hg)).
  by destruct (replayLoop _ _ _ _).
Qed.

(** X6: an object whose owner list has an entry that the builder passes
    over (an entry that is no map, or whose apiVersion does not parse) is
    never applied by the replay: the entry is counted and nothing ever
    takes it off the count. *)
Theorem passed_over_entry_blocks_object
    (fs : FS) (cl cl' : Cluster) (backupPath : string)
    (transformerMap : TransformerMap) (g : graph)
    (created status : gmap string bool) (B : restoreObj)
    (refs : list JSON) :
  generateDependencyGraph fs cl backupPath transformerMap emptyGraph
  = Done (g, None) →
  distinctPaths (archiveObjects fs backupPath transformerMap) →
  ownerRefsOf B = Some refs →
  length (ownerTargets cl backupPath B) < length refs →
  B ∉ appliedObjects
        (rsLog (createFromDependencyGraph (ownerToDependentsList g) created
                  (numOwnerReferences g) (toRestore g) status cl').1).
Proof.
  intros Hbuilt Hnd Hrefs Hless HB.
  pose proof (generateDependencyGraph_graphOf _ _ _ _ _ Hbuilt Hnd) as Hg.
  destruct (createFromDependencyGraph_slack cl cl' backupPath _ g created
              status Hg) as [_ _ Happlied].
  specialize (Happlied B HB). unfold skippedOwners in Happlied.
  rewrite Hrefs in Happlied. simpl in Happlied. lia.
Qed.

End Blocked.

(** Template [x] of the counting archive names catalog [z], which the
    archive does not hold. *)
Lemma missing_parent_never_applied_witness :
  Scenario.objectAt Scenario.countingArchive 1
  ∉ appliedObjects
      (rsLog (createFromDependencyGraph (H := Scenario.world)
                (ownerToDependentsList
                   (Scenario.builtGraph Scenario.countingArchive))
                ∅
                (numOwnerReferences
                   (Scenario.builtGraph Scenario.countingArchive))
                (toRestore (Scenario.builtGraph Scenario.countingArchive))
                ∅ ∅).1).
Proof.
  apply (missing_parent_never_applied (H := Scenario.world)
           (Scenario.unpacked Scenario.countingArchive) ∅ ∅ Scenario.root
           (λ _, None) (Scenario.builtGraph Scenario.countingArchive)
           ∅ ∅ (Scenario.objectAt Scenario.countingArchive 1)
           "/tmp/backup123/catalogs.management.cattle.io#v3/z.json").
  - vm_compute. reflexivity.
  - unfold distinctPaths. apply (bool_decide_unpack _). vm_compute. exact I.
  - apply (list_elem_of_lookup_2 _ 2). vm_compute. reflexivity.
  - apply Forall_forall. apply (bool_decide_unpack _). vm_compute. exact I.
Defined.

(** Template [s] of the archive with an entry that does not parse: two
    entries, one owner path. *)
Lemma passed_over_entry_blocks_object_witness :
  Scenario.objectAt Scenario.skippedArchive 1
  ∉ appliedObjects
      (rsLog (createFromDependencyGraph (H := Scenario.world)
                (ownerToDependentsList
                   (Scenario.builtGraph Scenario.skippedArchive))
                ∅
                (numOwnerReferences
                   (Scenario.builtGraph Scenario.skippedArchive))
                (toRestore (Scenario.builtGraph Scenario.skippedArchive))
                ∅ ∅).1).
Proof.
  apply (passed_over_entry_blocks_object (H := Scenario.world)
           (Scenario.unpacked Scenario.skippedArchive) ∅ ∅ Scenario.root
           (λ _, None) (Scenario.builtGraph Scenario.skippedArchive)
           ∅ ∅ (Scenario.objectAt Scenario.skippedArchive 1)
           (default [] (ownerRefsOf
                          (Scenario.objectAt Scenario.skippedArchive 1)))).
  - vm_compute. reflexivity.
  - unfold distinctPaths. apply (bool_decide_unpack _). vm_compute. exact I.
  - vm_compute. reflexivity.
  - vm_compute. lia.
Defined.

(** The restore of that archive returns nil having written [a] alone. *)
Lemma passed_over_entry_run :
  let '(_, _, evs, out) := Scenario.run Scenario.skippedArchive in
  out = Done (Scenario.request, None) ∧ Scenario.written evs = ["a"].
Proof. vm_compute. split; reflexivity. Qed.

Section Executor.
Context `{Collaborators}.

(** ** The apply executor and the owner-reference rewriter *)

Lemma lookupField_setField_eq (m : object) (k : string) (v : JSON) :
  lookupField (setField m k v) k = Some v.
Proof.
  induction m as [|[k' v'] m IH]; simpl.
  - by rewrite String.eqb_refl.
  - destruct (String.eqb k' k) eqn:Hk; simpl.
    + by rewrite String.eqb_refl.
    + by rewrite Hk.
Qed.

Lemma lookupField_setField_ne (m : object) (k k' : string) (v : JSON) :
  k ≠ k' → lookupField (setField m k v) k' = lookupField m k'.
Proof.
  intros Hne. induction m as [|[k0 v0] m IH]; simpl.
  - by apply String.eqb_neq in Hne as ->.
  - destruct (String.eqb k0 k) eqn:Hk; simpl.
    + apply String.eqb_eq in Hk as ->.
      by apply String.eqb_neq in Hne as ->.
    + destruct (String.eqb k0 k'); [done|apply IH].
Qed.

Lemma getOwnerNewUID_gets (cl : Cluster) (owner : restoreObj) :
  Forall (λ e, isGet e = true) (getOwnerNewUID cl owner).1.2.
Proof.
  unfold getOwnerNewUID. destruct (dynamic_Get _ _ _ _) as [cl' [obj|err]].
  - repeat case_match; repeat constructor.
  - repeat constructor.
Qed.

Lemma updateOwnerRefs_gets (cl : Cluster) (refs : list JSON)
    (namespace : string) :
  Forall (λ e, isGet e = true) (updateOwnerRefs cl refs namespace).1.2.
Proof.
  revert cl. induction refs as [|ownerRef rest IH]; intros cl; simpl;
    [constructor|].
  destruct ownerRef; try constructor.
  destruct (_ || _).
  - specialize (IH cl).
    destruct (updateOwnerRefs cl rest namespace) as [[cl' evs] [[l|e]|m]];
      done.
  - destruct (ParseGroupVersion _); [|constructor].
    destruct (ResourceForGVK _ _) as [[gvr ns]|]; [|constructor].
    match goal with
    | |- context [getOwnerNewUID ?c ?o] =>
        pose proof (getOwnerNewUID_gets c o) as Huid;
        destruct (getOwnerNewUID c o) as [[cl1 evs1] [[uid|e]|m]]
    end; simpl in *; try done.
    specialize (IH cl1).
    destruct (updateOwnerRefs cl1 rest namespace) as [[cl2 evs2] [[l|e]|m]];
      simpl in *; by apply Forall_app.
Qed.

Lemma filter_isWrite_gets (evs : list event) :
  Forall (λ e, isGet e = true) evs → List.filter isWrite evs = [].
Proof.
  induction 1 as [|e evs He _ IH]; [done|].
  simpl. rewrite IH. by destruct e.
Qed.

(** X7: whatever the cluster answers, one call of [restoreResource]
    writes at most one object, by a create or by an update and never by
    both, and writes the status only after that write and only when it
    was asked to. *)
Theorem restoreResource_writes_once (cl : Cluster) (d : restoreObj)
    (gvr : GroupVersionResource) (hasStatusSubresource : bool) :
  applyWrites gvr hasStatusSubresource
    (List.filter isWrite
       (restoreResource cl d gvr hasStatusSubresource).1.2).
Proof.
  destruct (restoreResource cl d gvr hasStatusSubresource)
    as [[cl' evs] out] eqn:Hr.
  unfold restoreResource, writeStatus in Hr. simpl.
  destruct hasStatusSubresource.
  all: repeat case_match; simplify_eq.
  all: try match goal with
      | Hu : updateOwnerRefs ?c ?l ?n = _ |- _ =>
          pose proof (updateOwnerRefs_gets c l n) as Hno;
          rewrite Hu in Hno; simpl in Hno;
          apply filter_isWrite_gets in Hno
      end.
  all: rewrite ?List.filter_app, ?Hno; simpl; by econstructor.
Qed.

(** X8: when the object (one without an owner list) is already in the
    cluster, [restoreResource] reads it and sends an update, not a create;
    the object sent is the archived document with the live
    [resourceVersion] put into its metadata and nothing else changed. *)
Theorem existing_object_updated_with_live_version
    (cl cl1 : Cluster) (d : restoreObj) (gvr : GroupVersionResource)
    (hasStatusSubresource : bool) (fileMap metadata res resMetadata : object)
    (name resourceVersion : string) :
  Data d = Some fileMap →
  asObject (lookupField fileMap metadataMapKey) = Some metadata →
  asString (lookupField metadata "name") = Some name →
  asArray (lookupField metadata ownerRefsMapKey) = None →
  dynamic_Get cl gvr
    (default "" (asString (lookupField metadata "namespace"))) name
  = (cl1, inl res) →
  asObject (lookupField res metadataMapKey) = Some resMetadata →
  asString (lookupField resMetadata "resourceVersion")
  = Some resourceVersion →
  ∃ obj metadata' more,
    (restoreResource cl d gvr hasStatusSubresource).1.2
    = [EvGet gvr (default "" (asString (lookupField metadata "namespace")))
         name;
       EvUpdate gvr (default "" (asString (lookupField metadata "namespace")))
         obj] ++ more
    ∧ Forall (λ e, isStatusWrite e = true) more
    ∧ asObject (lookupField obj metadataMapKey) = Some metadata'
    ∧ asString (lookupField metadata' "resourceVersion")
      = Some resourceVersion
    ∧ (∀ k, k ≠ "resourceVersion" →
            lookupField metadata' k = lookupField metadata k)
    ∧ (∀ k, k ≠ metadataMapKey → lookupField obj k = lookupField fileMap k).
Proof.
  intros Hdata Hmeta Hname Hrefs Hget Hres Hrv.
  unfold restoreResource, writeStatus.
  rewrite Hdata, Hmeta, Hname, Hrefs, Hget, Hres, Hrv, Hmeta.
  exists (setField fileMap metadataMapKey
            (JObject (setField metadata "resourceVersion"
                        (JString resourceVersion)))),
    (setField metadata "resourceVersion" (JString resourceVersion)).
  destruct (dynamic_Update cl1 gvr _ _) as [cl2 [updated|err]].
  - destruct hasStatusSubresource.
    + destruct (dynamic_UpdateStatus cl2 gvr _ _) as [cl3 st].
      eexists. split; [reflexivity|].
      split; [repeat constructor|].
      rewrite !lookupField_setField_eq. simpl.
      repeat split; try done; intros k Hk;
        by rewrite lookupField_setField_ne.
    + exists []. split; [reflexivity|]. split; [constructor|].
      rewrite !lookupField_setField_eq. simpl.
      repeat split; try done; intros k Hk;
        by rewrite lookupField_setField_ne.
  - exists []. split; [reflexivity|]. split; [constructor|].
    rewrite !lookupField_setField_eq. simpl.
    repeat split; try done; intros k Hk;
      by rewrite lookupField_setField_ne.
Qed.

(** X9: when [updateOwnerRefs] returns without error, the list it leaves
    has the entries of the list it was given, in order, each as it was or
    with nothing but its [uid] replaced; and it made only reads of the
    cluster. *)
Theorem updateOwnerRefs_changes_only_uid (cl cl' : Cluster)
    (refs refs' : list JSON) (namespace : string) (evs : list event) :
  updateOwnerRefs cl refs namespace = (cl', evs, Done (inl refs')) →
  Forall2 uidRewritten refs refs' ∧ Forall (λ e, isGet e = true) evs.
Proof.
  intros Hu. split.
  2:{ pose proof (updateOwnerRefs_gets cl refs namespace) as Hg.
      by rewrite Hu in Hg. }
  revert cl cl' refs' evs Hu.
  induction refs as [|ownerRef rest IH]; intros cl cl' refs' evs; simpl.
  - intros [= <- <- <-]. constructor.
  - destruct ownerRef as [| | | |?|reference]; try done.
    destruct (_ || _).
    + destruct (updateOwnerRefs cl rest namespace)
        as [[cl1 evs1] [[rest'|e]|m]] eqn:Hrest; try done.
      intros [= <- <- <-]. constructor; [by left|eauto].
    + destruct (ParseGroupVersion _) as [gv|]; [|done].
      destruct (ResourceForGVK _ _) as [[gvr ns]|]; [|done].
      destruct (getOwnerNewUID _ _) as [[cl1 evs1] [[uid|e]|m]]; try done.
      destruct (updateOwnerRefs cl1 rest namespace)
        as [[cl2 evs2] [[rest'|e]|m]] eqn:Hrest; try done.
      intros [= <- <- <-]. constructor; [right; eauto|eauto].
Qed.

(** X10: entries whose apiVersion or kind is empty are passed over: on a
    list of such entries [updateOwnerRefs] makes no call on the cluster
    and returns the list as it was, without error. *)
Theorem updateOwnerRefs_passes_over_blank (cl : Cluster)
    (refs : list JSON) (namespace : string) :
  Forall blankEntry refs →
  updateOwnerRefs cl refs namespace = (cl, [], Done (inl refs)).
Proof.
  induction 1 as [|ownerRef rest (reference & -> & Hblank) _ IH]; [done|].
  simpl. rewrite IH.
  destruct Hblank as [-> | ->]; simpl; [done|].
  by rewrite orb_true_r.
Qed.

Lemma restoreResource_no_status (cl : Cluster) (d : restoreObj)
    (gvr : GroupVersionResource) :
  Forall (λ e, isStatusWrite e = false) (restoreResource cl d gvr false).1.2.
Proof.
  destruct (restoreResource cl d gvr false) as [[cl' evs] out] eqn:Hr.
  unfold restoreResource, writeStatus in Hr. simpl.
  repeat case_match; simplify_eq.
  all: try match goal with
      | Hu : updateOwnerRefs ?c ?l ?n = _ |- _ =>
          pose proof (updateOwnerRefs_no_status c l n) as Hno;
          rewrite Hu in Hno; simpl in Hno
      end.
  all: repeat (apply Forall_app; split); repeat constructor; done.
Qed.

Lemma restoreCRDFile_no_status (fs : FS) (resourceDirPath : string)
    (gvr : GroupVersionResource) (tr : option Transformer)
    (resFile : dirent) (cl : Cluster) (created : gmap string bool) :
  Forall (λ e, isStatusWrite e = false)
    (restoreCRDFile fs resourceDirPath gvr tr resFile cl created).1.2.
Proof.
  unfold restoreCRDFile.
  destruct (readDocument _ _ _ _) as [crdData|err]; [|constructor].
  match goal with
  | |- context [restoreResource ?c ?o ?g false] =>
      pose proof (restoreResource_no_status c o g) as Hno;
      destruct (restoreResource c o g false) as [[cl' evs] [[err|]|msg]]
  end; done.
Qed.

Lemma restoreCRDFiles_no_status (fs : FS) (resourceDirPath : string)
    (gvr : GroupVersionResource) (tr : option Transformer)
    (dirContents : list dirent) (cl : Cluster)
    (created : gmap string bool) :
  Forall (λ e, isStatusWrite e = false)
    (restoreCRDFiles fs resourceDirPath gvr tr dirContents cl created).1.2.
Proof.
  revert cl created.
  induction dirContents as [|resFile rest IH]; intros cl created; simpl;
    [constructor|].
  pose proof (restoreCRDFile_no_status fs resourceDirPath gvr tr resFile cl
                created) as Hfile.
  destruct (restoreCRDFile _ _ _ _ _ _ _)
    as [[cl1 evs1] [[created1 [err|]]|msg]]; try done.
  specialize (IH cl1 created1).
  destruct (restoreCRDFiles _ _ _ _ _ _ _) as [[cl2 evs2] out].
  simpl in *. by apply Forall_app.
Qed.

Lemma restoreCRDDirs_no_status (fs : FS) (backupPath : string)
    (transformerMap : TransformerMap) (resourceGVKs : list string)
    (cl : Cluster) (created : gmap string bool) :
  Forall (λ e, isStatusWrite e = false)
    (restoreCRDDirs fs backupPath transformerMap resourceGVKs cl
       created).1.2.
Proof.
  revert cl created.
  induction resourceGVKs as [|resourceGVK rest IH]; intros cl created;
    simpl; [constructor|].
  destruct (match os_Stat fs _ with Some err => IsNotExist err | None => false
            end); [apply IH|].
  destruct (getGVR resourceGVK) as [gvr|msg]; [|constructor].
  destruct (ioutil_ReadDir fs _) as [dirContents|err]; [|constructor].
  match goal with
  | |- context [restoreCRDFiles ?a ?b ?c ?d ?e ?f ?g] =>
      pose proof (restoreCRDFiles_no_status a b c d e f g) as Hfiles;
      destruct (restoreCRDFiles a b c d e f g)
        as [[cl1 evs1] [[created1 [err|]]|msg]]
  end; try done.
  specialize (IH cl1 created1).
  destruct (restoreCRDDirs _ _ _ _ _ _) as [[cl2 evs2] out].
  simpl in *. by apply Forall_app.
Qed.

(** X11: the definition installer never writes a status subresource,
    whatever the archive holds and whatever the cluster answers: every
    definition is applied with [hasStatusSubresource] false. *)
Theorem restoreCRDs_never_writes_status (fs : FS) (backupPath : string)
    (transformerMap : TransformerMap) (cl : Cluster)
    (created : gmap string bool) :
  Forall (λ e, isStatusWrite e = false)
    (restoreCRDs fs backupPath transformerMap cl created).1.2.
Proof. apply restoreCRDDirs_no_status. Qed.

Lemma restoreCRDFiles_created (fs : FS) (resourceDirPath : string)
    (gvr : GroupVersionResource) (tr : option Transformer)
    (dirContents : list dirent) (cl cl' : Cluster)
    (created created' : gmap string bool) (evs : list event) :
  restoreCRDFiles fs resourceDirPath gvr tr dirContents cl created
  = (cl', evs, Done (created', None)) →
  ∀ P, flag created' P = true
       ↔ flag created P = true
         ∨ P ∈ map (λ resFile,
                      Filepath.Join [resourceDirPath; entryName resFile])
                 dirContents.
Proof.
  revert cl created evs.
  induction dirContents as [|resFile rest IH]; intros cl created evs; simpl.
  - intros [= <- <- <-] P. split; [by left|]. intros [HP|HP]; [done|].
    by apply elem_of_nil in HP.
  - unfold restoreCRDFile.
    destruct (readDocument _ _ _ _) as [crdData|err]; [|done].
    destruct (restoreResource _ _ _ _) as [[cl1 evs1] [[err|]|msg]];
      try done.
    destruct (restoreCRDFiles _ _ _ _ _ _ _) as [[cl2 evs2] out] eqn:Hrest.
    intros [= <- <- ->] P.
    rewrite (IH _ _ _ Hrest P), flag_insert, elem_of_cons.
    destruct (decide (_ = P)) as [<-|Hne].
    + split; [intros _; right; by left|by left].
    + split.
      * intros [HP|HP]; [by left|right; by right].
      * intros [HP|[HP|HP]]; [by left| |by right].
        exfalso. apply Hne. symmetry. exact HP.
Qed.

Lemma restoreCRDDirs_created (fs : FS) (backupPath : string)
    (transformerMap : TransformerMap) (resourceGVKs : list string)
    (cl cl' : Cluster) (created created' : gmap string bool)
    (evs : list event) :
  restoreCRDDirs fs backupPath transformerMap resourceGVKs cl created
  = (cl', evs, Done (created', None)) →
  ∀ P, flag created' P = true
       ↔ flag created P = true
         ∨ P ∈ flat_map
                 (λ resourceGVK,
                    let resourceDirPath :=
                      Filepath.Join [backupPath; resourceGVK] in
                    if match os_Stat fs resourceDirPath with
                       | Some err => IsNotExist err
                       | None => false
                       end
                    then []
                    else match ioutil_ReadDir fs resourceDirPath with
                         | inl dirContents =>
                             map (λ resFile,
                                    Filepath.Join
                                      [resourceDirPath; entryName resFile])
                               dirContents
                         | inr _ => []
                         end)
                 resourceGVKs.
Proof.
  revert cl created evs.
  induction resourceGVKs as [|resourceGVK rest IH]; intros cl created evs.
  - simpl. intros [= <- <- <-] P. split; [by left|].
    intros [HP|HP]; [done|]. by apply elem_of_nil in HP.
  - cbn [restoreCRDDirs flat_map].
    destruct (match os_Stat fs _ with Some err => IsNotExist err | None => false
              end).
    { intros Hrest P. by rewrite (IH _ _ _ Hrest P). }
    destruct (getGVR resourceGVK) as [gvr|msg]; [|done].
    destruct (ioutil_ReadDir fs _) as [dirContents|err]; [|done].
    destruct (restoreCRDFiles _ _ _ _ _ _ _)
      as [[cl1 evs1] [[created1 [err|]]|msg]] eqn:Hfiles; try done.
    destruct (restoreCRDDirs _ _ _ _ _ _) as [[cl2 evs2] out] eqn:Hrest.
    intros [= <- <- ->] P.
    rewrite (IH _ _ _ Hrest P), (restoreCRDFiles_created _ _ _ _ _ _ _ _ _ _
                                   Hfiles P), elem_of_app.
    tauto.
Qed.

(** X12: when [restoreCRDs] returns without error, [created] holds what
    it held before and the path of every file of the definition
    directories that are there, and nothing else. *)
Theorem restoreCRDs_marks_definition_files (fs : FS) (backupPath : string)
    (transformerMap : TransformerMap) (cl cl' : Cluster)
    (created created' : gmap string bool) (evs : list event) (P : string) :
  restoreCRDs fs backupPath transformerMap cl created
  = (cl', evs, Done (created', None)) →
  flag created' P = true
  ↔ flag created P = true ∨ P ∈ definitionFiles fs backupPath.
Proof.
  intros Hcrds.
  apply (restoreCRDDirs_created _ _ _ _ _ _ _ _ _ Hcrds P).
Qed.

(** X13: [restoreResource] asserts the [name] of the metadata without a
    check: when an object whose metadata has no string [name] comes first
    in the queue and is not yet created, the replay panics before it
    makes any call on the cluster. *)
Theorem nameless_object_panics_replay
    (deps : gmap string (list restoreObj)) (created : gmap string bool)
    (nums : gmap string nat) (d : restoreObj) (rest : list restoreObj)
    (status : gmap string bool) (cl : Cluster) (fileMap metadata : object) :
  flag created (ResourceConfigPath d) = false →
  Data d = Some fileMap →
  asObject (lookupField fileMap metadataMapKey) = Some metadata →
  asString (lookupField metadata "name") = None →
  let '(st, res) :=
    createFromDependencyGraph deps created nums (d :: rest) status cl in
  res = Panic "interface conversion: name is not string"
  ∧ appliedObjects (rsLog st) = []
  ∧ logEvents (rsLog st) = [].
Proof.
  intros Hfresh Hdata Hmeta Hname.
  unfold createFromDependencyGraph.
  destruct (replayFuel deps created (d :: rest)) as [|fuel];
    simpl; unfold replayStep; simpl;
    rewrite Hfresh; unfold restoreResource; rewrite Hdata, Hmeta, Hname;
    done.
Qed.

End Executor.

(** Catalog [a] restored onto a cluster that holds it at version 7. *)
Lemma existing_object_updated_with_live_version_witness :
  ∃ obj metadata' more,
    (restoreResource (H := Scenario.world) Scenario.clusterWithCatalog
       Scenario.archivedCatalog Scenario.catalogsGVR false).1.2
    = [EvGet Scenario.catalogsGVR
         (default "" (asString (lookupField [("name", JString "a")]
                                  "namespace"))) "a";
       EvUpdate Scenario.catalogsGVR
         (default "" (asString (lookupField [("name", JString "a")]
                                  "namespace"))) obj] ++ more
    ∧ Forall (λ e, isStatusWrite e = true) more
    ∧ asObject (lookupField obj metadataMapKey) = Some metadata'
    ∧ asString (lookupField metadata' "resourceVersion") = Some "7"
    ∧ (∀ k, k ≠ "resourceVersion" →
            lookupField metadata' k = lookupField [("name", JString "a")] k)
    ∧ (∀ k, k ≠ metadataMapKey →
            lookupField obj k
            = lookupField [("apiVersion", JString "management.cattle.io/v3");
                           ("kind", JString "Catalog");
                           ("metadata", JObject [("name", JString "a")])] k).
Proof.
  apply (existing_object_updated_with_live_version (H := Scenario.world)
           Scenario.clusterWithCatalog Scenario.clusterWithCatalog
           Scenario.archivedCatalog Scenario.catalogsGVR false
           [("apiVersion", JString "management.cattle.io/v3");
            ("kind", JString "Catalog");
            ("metadata", JObject [("name", JString "a")])]
           [("name", JString "a")]
           Scenario.liveCatalog
           [("name", JString "a"); ("uid", JString "uid-live");
            ("resourceVersion", JString "7")]
           "a" "7");
    reflexivity.
Defined.

(** An owner list of one entry, of catalog [a], on that cluster. *)
Lemma updateOwnerRefs_changes_only_uid_witness :
  Forall2 uidRewritten
    [Scenario.ownerRef "management.cattle.io/v3" "Catalog" "a"]
    [JObject [("apiVersion", JString "management.cattle.io/v3");
              ("kind", JString "Catalog"); ("name", JString "a");
              ("uid", JString "uid-live")]]
  ∧ Forall (λ e, isGet e = true) [EvGet Scenario.catalogsGVR "" "a"].
Proof.
  apply (updateOwnerRefs_changes_only_uid (H := Scenario.world)
           Scenario.clusterWithCatalog Scenario.clusterWithCatalog
           [Scenario.ownerRef "management.cattle.io/v3" "Catalog" "a"]
           _ "" _).
  vm_compute. reflexivity.
Defined.

(** Two entries, one without kind, one with an empty apiVersion. *)
Lemma updateOwnerRefs_passes_over_blank_witness :
  updateOwnerRefs (H := Scenario.world) ∅
    [JObject [("apiVersion", JString "v1"); ("name", JString "n")];
     JObject [("apiVersion", JString ""); ("kind", JString "Namespace")]]
    "ns1"
  = (∅, [],
     Done (inl [JObject [("apiVersion", JString "v1"); ("name", JString "n")];
                JObject [("apiVersion", JString "");
                         ("kind", JString "Namespace")]])).
Proof.
  apply (updateOwnerRefs_passes_over_blank (H := Scenario.world)).
  repeat constructor.
  - eexists. split; [reflexivity|]. right. reflexivity.
  - eexists. split; [reflexivity|]. left. reflexivity.
Defined.

(** The definitions of both versions on an empty cluster. *)
Lemma restoreCRDs_marks_definition_files_witness :
  flag (Scenario.installed Scenario.twoDefinitionsArchive)
    "/tmp/backup123/customresourcedefinitions.apiextensions.k8s.io#v1beta1/gadgets.json"
  = true
  ↔ flag (∅ : gmap string bool)
      "/tmp/backup123/customresourcedefinitions.apiextensions.k8s.io#v1beta1/gadgets.json"
    = true
    ∨ "/tmp/backup123/customresourcedefinitions.apiextensions.k8s.io#v1beta1/gadgets.json"
      ∈ definitionFiles (H := Scenario.world)
          (Scenario.unpacked Scenario.twoDefinitionsArchive) Scenario.root.
Proof.
  apply (restoreCRDs_marks_definition_files (H := Scenario.world)
           (Scenario.unpacked Scenario.twoDefinitionsArchive) Scenario.root
           (λ _, None) ∅
           (restoreCRDs (H := Scenario.world)
              (Scenario.unpacked Scenario.twoDefinitionsArchive)
              Scenario.root (λ _, None) ∅ ∅).1.1
           ∅ (Scenario.installed Scenario.twoDefinitionsArchive)
           (restoreCRDs (H := Scenario.world)
              (Scenario.unpacked Scenario.twoDefinitionsArchive)
              Scenario.root (λ _, None) ∅ ∅).1.2).
  vm_compute. reflexivity.
Defined.

(** The nameless catalog at the head of the queue. *)
Lemma nameless_object_panics_replay_witness :
  let '(st, res) :=
    createFromDependencyGraph (H := Scenario.world) ∅ ∅ ∅
      [Scenario.namelessCatalog; Scenario.archivedCatalog] ∅ ∅ in
  res = Panic "interface conversion: name is not string"
  ∧ appliedObjects (rsLog st) = []
  ∧ logEvents (rsLog st) = [].
Proof.
  apply (nameless_object_panics_replay (H := Scenario.world) ∅ ∅ ∅
           Scenario.namelessCatalog [Scenario.archivedCatalog] ∅ ∅
           [("apiVersion", JString "management.cattle.io/v3");
            ("kind", JString "Catalog");
            ("metadata", JObject [("labels", JObject [])])]
           [("labels", JObject [])]);
    reflexivity.
Defined.

(** ** Directory names *)

Lemma append_assoc (a b c : string) : (a +:+ b) +:+ c = a +:+ (b +:+ c).
Proof.
  induction a as [|x a IH]; [done|].
  change (String x ((a +:+ b) +:+ c) = String x (a +:+ (b +:+ c))).
  by rewrite IH.
Qed.

Lemma lacks_cons (c x : ascii) (s : string) :
  lacks c (String x s) ↔ x ≠ c ∧ lacks c s.
Proof.
  unfold lacks. simpl. destruct (Ascii.eqb x c) eqn:Hx.
  - apply Ascii.eqb_eq in Hx. split; [done|]. intros [? _]. done.
  - apply Ascii.eqb_neq in Hx.
    destruct (GoStrings.Cut c s) as [[a b]|]; split; try done.
    by intros [_ ?].
Qed.

Lemma lacks_app (c : ascii) (a b : string) :
  lacks c a → lacks c b → lacks c (a +:+ b).
Proof.
  intros Ha Hb. induction a as [|x a IH]; [done|].
  apply lacks_cons in Ha as [Hx Ha].
  change (String x a +:+ b) with (String x (a +:+ b)).
  apply lacks_cons. auto.
Qed.

Lemma Cut_app_sep (c : ascii) (a b : string) :
  lacks c a → GoStrings.Cut c (a +:+ String c b) = Some (a, b).
Proof.
  intros Ha. induction a as [|x a IH]; simpl.
  - by rewrite Ascii.eqb_refl.
  - apply lacks_cons in Ha as [Hx Ha].
    apply Ascii.eqb_neq in Hx. rewrite Hx.
    change (a ++ String c b)%string with (a +:+ String c b).
    by rewrite (IH Ha).
Qed.

Lemma Split_app_sep (c : ascii) (a b : string) :
  GoStrings.Split c (a +:+ String c b)
  = GoStrings.Split c a ++ GoStrings.Split c b.
Proof.
  induction a as [|x a IH]; simpl.
  - by rewrite Ascii.eqb_refl.
  - change (a ++ String c b)%string with (a +:+ String c b).
    rewrite IH. destruct (Ascii.eqb x c); [done|].
    pose proof (Split_nonempty c a) as Hne.
    destruct (GoStrings.Split c a); simpl in *; [lia|done].
Qed.

Lemma Split_lacks (c : ascii) (s : string) :
  lacks c s → GoStrings.Split c s = [s].
Proof.
  induction s as [|x s IH]; [done|].
  intros Hs. apply lacks_cons in Hs as [Hx Hs]. simpl.
  apply Ascii.eqb_neq in Hx. rewrite Hx. by rewrite (IH Hs).
Qed.

Lemma HasSuffix_lacks (c : ascii) (s : string) :
  lacks c s → GoStrings.HasSuffix s (String c "") = false.
Proof.
  induction s as [|x s IH]; [done|].
  intros Hs. apply lacks_cons in Hs as [Hx Hs]. simpl.
  apply Ascii.eqb_neq in Hx. rewrite Hx. simpl. auto.
Qed.

(** X14: the directory name the builder makes for an owner is read back
    by [getGVR] as the group, version and resource it was made of, when
    none of them holds a [#] and the resource holds no dot; an empty group
    is read back as the empty group. *)
Theorem getGVR_reads_owner_directory (resource group version : string) :
  lacks "#" resource → lacks "." resource →
  lacks "#" group → lacks "#" version →
  getGVR (ownerDirPathOf resource group version)
  = Done {| Group := group; Version := version; Resource := resource |}.
Proof.
  intros Hr Hdot Hg Hv. unfold getGVR, ownerDirPathOf.
  assert (Hleft : lacks "#" (resource +:+ "." +:+ group)).
  { apply lacks_app; [done|]. apply lacks_cons. split; [done|].
    exact Hg. }
  replace (resource +:+ "." +:+ group +:+ "#" +:+ version)
    with ((resource +:+ "." +:+ group) +:+ String "#" version).
  2:{ by rewrite append_assoc. }
  rewrite Split_app_sep, (Split_lacks _ _ Hleft), (Split_lacks _ _ Hv).
  simpl. unfold GoStrings.SplitN2.
  change (resource +:+ "." +:+ group) with (resource +:+ String "." group).
  rewrite (Cut_app_sep _ _ _ Hdot). simpl.
  unfold GoStrings.TrimSuffix. rewrite (HasSuffix_lacks _ _ Hdot).
  unfold ParseGroupResource.
  change (resource +:+ "." +:+ group) with (resource +:+ String "." group).
  by rewrite (Cut_app_sep _ _ _ Hdot).
Qed.

Lemma getGVR_reads_owner_directory_witness :
  getGVR (ownerDirPathOf "namespaces" "" "v1")
  = Done {| Group := ""; Version := "v1"; Resource := "namespaces" |}.
Proof.
  apply getGVR_reads_owner_directory; reflexivity.
Defined.

Section Stray.
Context `{Collaborators}.

Lemma forEach_app_done {A : Type}
    (body : A → graph → outcome (graph * option error))
    (before rest : list A) (g g' : graph) :
  forEach body before g = Done (g', None) →
  forEach body (before ++ rest) g = forEach body rest g'.
Proof.
  revert g. induction before as [|x before IH]; intros g; simpl.
  - by intros [= <-].
  - destruct (body x g) as [[g1 [err|]]|msg]; [done| |done]. apply IH.
Qed.

(** X15: an entry of the archive root other than [filters] whose name
    holds no [#] makes the graph builder panic on the index into the split
    name, once the walk reaches it (the entries before it went through):
    a stray file at the root stops the restore without an error value. *)
Theorem stray_root_entry_panics (fs : FS) (cl : Cluster)
    (backupPath : string) (transformerMap : TransformerMap)
    (before : list dirent) (backupEntry : dirent) (rest : list dirent)
    (g g' : graph) :
  ioutil_ReadDir fs backupPath = inl (before ++ backupEntry :: rest) →
  forEach (backupEntryStep fs cl backupPath transformerMap) before g
  = Done (g', None) →
  entryName backupEntry ≠ "filters" →
  lacks "#" (entryName backupEntry) →
  generateDependencyGraph fs cl backupPath transformerMap g
  = Panic "index out of range [1] with length 1".
Proof.
  intros Hdir Hbefore Hname Hlacks. unfold generateDependencyGraph.
  rewrite Hdir, (forEach_app_done _ _ _ _ _ Hbefore). simpl.
  unfold backupEntryStep.
  apply String.eqb_neq in Hname. rewrite Hname.
  unfold getGVR. by rewrite (Split_lacks _ _ Hlacks).
Qed.

End Stray.

(** A [README] beside the filters directory. *)
Lemma stray_root_entry_panics_witness :
  generateDependencyGraph (H := Scenario.world)
    (Scenario.unpacked Scenario.strayArchive) ∅ Scenario.root (λ _, None)
    emptyGraph
  = Panic "index out of range [1] with length 1".
Proof.
  apply (stray_root_entry_panics (H := Scenario.world)
           (Scenario.unpacked Scenario.strayArchive) ∅ Scenario.root
           (λ _, None) [] (Scenario.file "README") [Scenario.dir "filters"]
           emptyGraph emptyGraph).
  - vm_compute. reflexivity.
  - reflexivity.
  - discriminate.
  - reflexivity.
Defined.

(** ** Owner paths and walk paths *)

Lemma cleanStep_plain (isRooted : bool) (stack : list string) (c : string) :
  plainName c → Filepath.cleanStep isRooted stack c = c :: stack.
Proof.
  intros (H1 & H2 & H3 & _). unfold Filepath.cleanStep.
  apply String.eqb_neq in H1, H2, H3. by rewrite H1, H2, H3.
Qed.

Lemma fold_cleanStep_plain (isRooted : bool) (cs stack : list string) :
  Forall plainName cs →
  fold_left (Filepath.cleanStep isRooted) cs stack = rev cs ++ stack.
Proof.
  intros Hcs. revert stack.
  induction Hcs as [|c cs Hc _ IH]; intros stack; [done|].
  simpl. rewrite (cleanStep_plain _ _ _ Hc), IH.
  by rewrite <- app_assoc.
Qed.

Lemma Split_each_lacks (c : ascii) (s : string) :
  Forall (lacks c) (GoStrings.Split c s).
Proof.
  induction s as [|x s IH]; simpl.
  - by repeat constructor.
  - destruct (Ascii.eqb x c) eqn:Hx.
    + by constructor.
    + apply Ascii.eqb_neq in Hx.
      destruct (GoStrings.Split c s) as [|h t].
      * repeat constructor. by apply lacks_cons.
      * apply Forall_cons in IH as [Hh Ht]. constructor; [|done].
        by apply lacks_cons.
Qed.

Lemma cleanStep_rooted_plain (stack : list string) (c : string) :
  lacks Filepath.slash c → Forall plainName stack →
  Forall plainName (Filepath.cleanStep true stack c).
Proof.
  intros Hc Hstack. unfold Filepath.cleanStep.
  destruct (String.eqb c "") eqn:H1; [done|].
  destruct (String.eqb c ".") eqn:H2; [done|].
  destruct (String.eqb c "..") eqn:H3.
  - destruct Hstack as [|top below (_ & _ & Htop & _) Hbelow]; [done|].
    apply String.eqb_neq in Htop. by rewrite Htop.
  - apply String.eqb_neq in H1, H2, H3. by constructor.
Qed.

Lemma fold_cleanStep_rooted_plain (comps stack : list string) :
  Forall (lacks Filepath.slash) comps → Forall plainName stack →
  Forall plainName (fold_left (Filepath.cleanStep true) comps stack).
Proof.
  intros Hcomps. revert stack.
  induction Hcomps as [|c comps Hc _ IH]; intros stack Hstack; [done|].
  simpl. apply IH. by apply cleanStep_rooted_plain.
Qed.

Lemma Join_cons2 (a c : string) (cs : list string) (sep : string) :
  GoStrings.Join (a :: c :: cs) sep
  = a +:+ sep +:+ GoStrings.Join (c :: cs) sep.
Proof. reflexivity. Qed.

Lemma Split_Join (a : string) (cs : list string) :
  Forall (lacks Filepath.slash) cs →
  GoStrings.Split Filepath.slash (GoStrings.Join (a :: cs) "/")
  = GoStrings.Split Filepath.slash a ++ cs.
Proof.
  intros Hcs. revert a.
  induction Hcs as [|c cs Hc _ IH]; intros a.
  - by rewrite app_nil_r.
  - rewrite Join_cons2.
    change (a +:+ "/" +:+ GoStrings.Join (c :: cs) "/")
      with (a +:+ String Filepath.slash (GoStrings.Join (c :: cs) "/")).
    by rewrite Split_app_sep, IH, (Split_lacks _ _ Hc).
Qed.

Lemma rooted_cons (p : string) :
  rooted p → ∃ q, p = String Filepath.slash q.
Proof.
  unfold rooted. destruct p as [|x p]; intros Hp.
  - vm_compute in Hp. discriminate.
  - change (match ascii_dec "/" x with
            | left _ => String.prefix "" p
            | right _ => false
            end = true) in Hp.
    destruct (ascii_dec "/" x) as [<-|]; [eauto|discriminate].
Qed.

Lemma rooted_slash (q : string) : rooted (String Filepath.slash q).
Proof.
  unfold rooted.
  change (match ascii_dec "/" Filepath.slash with
          | left _ => String.prefix "" q
          | right _ => false
          end = true).
  destruct (ascii_dec "/" Filepath.slash); [by destruct q|done].
Qed.

Lemma Join_starts (x : ascii) (b sep : string) (cs : list string) :
  ∃ q, GoStrings.Join (String x b :: cs) sep = String x q.
Proof. destruct cs as [|c cs]; [by exists b|]. rewrite Join_cons2. eauto. Qed.

Lemma plainName_lacks (cs : list string) :
  Forall plainName cs → Forall (lacks Filepath.slash) cs.
Proof. intros Hcs. eapply Forall_impl; [exact Hcs|]. by intros c (_ & _ & _ & ?). Qed.

(** A rooted path joined with names is the root, the components the path
    cleans to, and the names. *)
Lemma Join_rooted (bp : string) (cs : list string) :
  rooted bp → Forall plainName cs →
  Filepath.Join (bp :: cs)
  = "/" +:+ GoStrings.Join
              (rev (fold_left (Filepath.cleanStep true)
                      (GoStrings.Split Filepath.slash bp) [])
               ++ cs) "/".
Proof.
  intros Hbp Hcs. destruct (rooted_cons bp Hbp) as [bp' ->].
  cbn [Filepath.Join]. change (String.eqb (String Filepath.slash bp') "")
    with false. cbv iota.
  destruct (Join_starts Filepath.slash bp' "/" cs) as [q Hq].
  unfold Filepath.Clean. cbv zeta. rewrite Hq.
  change (String.eqb (String Filepath.slash q) "") with false.
  rewrite (rooted_slash q). cbv iota. rewrite <- Hq.
  rewrite (Split_Join _ _ (plainName_lacks _ Hcs)), fold_left_app,
    (fold_cleanStep_plain _ _ _ Hcs), rev_app_distr, rev_involutive.
  by rewrite Hq, (rooted_slash q).
Qed.

(** The components a path of that form cleans to are its own. *)
Lemma canonical_components (L : list string) :
  Forall plainName L →
  fold_left (Filepath.cleanStep true)
    (GoStrings.Split Filepath.slash ("/" +:+ GoStrings.Join L "/")) []
  = rev L.
Proof.
  intros HL.
  change ("/" +:+ GoStrings.Join L "/")
    with (String Filepath.slash (GoStrings.Join L "/")).
  cbn [GoStrings.Split]. rewrite Ascii.eqb_refl.
  destruct L as [|a cs]; [done|].
  apply Forall_cons in HL as [Ha Hcs].
  rewrite (Split_Join _ _ (plainName_lacks _ Hcs)).
  destruct Ha as (H1 & H2 & H3 & Hslash).
  rewrite (Split_lacks _ _ Hslash). cbn [fold_left app].
  change (Filepath.cleanStep true [] "") with (@nil string).
  rewrite (cleanStep_plain true [] a) by done.
  by rewrite (fold_cleanStep_plain true cs [a] Hcs).
Qed.

Lemma Join_relative (ns file : string) :
  plainName ns → plainName file →
  Filepath.Join [ns; file] = ns +:+ "/" +:+ file.
Proof.
  intros Hns Hfile.
  pose proof Hns as (Hne & _ & _ & Hslash).
  destruct ns as [|x ns']; [done|].
  apply lacks_cons in Hslash as [Hx _].
  cbn [Filepath.Join]. change (String.eqb (String x ns') "") with false.
  cbv iota. unfold Filepath.Clean. cbv zeta. rewrite Join_cons2.
  change (String x ns' +:+ "/" +:+ GoStrings.Join [file] "/")
    with (String x (ns' +:+ String Filepath.slash file)).
  change (String.eqb (String x (ns' +:+ String Filepath.slash file)) "")
    with false.
  cbv iota.
  assert (String.prefix "/" (String x (ns' +:+ String Filepath.slash file))
          = false) as ->.
  { change (match ascii_dec "/" x with
            | left _ =>
                String.prefix "" (ns' +:+ String Filepath.slash file)
            | right _ => false
            end = false).
    destruct (ascii_dec "/" x) as [<-|]; [|done].
    by destruct Hx. }
  change (String x (ns' +:+ String Filepath.slash file))
    with (GoStrings.Join [String x ns'; file] "/").
  rewrite (Split_Join _ [file]) by (repeat constructor; apply Hfile).
  assert (lacks Filepath.slash (String x ns')) as Hl by apply Hns.
  rewrite (Split_lacks _ _ Hl). cbn [app].
  rewrite (fold_cleanStep_plain false [String x ns'; file] [])
    by (constructor; [done|constructor; [done|constructor]]).
  cbn [rev app]. rewrite Join_cons2.
  change (GoStrings.Join [file] "/") with file.
  change (String x ns' +:+ "/" +:+ file)
    with (String x (ns' +:+ String Filepath.slash file)).
  done.
Qed.

Lemma rooted_canonical (L : list string) :
  rooted ("/" +:+ GoStrings.Join L "/").
Proof. exact (rooted_slash (GoStrings.Join L "/")). Qed.

Ltac plain_names :=
  repeat first [apply Forall_nil_2 | apply Forall_cons_2; [assumption|]].

(** Joining the archive root, the kind directory and the file at once
    gives the path of joining the kind directory first and the file
    then. *)
Lemma Join_flat (backupPath dir file : string) :
  rooted backupPath → plainName dir → plainName file →
  Filepath.Join [backupPath; dir; file]
  = Filepath.Join [Filepath.Join [backupPath; dir]; file].
Proof.
  intros Hbp Hdir Hfile.
  set (S0 := fold_left (Filepath.cleanStep true)
               (GoStrings.Split Filepath.slash backupPath) []).
  assert (HS0 : Forall plainName (rev S0)).
  { apply Forall_rev, fold_cleanStep_rooted_plain; [|done].
    apply Split_each_lacks. }
  rewrite (Join_rooted backupPath [dir; file] Hbp ltac:(plain_names)).
  rewrite (Join_rooted backupPath [dir] Hbp ltac:(plain_names)).
  fold S0.
  rewrite (Join_rooted _ [file] (rooted_canonical _) ltac:(plain_names)).
  rewrite canonical_components
    by (apply Forall_app; split; [done|plain_names]).
  by rewrite rev_involutive, <- app_assoc.
Qed.

(** And so with a namespace between, which the builder joins to the file
    first. *)
Lemma Join_namespaced (backupPath dir namespace file : string) :
  rooted backupPath → plainName dir → plainName namespace →
  plainName file →
  Filepath.Join [backupPath; dir; Filepath.Join [namespace; file]]
  = Filepath.Join [Filepath.Join [backupPath; dir; namespace]; file].
Proof.
  intros Hbp Hdir Hns Hfile.
  set (S0 := fold_left (Filepath.cleanStep true)
               (GoStrings.Split Filepath.slash backupPath) []).
  assert (HS0 : Forall plainName (rev S0)).
  { apply Forall_rev, fold_cleanStep_rooted_plain; [|done].
    apply Split_each_lacks. }
  rewrite (Join_relative _ _ Hns Hfile).
  destruct (rooted_cons backupPath Hbp) as [bp' Hbp'].
  assert (Filepath.Join [backupPath; dir; namespace +:+ "/" +:+ file]
          = Filepath.Join [backupPath; dir; namespace; file]) as ->.
  { rewrite Hbp'. reflexivity. }
  rewrite (Join_rooted backupPath [dir; namespace; file] Hbp
             ltac:(plain_names)).
  rewrite (Join_rooted backupPath [dir; namespace] Hbp
             ltac:(plain_names)).
  fold S0.
  rewrite (Join_rooted _ [file] (rooted_canonical _) ltac:(plain_names)).
  rewrite canonical_components
    by (apply Forall_app; split; [done|plain_names]).
  by rewrite rev_involutive, <- app_assoc.
Qed.

Section Paths.
Context `{Collaborators}.

(** X16: the path the builder computes for an owner is the path the walk
    gives the owner's file.  For a rooted [backupPath], when the kind
    directory, the namespace of the dependent and the owner's file name
    are plain names, the owner-reference entry resolves to the join of the
    kind directory (under the namespace directory for a namespaced owner)
    with the file name, which is how [generateDependencyGraph] names the
    file [<ownerName>.json] it finds there. *)
Theorem owner_target_is_walk_path
    (cl : Cluster) (backupPath : string) (currRestoreObj : restoreObj)
    (ownerRefData : object) (groupVersion kind ownerName : string)
    (gv : GroupVersion) (ownerGVR : GroupVersionResource)
    (isNamespaced : bool) :
  asString (lookupField ownerRefData "apiVersion") = Some groupVersion →
  ParseGroupVersion groupVersion = inl gv →
  asString (lookupField ownerRefData "kind") = Some kind →
  ResourceForGVK cl (WithKind gv kind) = inl (ownerGVR, isNamespaced) →
  asString (lookupField ownerRefData "name") = Some ownerName →
  rooted backupPath →
  plainName (ownerDirPathOf (Resource ownerGVR)
               (splitGroupVersion groupVersion).1
               (splitGroupVersion groupVersion).2) →
  (isNamespaced = true → plainName (Namespace currRestoreObj)) →
  plainName (ownerName +:+ ".json") →
  ownerTarget cl backupPath currRestoreObj (JObject ownerRefData)
  = Some (if isNamespaced
          then Filepath.Join
                 [Filepath.Join
                    [backupPath;
                     ownerDirPathOf (Resource ownerGVR)
                       (splitGroupVersion groupVersion).1
                       (splitGroupVersion groupVersion).2;
                     Namespace currRestoreObj];
                  ownerName +:+ ".json"]
          else Filepath.Join
                 [Filepath.Join
                    [backupPath;
                     ownerDirPathOf (Resource ownerGVR)
                       (splitGroupVersion groupVersion).1
                       (splitGroupVersion groupVersion).2];
                  ownerName +:+ ".json"]).
Proof.
  intros Hav Hgv Hkind Hres Hname Hbp Hdir Hns Hfile.
  unfold ownerTarget, resolveOwner.
  rewrite Hav, Hgv, Hkind, Hres.
  destruct (splitGroupVersion groupVersion) as [apiGroup version].
  rewrite Hname. simpl in Hdir.
  destruct isNamespaced; cbn [ResourceConfigPath fst snd]; f_equal.
  - apply Join_namespaced; auto.
  - by apply Join_flat.
Qed.

End Paths.

(** The entry [v1/Namespace/ns1] of config map [c], and the file the walk
    finds in [namespaces.#v1]. *)
Lemma owner_target_is_walk_path_witness :
  ownerTarget (H := Scenario.world) ∅ Scenario.root
    {| Name := "c"; Namespace := "ns1";
       GVR := {| Group := ""; Version := "v1"; Resource := "configmaps" |};
       ResourceConfigPath := "/tmp/backup123/configmaps.#v1/ns1/c.json";
       Data := None |}
    (Scenario.ownerRef "v1" "Namespace" "ns1")
  = Some (Filepath.Join [Filepath.Join [Scenario.root; "namespaces.#v1"];
                         "ns1.json"]).
Proof.
  apply (owner_target_is_walk_path (H := Scenario.world) ∅ Scenario.root
           {| Name := "c"; Namespace := "ns1";
              GVR := {| Group := ""; Version := "v1";
                        Resource := "configmaps" |};
              ResourceConfigPath :=
                "/tmp/backup123/configmaps.#v1/ns1/c.json";
              Data := None |}
           [("apiVersion", JString "v1"); ("kind", JString "Namespace");
            ("name", JString "ns1"); ("uid", JString "stale")]
           "v1" "Namespace" "ns1"
           {| gvGroup := ""; gvVersion := "v1" |}
           {| Group := ""; Version := "v1"; Resource := "namespaces" |} false);
    try reflexivity;
    repeat split; (discriminate || reflexivity).
Defined.

Section Exits.
Context `{Collaborators}.

(** ** The exits of the handler *)

(** X17: in the object-store branch, when the archive was downloaded and
    unpacked and the removal of the downloaded file fails, the handler
    panics: it builds its error from the [err] of the download, which is
    nil at that point.  The temporary directory is not removed and nothing
    was asked of the cluster. *)
Theorem failed_removal_of_download_panics
    (fs fs0 fs1 fs2 fs3 : FS) (cl : Cluster) (restore : Restore)
    (tmp backupFilePath : string) (backupLocation : StorageLocation)
    (err : error) :
  ioutil_TempDir fs (GoStrings.TrimSuffix (BackupFilename restore) ".tar.gz")
  = (fs0, inl tmp) →
  RestoreStorageLocation restore = Some backupLocation →
  Local backupLocation = "" →
  is_Some (S3 backupLocation) →
  downloadFromS3 fs0 restore = (fs1, (backupFilePath, None)) →
  LoadFromTarGzip fs1 backupFilePath tmp = (fs2, None) →
  os_Remove fs2 backupFilePath = (fs3, Some err) →
  ∃ msg,
    OnRestoreChange fs cl restore
    = (fs3, cl,
       [EvTempDir tmp; EvDownloadFromS3;
        EvLoadFromTarGzip backupFilePath tmp; EvRemove backupFilePath],
       Panic msg).
Proof.
  intros Htmp Hloc Hlocal [s3 Hs3] Hdl Hload Hrm.
  unfold OnRestoreChange. rewrite Htmp, Hloc.
  unfold fetchArchive. rewrite Hlocal, Hs3, Hdl, Hload, Hrm. simpl. eauto.
Qed.

Lemma gets_cluster_calls (evs : list event) :
  Forall (λ e, isGet e = true) evs → Forall (λ e, isClusterCall e = true) evs.
Proof. intros Hg. eapply Forall_impl; [exact Hg|]. by intros []. Qed.

Lemma restoreResource_cluster_calls (cl : Cluster) (d : restoreObj)
    (gvr : GroupVersionResource) (hasStatusSubresource : bool) :
  Forall (λ e, isClusterCall e = true)
    (restoreResource cl d gvr hasStatusSubresource).1.2.
Proof.
  destruct (restoreResource cl d gvr hasStatusSubresource)
    as [[cl' evs] out] eqn:Hr.
  unfold restoreResource, writeStatus in Hr. simpl.
  destruct hasStatusSubresource.
  all: repeat case_match; simplify_eq.
  all: try match goal with
      | Hu : updateOwnerRefs ?c ?l ?n = _ |- _ =>
          pose proof (gets_cluster_calls _ (updateOwnerRefs_gets c l n))
            as Hno;
          rewrite Hu in Hno; simpl in Hno
      end.
  all: repeat (apply Forall_app; split); repeat constructor; done.
Qed.

Lemma restoreCRDFile_cluster_calls (fs : FS) (resourceDirPath : string)
    (gvr : GroupVersionResource) (tr : option Transformer)
    (resFile : dirent) (cl : Cluster) (created : gmap string bool) :
  Forall (λ e, isClusterCall e = true)
    (restoreCRDFile fs resourceDirPath gvr tr resFile cl created).1.2.
Proof.
  unfold restoreCRDFile.
  destruct (readDocument _ _ _ _) as [crdData|err]; [|constructor].
  match goal with
  | |- context [restoreResource ?c ?o ?g false] =>
      pose proof (restoreResource_cluster_calls c o g false) as Hno;
      destruct (restoreResource c o g false) as [[cl' evs] [[err|]|msg]]
  end; done.
Qed.

Lemma restoreCRDFiles_cluster_calls (fs : FS) (resourceDirPath : string)
    (gvr : GroupVersionResource) (tr : option Transformer)
    (dirContents : list dirent) (cl : Cluster)
    (created : gmap string bool) :
  Forall (λ e, isClusterCall e = true)
    (restoreCRDFiles fs resourceDirPath gvr tr dirContents cl created).1.2.
Proof.
  revert cl created.
  induction dirContents as [|resFile rest IH]; intros cl created; simpl;
    [constructor|].
  pose proof (restoreCRDFile_cluster_calls fs resourceDirPath gvr tr resFile
                cl created) as Hfile.
  destruct (restoreCRDFile _ _ _ _ _ _ _)
    as [[cl1 evs1] [[created1 [err|]]|msg]]; try done.
  specialize (IH cl1 created1).
  destruct (restoreCRDFiles _ _ _ _ _ _ _) as [[cl2 evs2] out].
  simpl in *. by apply Forall_app.
Qed.

Lemma restoreCRDDirs_cluster_calls (fs : FS) (backupPath : string)
    (transformerMap : TransformerMap) (resourceGVKs : list string)
    (cl : Cluster) (created : gmap string bool) :
  Forall (λ e, isClusterCall e = true)
    (restoreCRDDirs fs backupPath transformerMap resourceGVKs cl
       created).1.2.
Proof.
  revert cl created.
  induction resourceGVKs as [|resourceGVK rest IH]; intros cl created;
    simpl; [constructor|].
  destruct (match os_Stat fs _ with Some err => IsNotExist err | None => false
            end); [apply IH|].
  destruct (getGVR resourceGVK) as [gvr|msg]; [|constructor].
  destruct (ioutil_ReadDir fs _) as [dirContents|err]; [|constructor].
  match goal with
  | |- context [restoreCRDFiles ?a ?b ?c ?d ?e ?f ?g] =>
      pose proof (restoreCRDFiles_cluster_calls a b c d e f g) as Hfiles;
      destruct (restoreCRDFiles a b c d e f g)
        as [[cl1 evs1] [[created1 [err|]]|msg]]
  end; try done.
  specialize (IH cl1 created1).
  destruct (restoreCRDDirs _ _ _ _ _ _) as [[cl2 evs2] out].
  simpl in *. by apply Forall_app.
Qed.

Lemma replayStep_cluster_calls (deps : gmap string (list restoreObj))
    (status : gmap string bool) (st st' : replayState) (e : option string) :
  replayStep deps status st = Some (st', e) →
  Forall (λ ev, isClusterCall ev = true) (logEvents (rsLog st)) →
  Forall (λ ev, isClusterCall ev = true) (logEvents (rsLog st')).
Proof.
  unfold replayStep. intros Hstep Hlog.
  destruct (rsToRestore st) as [|curr rest]; [done|].
  destruct (flag (rsCreated st) _); [by simplify_eq|].
  match type of Hstep with
  | context [restoreResource ?c ?o ?g ?b] =>
      pose proof (restoreResource_cluster_calls c o g b) as Hnew;
      destruct (restoreResource c o g b) as [[cl' evs] res]
  end.
  simpl in Hnew.
  destruct res as [[err|]|msg]; [| |];
    try destruct (releaseDependents _ _ _);
    simplify_eq; simpl; unfold logEvents in *;
    rewrite map_app, concat_app; simpl; rewrite app_nil_r;
    by apply Forall_app.
Qed.

Lemma replayLoop_cluster_calls (deps : gmap string (list restoreObj))
    (status : gmap string bool) (fuel : nat) (st : replayState) :
  Forall (λ ev, isClusterCall ev = true) (logEvents (rsLog st)) →
  Forall (λ ev, isClusterCall ev = true)
    (logEvents (rsLog (replayLoop fuel deps status st).1)).
Proof.
  revert st. induction fuel as [|fuel IH]; intros st Hlog; simpl;
    destruct (replayStep deps status st) as [[st' [msg|]]|] eqn:Hstep;
    simpl; eauto using replayStep_cluster_calls.
Qed.

Lemma createFromDependencyGraph_cluster_calls
    (deps : gmap string (list restoreObj)) (created : gmap string bool)
    (nums : gmap string nat) (toRestore : list restoreObj)
    (status : gmap string bool) (cl : Cluster) :
  Forall (λ ev, isClusterCall ev = true)
    (logEvents
       (rsLog (createFromDependencyGraph deps created nums toRestore status
                 cl).1)).
Proof.
  unfold createFromDependencyGraph.
  pose proof (replayLoop_cluster_calls deps status
                (replayFuel deps created toRestore)
                (initialReplay created nums toRestore cl)
                ltac:(constructor)) as Hlog.
  by destruct (replayLoop _ _ _ _) as [st e].
Qed.

Lemma cluster_calls_no_removal (evs : list event) :
  Forall (λ e, isClusterCall e = true) evs →
  Forall (λ e, isRemoveAll e = false) evs.
Proof. intros Hc. eapply Forall_impl; [exact Hc|]. by intros []. Qed.

(** X18: when the definitions, the status set, the graph and the replay
    all went through and the prune pass fails, the handler returns
    [error pruning during restore: ...] made of the error of the prune
    pass, and the temporary directory is left behind: nothing in the run
    removed it. *)
Theorem prune_error_leaves_temporary_directory
    (fs : FS) (cl : Cluster) (restore : Restore) (backupPath : string)
    (transformerMap : TransformerMap) (err : error) :
  let crds := restoreCRDs fs backupPath transformerMap cl ∅ in
  let cl1 := crds.1.1 in
  let status := (findResourcesWithStatusSubresource fs backupPath ∅).1 in
  let built :=
    generateDependencyGraph fs cl1 backupPath transformerMap emptyGraph in
  ∀ created g,
  crds.2 = Done (created, None) →
  (findResourcesWithStatusSubresource fs backupPath ∅).2 = None →
  built = Done (g, None) →
  let replay :=
    createFromDependencyGraph (ownerToDependentsList g) created
      (numOwnerReferences g) (toRestore g) status cl1 in
  replay.2 = Done None →
  Prune restore = true →
  (prune fs (rsCluster replay.1)
     (GoStrings.TrimSuffix (BackupFilename restore) ".tar.gz") backupPath
     (DeleteTimeout restore) transformerMap).2 = Some err →
  (restoreFromArchive fs cl restore backupPath transformerMap).2
  = Done (Some (ErrPlain ("error pruning during restore: "
                          +:+ errorString err)))
  ∧ Forall (λ e, isRemoveAll e = false)
      (restoreFromArchive fs cl restore backupPath transformerMap).1.2.
Proof.
  intros crds cl1 status built created g Hcrds Hstatus Hbuilt replay Hreplay
    Hprune Hfail.
  unfold restoreFromArchive. subst replay crds cl1 status built.
  pose proof (restoreCRDDirs_cluster_calls fs backupPath transformerMap
                ["customresourcedefinitions.apiextensions.k8s.io#v1";
                 "customresourcedefinitions.apiextensions.k8s.io#v1beta1"]
                cl ∅) as Hevs1.
  fold (restoreCRDs fs backupPath transformerMap cl ∅) in Hevs1.
  destruct (restoreCRDs fs backupPath transformerMap cl ∅)
    as [[cl1 evs1] out]. simpl in *. subst out.
  destruct (findResourcesWithStatusSubresource fs backupPath ∅)
    as [status serr]. simpl in *. subst serr.
  rewrite Hbuilt.
  pose proof (createFromDependencyGraph_cluster_calls
                (ownerToDependentsList g) created (numOwnerReferences g)
                (toRestore g) status cl1) as Hevs2.
  destruct (createFromDependencyGraph _ _ _ _ _ _) as [st res].
  simpl in *. subst res. rewrite Hprune.
  destruct (prune fs (rsCluster st) _ backupPath _ transformerMap)
    as [[fs' cl'] perr].
  simpl in *. subst perr. simpl. split; [done|].
  apply cluster_calls_no_removal in Hevs1, Hevs2.
  repeat (apply Forall_app; split); try done. by repeat constructor.
Qed.

Lemma removeDirAfter_removes (fs : FS) (backupPath : string) (err : error)
    (panics : bool) (evs : list event) :
  ¬ Forall (λ e, isRemoveAll e = false)
      (evs ++ (removeDirAfter fs backupPath err panics).1.2).
Proof.
  unfold removeDirAfter. destruct (os_RemoveAll fs backupPath). simpl.
  intros [_ Hno]%Forall_app. by apply Forall_cons in Hno as [? _].
Qed.

Lemma removeDirAndFileAfter_removes (fs : FS)
    (backupPath backupFilePath : string) (err : error) (evs : list event) :
  ¬ Forall (λ e, isRemoveAll e = false)
      (evs ++ (removeDirAndFileAfter fs backupPath backupFilePath err).1.2).
Proof.
  unfold removeDirAndFileAfter.
  destruct (os_RemoveAll fs backupPath) as [fs1 [rerr|]]; simpl.
  - intros [_ Hno]%Forall_app. by apply Forall_cons in Hno as [? _].
  - destruct (os_Remove fs1 backupFilePath). simpl.
    intros [_ Hno]%Forall_app. by apply Forall_cons in Hno as [? _].
Qed.

Lemma fetchArchive_error_removes (fs : FS) (restore : Restore)
    (backupLocation : StorageLocation) (backupPath : string) (err : error) :
  (fetchArchive fs restore backupLocation backupPath).2 = Done (Some err) →
  ¬ Forall (λ e, isRemoveAll e = false)
      (fetchArchive fs restore backupLocation backupPath).1.2.
Proof.
  unfold fetchArchive.
  destruct (negb (String.eqb (Local backupLocation) "")).
  - destruct (LoadFromTarGzip fs _ backupPath) as [fs1 [lerr|]]; [|done].
    intros _.
    match goal with
    | |- context [removeDirAfter ?a ?b ?c ?d] =>
        pose proof (removeDirAfter_removes a b c d
                      [EvLoadFromTarGzip
                         (Filepath.Join [Local backupLocation;
                                         BackupFilename restore])
                         backupPath]) as Hrm;
        destruct (removeDirAfter a b c d) as [[fs2 evs2] out]
    end.
    exact Hrm.
  - destruct (S3 backupLocation); [|done].
    destruct (downloadFromS3 fs restore) as [fs1 [backupFilePath [derr|]]].
    + intros _.
      match goal with
      | |- context [removeDirAndFileAfter ?a ?b ?c ?d] =>
          pose proof (removeDirAndFileAfter_removes a b c d
                        [EvDownloadFromS3]) as Hrm;
          destruct (removeDirAndFileAfter a b c d) as [[fs2 evs2] out]
      end.
      exact Hrm.
    + destruct (LoadFromTarGzip fs1 backupFilePath backupPath)
        as [fs2 [lerr|]].
      * intros _.
        match goal with
        | |- context [removeDirAndFileAfter ?a ?b ?c ?d] =>
            pose proof (removeDirAndFileAfter_removes a b c d
                          ([EvDownloadFromS3]
                           ++ [EvLoadFromTarGzip backupFilePath backupPath]))
              as Hrm;
            destruct (removeDirAndFileAfter a b c d) as [[fs3 evs3] out]
        end.
        exact Hrm.
      * by destruct (os_Remove fs2 backupFilePath) as [fs3 [rerr|]].
Qed.

Lemma restoreFromArchive_return_removes (fs : FS) (cl : Cluster)
    (restore : Restore) (backupPath : string)
    (transformerMap : TransformerMap) (e : option error) :
  (restoreFromArchive fs cl restore backupPath transformerMap).2 = Done e →
  Forall (λ ev, isRemoveAll ev = false)
    (restoreFromArchive fs cl restore backupPath transformerMap).1.2 →
  Prune restore = true
  ∧ ∃ err, e = Some (ErrPlain ("error pruning during restore: "
                               +:+ errorString err)).
Proof.
  unfold restoreFromArchive.
  destruct (restoreCRDs fs backupPath transformerMap cl ∅)
    as [[cl1 evs1] [[created [err|]]|msg]]; [| |done].
  { pose proof (removeDirAfter_removes fs backupPath err true evs1) as Hrm.
    destruct (removeDirAfter fs backupPath err true) as [[fs' evs'] out].
    by intros _ Hno. }
  destruct (findResourcesWithStatusSubresource fs backupPath ∅)
    as [status [err|]].
  { pose proof (removeDirAfter_removes fs backupPath err false evs1) as Hrm.
    destruct (removeDirAfter fs backupPath err false) as [[fs' evs'] out].
    by intros _ Hno. }
  destruct (generateDependencyGraph fs cl1 backupPath transformerMap
              emptyGraph) as [[g [err|]]|msg]; [| |done].
  { pose proof (removeDirAfter_removes fs backupPath err true evs1) as Hrm.
    destruct (removeDirAfter fs backupPath err true) as [[fs' evs'] out].
    by intros _ Hno. }
  destruct (createFromDependencyGraph _ _ _ _ _ _)
    as [st [[err|]|msg]]; [| |done].
  { pose proof (removeDirAfter_removes fs backupPath err true
                  (evs1 ++ logEvents (rsLog st))) as Hrm.
    destruct (removeDirAfter fs backupPath err true) as [[fs' evs'] out].
    by intros _ Hno. }
  destruct (Prune restore).
  - destruct (prune fs (rsCluster st) _ backupPath _ transformerMap)
      as [[fs' cl'] [perr|]].
    + simpl. intros [= <-] _. eauto.
    + destruct (os_RemoveAll fs' backupPath) as [fs4 removeErr]. simpl.
      intros _ [_ Hno]%Forall_app. by apply Forall_cons in Hno as [? _].
  - destruct (os_RemoveAll fs backupPath) as [fs4 removeErr]. simpl.
    intros _ [_ Hno]%Forall_app. by apply Forall_cons in Hno as [? _].
Qed.

(** X19: the handler returns without having tried to remove its
    temporary directory in three cases only: the directory could not be
    made, the request names no storage location, or the prune pass
    failed.  Every other return, the success included, comes after an
    [os.RemoveAll]. *)
Theorem return_without_removal
    (fs : FS) (cl : Cluster) (restore r : Restore) (e : option error) :
  (OnRestoreChange fs cl restore).2 = Done (r, e) →
  Forall (λ ev, isRemoveAll ev = false) (OnRestoreChange fs cl restore).1.2 →
  (∃ err,
     (ioutil_TempDir fs
        (GoStrings.TrimSuffix (BackupFilename restore) ".tar.gz")).2
     = inr err ∧ e = Some err)
  ∨ (RestoreStorageLocation restore = None
     ∧ e = Some (ErrPlain "Specify backup location during restore"))
  ∨ (Prune restore = true
     ∧ ∃ err, e = Some (ErrPlain ("error pruning during restore: "
                                  +:+ errorString err))).
Proof.
  unfold OnRestoreChange.
  destruct (ioutil_TempDir fs _) as [fs0 [tmp|terr]]; simpl;
    [|intros [= <- <-] _; eauto].
  destruct (RestoreStorageLocation restore) as [backupLocation|]; simpl;
    [|intros [= <- <-] _; eauto].
  pose proof (fetchArchive_error_removes fs0 restore backupLocation tmp)
    as Hfetch.
  destruct (fetchArchive fs0 restore backupLocation tmp)
    as [[fs1 evs1] [[ferr|]|msg]]; simpl in *; [| |done].
  { intros _ Hno. apply Forall_cons in Hno as [_ Hno].
    by destruct (Hfetch ferr eq_refl). }
  clear Hfetch.
  destruct (encryptionConfigs_Get cl "default" _) as [config|cerr].
  2: { pose proof (removeDirAfter_removes fs1
                     (GoStrings.TrimSuffix tmp ".tar.gz") cerr false
                     (EvTempDir tmp :: evs1)) as Hrm.
       destruct (removeDirAfter fs1 _ cerr false) as [[fs' evs'] out].
       simpl in *. by intros _ Hno. }
  destruct (GetEncryptionTransformers config) as [transformerMap|gerr].
  2: { pose proof (removeDirAfter_removes fs1
                     (GoStrings.TrimSuffix tmp ".tar.gz") gerr false
                     (EvTempDir tmp :: evs1)) as Hrm.
       destruct (removeDirAfter fs1 _ gerr false) as [[fs' evs'] out].
       simpl in *. by intros _ Hno. }
  pose proof (restoreFromArchive_return_removes fs1 cl restore
                (GoStrings.TrimSuffix tmp ".tar.gz") transformerMap)
    as Hrest.
  destruct (restoreFromArchive fs1 cl restore _ transformerMap)
    as [[[fs2 cl2] evs2] [e'|msg]]; simpl in *; [|done].
  intros [= <- <-] Hno. right. right.
  apply Forall_cons in Hno as [_ Hno].
  apply Forall_app in Hno as [_ Hno]. by apply Hrest.
Qed.

Lemma replayLoop_empty (deps : gmap string (list restoreObj))
    (status : gmap string bool) (fuel : nat) (st : replayState) :
  rsToRestore st = [] → replayLoop fuel deps status st = (st, Drained).
Proof.
  intros Hq. destruct fuel; simpl; unfold replayStep; by rewrite Hq.
Qed.

Lemma forEach_filters (fs : FS) (cl : Cluster) (backupPath : string)
    (transformerMap : TransformerMap) (backupEntries : list dirent)
    (g : graph) :
  Forall (λ e, entryName e = "filters") backupEntries →
  forEach (backupEntryStep fs cl backupPath transformerMap) backupEntries g
  = Done (g, None).
Proof.
  induction 1 as [|e rest He _ IH]; simpl; [done|].
  unfold backupEntryStep. by rewrite He.
Qed.

(** X20: an archive whose root holds nothing but [filters], with a
    readable status-subresource file and neither definition directory,
    is restored by doing nothing: no call on the cluster, and, when no
    pruning is asked for, the temporary directory is removed and the
    handler returns what that removal returns ([util.ErrList] of no
    error being nil). *)
Theorem filters_only_archive_applies_nothing
    (fs : FS) (cl : Cluster) (restore : Restore) (backupPath : string)
    (transformerMap : TransformerMap) (backupEntries : list dirent)
    (status : gmap string bool) :
  (∀ d, d ∈ ["customresourcedefinitions.apiextensions.k8s.io#v1";
             "customresourcedefinitions.apiextensions.k8s.io#v1beta1"] →
        ∃ e, os_Stat fs (Filepath.Join [backupPath; d]) = Some e
             ∧ IsNotExist e = true) →
  findResourcesWithStatusSubresource fs backupPath ∅ = (status, None) →
  ioutil_ReadDir fs backupPath = inl backupEntries →
  Forall (λ e, entryName e = "filters") backupEntries →
  Prune restore = false →
  restoreFromArchive fs cl restore backupPath transformerMap
  = ((os_RemoveAll fs backupPath).1, cl, [EvRemoveAll backupPath],
     Done (os_RemoveAll fs backupPath).2).
Proof.
  intros Hdirs Hstatus Hroot Hfilters Hprune.
  unfold restoreFromArchive.
  assert (restoreCRDs fs backupPath transformerMap cl ∅
          = (cl, [], Done (∅, None))) as ->.
  { unfold restoreCRDs.
    destruct (Hdirs "customresourcedefinitions.apiextensions.k8s.io#v1")
      as (e1 & Hs1 & He1); [set_solver|].
    destruct (Hdirs "customresourcedefinitions.apiextensions.k8s.io#v1beta1")
      as (e2 & Hs2 & He2); [set_solver|].
    cbn [restoreCRDDirs]. by rewrite Hs1, He1, Hs2, He2. }
  rewrite Hstatus. unfold generateDependencyGraph. rewrite Hroot.
  rewrite (forEach_filters _ _ _ _ _ _ Hfilters).
  unfold createFromDependencyGraph.
  rewrite replayLoop_empty by done.
  simpl. rewrite Hprune.
  by destruct (os_RemoveAll fs backupPath) as [fs4 removeErr].
Qed.

End Exits.

(** In a world with an object store whose downloaded file cannot be
    removed, the handler panics with the archive unpacked. *)
Lemma failed_removal_of_download_panics_witness :
  ∃ msg,
    OnRestoreChange (H := Scenario.flakyWorld)
      (Scenario.downloadedDisk Scenario.chainArchive) ∅ Scenario.s3Request
    = (Scenario.unpack "/tmp/backup123" Scenario.chainArchive
         (<["/tmp/backup123" := Scenario.DirNode []]>
            (Scenario.downloadedDisk Scenario.chainArchive)),
       ∅,
       [EvTempDir "/tmp/backup123"; EvDownloadFromS3;
        EvLoadFromTarGzip "/tmp/download.tar.gz" "/tmp/backup123";
        EvRemove "/tmp/download.tar.gz"],
       Panic msg).
Proof.
  apply (failed_removal_of_download_panics (H := Scenario.flakyWorld)
           (Scenario.downloadedDisk Scenario.chainArchive)
           (<["/tmp/backup123" := Scenario.DirNode []]>
              (Scenario.downloadedDisk Scenario.chainArchive))
           (<["/tmp/backup123" := Scenario.DirNode []]>
              (Scenario.downloadedDisk Scenario.chainArchive))
           (Scenario.unpack "/tmp/backup123" Scenario.chainArchive
              (<["/tmp/backup123" := Scenario.DirNode []]>
                 (Scenario.downloadedDisk Scenario.chainArchive)))
           (Scenario.unpack "/tmp/backup123" Scenario.chainArchive
              (<["/tmp/backup123" := Scenario.DirNode []]>
                 (Scenario.downloadedDisk Scenario.chainArchive)))
           ∅ Scenario.s3Request "/tmp/backup123" "/tmp/download.tar.gz"
           {| Local := ""; S3 := Some "bucket" |}
           (ErrPlain "operation not permitted")).
  - reflexivity.
  - reflexivity.
  - reflexivity.
  - by eexists.
  - reflexivity.
  - vm_compute. reflexivity.
  - reflexivity.
Defined.

(** The chain archive restored with pruning, in a world whose prune pass
    fails. *)
Lemma prune_error_leaves_temporary_directory_witness :
  (restoreFromArchive (H := Scenario.flakyWorld)
     (Scenario.unpacked Scenario.chainArchive) ∅ Scenario.pruneRequest
     Scenario.root (λ _, None)).2
  = Done (Some (ErrPlain ("error pruning during restore: "
                          +:+ errorString (ErrPlain "timed out"))))
  ∧ Forall (λ e, isRemoveAll e = false)
      (restoreFromArchive (H := Scenario.flakyWorld)
         (Scenario.unpacked Scenario.chainArchive) ∅ Scenario.pruneRequest
         Scenario.root (λ _, None)).1.2.
Proof.
  eapply (prune_error_leaves_temporary_directory (H := Scenario.flakyWorld)
            (Scenario.unpacked Scenario.chainArchive) ∅
            Scenario.pruneRequest Scenario.root (λ _, None)
            (ErrPlain "timed out")).
  - vm_compute. reflexivity.
  - vm_compute. reflexivity.
  - vm_compute. reflexivity.
  - vm_compute. reflexivity.
  - reflexivity.
  - vm_compute. reflexivity.
Defined.

Lemma return_without_removal_witness :
  (∃ err,
     (ioutil_TempDir (Collaborators := Scenario.flakyWorld)
        (Scenario.diskWith Scenario.chainArchive)
        (GoStrings.TrimSuffix (BackupFilename Scenario.pruneRequest)
           ".tar.gz")).2
     = inr err ∧ Some (ErrPlain "error pruning during restore: timed out")
                 = Some err)
  ∨ (RestoreStorageLocation Scenario.pruneRequest = None
     ∧ Some (ErrPlain "error pruning during restore: timed out")
       = Some (ErrPlain "Specify backup location during restore"))
  ∨ (Prune Scenario.pruneRequest = true
     ∧ ∃ err, Some (ErrPlain "error pruning during restore: timed out")
              = Some (ErrPlain ("error pruning during restore: "
                                +:+ errorString err))).
Proof.
  apply (return_without_removal (H := Scenario.flakyWorld)
           (Scenario.diskWith Scenario.chainArchive) ∅
           Scenario.pruneRequest Scenario.pruneRequest
           (Some (ErrPlain "error pruning during restore: timed out"))).
  - vm_compute. reflexivity.
  - vm_compute. repeat constructor.
Defined.

Lemma filters_only_archive_applies_nothing_witness :
  restoreFromArchive (H := Scenario.world)
    (Scenario.unpacked Scenario.filtersOnlyArchive) ∅ Scenario.request
    Scenario.root (λ _, None)
  = ((os_RemoveAll (Collaborators := Scenario.world)
        (Scenario.unpacked Scenario.filtersOnlyArchive) Scenario.root).1,
     ∅, [EvRemoveAll Scenario.root],
     Done (os_RemoveAll (Collaborators := Scenario.world)
             (Scenario.unpacked Scenario.filtersOnlyArchive)
             Scenario.root).2).
Proof.
  apply (filters_only_archive_applies_nothing (H := Scenario.world)
           (Scenario.unpacked Scenario.filtersOnlyArchive) ∅
           Scenario.request Scenario.root (λ _, None)
           [Scenario.dir "filters"] ∅).
  - intros d Hd. exists (ErrNotExist "no such file or directory").
    apply list_elem_of_In in Hd.
    destruct Hd as [<-|[<-|[]]]; split; vm_compute; reflexivity.
  - vm_compute. reflexivity.
  - vm_compute. reflexivity.
  - by repeat constructor.
  - reflexivity.
Defined.

Section Exact.
Context `{Collaborators}.

(** ** The queue and the dependents lists, exactly *)

Lemma dependentsAmong_app (cl : Cluster) (backupPath P : string)
    (a b : list restoreObj) :
  dependentsAmong cl backupPath P (a ++ b)
  = dependentsAmong cl backupPath P a ++ dependentsAmong cl backupPath P b.
Proof. unfold dependentsAmong. apply flat_map_app. Qed.

Lemma graphExact_empty (cl : Cluster) (backupPath : string) :
  graphExact cl backupPath [] emptyGraph.
Proof.
  split; [done|]. intros P. unfold dependentsOf. simpl.
  by rewrite lookup_empty.
Qed.

Lemma addToOwnersToDependentsList_exact
    (fs : FS) (cl : Cluster) (backupPath resConfigPath aad : string)
    (gvr : GroupVersionResource) (tr : option Transformer)
    (objs : list restoreObj) (g g' : graph) :
  graphExact cl backupPath objs g →
  addToOwnersToDependentsList fs cl backupPath resConfigPath aad gvr tr g
  = Done (g', None) →
  graphExact cl backupPath
    (objs ++ documentObjects fs resConfigPath aad gvr tr) g'.
Proof.
  intros [Hq Hd].
  unfold addToOwnersToDependentsList, documentObjects.
  destruct (readDocument fs resConfigPath aad tr) as [fileMap|err];
    [|done].
  destruct (asObject (lookupField fileMap metadataMapKey))
    as [metadata|] eqn:Hmeta.
  2:{ intros [= <-]. rewrite app_nil_r. by split. }
  set (c := makeRestoreObj resConfigPath gvr fileMap metadata).
  assert (Hrefs : ownerRefsOf c
                  = asArray (lookupField metadata ownerRefsMapKey)).
  { unfold ownerRefsOf. simpl. by rewrite Hmeta. }
  destruct (asArray (lookupField metadata ownerRefsMapKey))
    as [refs|] eqn:Harr.
  - destruct (ownerRefsLoop cl backupPath c refs 0
                (ownerToDependentsList g))
      as [[deps' [n'|err]]|msg] eqn:Hloop; [|done..].
    intros [= <-].
    apply ownerRefsLoop_done in Hloop as [-> Hdeps].
    split; simpl.
    + rewrite List.filter_app. simpl. unfold ownerless at 2.
      rewrite Hrefs. by rewrite app_nil_r.
    + intros P. rewrite Hdeps, Hd, dependentsAmong_app.
      unfold dependentsAmong at 3. simpl. rewrite app_nil_r.
      unfold ownerTargets. by rewrite Hrefs.
  - intros [= <-]. split; simpl.
    + rewrite List.filter_app. simpl. unfold ownerless at 2.
      rewrite Hrefs. by rewrite Hq.
    + intros P. rewrite Hd, dependentsAmong_app.
      unfold dependentsAmong at 3. simpl.
      unfold ownerTargets. rewrite Hrefs. simpl. by rewrite app_nil_r.
Qed.

Lemma forEach_exact {A : Type} (cl : Cluster) (backupPath : string)
    (body : A → graph → outcome (graph * option error))
    (objsOf : A → list restoreObj) :
  (∀ x objs g g',
      graphExact cl backupPath objs g →
      body x g = Done (g', None) →
      graphExact cl backupPath (objs ++ objsOf x) g') →
  ∀ xs objs g g',
    graphExact cl backupPath objs g →
    forEach body xs g = Done (g', None) →
    graphExact cl backupPath (objs ++ flat_map objsOf xs) g'.
Proof.
  intros Hbody xs. induction xs as [|x xs IH]; intros objs g g' Hg.
  - simpl. intros [= <-]. by rewrite app_nil_r.
  - simpl. rewrite app_assoc.
    destruct (body x g) as [[g1 [err|]]|msg] eqn:Hx; [done| |done].
    intros Hrest. apply (IH _ g1); [|done].
    by apply (Hbody x objs g).
Qed.

Lemma resourceDirEntry_exact
    (fs : FS) (cl : Cluster) (backupPath resourceGVK resourceDirPath : string)
    (gvr : GroupVersionResource) (tr : option Transformer) (entry : dirent)
    (objs : list restoreObj) (g g' : graph) :
  graphExact cl backupPath objs g →
  resourceDirEntry fs cl backupPath resourceGVK resourceDirPath gvr tr
    entry g = Done (g', None) →
  graphExact cl backupPath
    (objs ++ resourceDirEntryObjects fs backupPath resourceGVK
               resourceDirPath gvr tr entry) g'.
Proof.
  unfold resourceDirEntry, resourceDirEntryObjects.
  destruct (IsDir entry).
  - destruct (ioutil_ReadDir fs _) as [resourceFiles|err]; [|done].
    intros Hg. apply forEach_exact; [|done].
    intros x objs' g1 g2. apply addToOwnersToDependentsList_exact.
  - apply addToOwnersToDependentsList_exact.
Qed.

Lemma backupEntryStep_exact
    (fs : FS) (cl : Cluster) (backupPath : string)
    (transformerMap : TransformerMap) (backupEntry : dirent)
    (objs : list restoreObj) (g g' : graph) :
  graphExact cl backupPath objs g →
  backupEntryStep fs cl backupPath transformerMap backupEntry g
  = Done (g', None) →
  graphExact cl backupPath
    (objs ++ backupEntryObjects fs backupPath transformerMap backupEntry) g'.
Proof.
  unfold backupEntryStep, backupEntryObjects.
  destruct (String.eqb (entryName backupEntry) "filters").
  - intros Hg [= <-]. by rewrite app_nil_r.
  - destruct (getGVR (entryName backupEntry)) as [gvr|msg]; [|done].
    destruct (ioutil_ReadDir fs _) as [resourceDirEntries|err]; [|done].
    intros Hg. apply forEach_exact; [|done].
    intros x objs' g1 g2. apply resourceDirEntry_exact.
Qed.

Lemma generateDependencyGraph_exact
    (fs : FS) (cl : Cluster) (backupPath : string)
    (transformerMap : TransformerMap) (g : graph) :
  generateDependencyGraph fs cl backupPath transformerMap emptyGraph
  = Done (g, None) →
  graphExact cl backupPath (archiveObjects fs backupPath transformerMap) g.
Proof.
  unfold generateDependencyGraph, archiveObjects.
  destruct (ioutil_ReadDir fs backupPath) as [backupEntries|err]; [|done].
  intros Hbuilt.
  apply (forEach_exact cl backupPath _ _
           (λ x objs g1 g2, backupEntryStep_exact fs cl backupPath
                              transformerMap x objs g1 g2)
           backupEntries [] emptyGraph g);
    [apply graphExact_empty|done].
Qed.

(** X21: when the graph builder comes through, the queue it hands to the
    replay is the objects of the archive that have no owner list, in the
    order of the walk: nothing else is queued and none of them is left
    out. *)
Theorem queue_is_ownerless_in_walk_order
    (fs : FS) (cl : Cluster) (backupPath : string)
    (transformerMap : TransformerMap) (g : graph) :
  generateDependencyGraph fs cl backupPath transformerMap emptyGraph
  = Done (g, None) →
  toRestore g
  = List.filter ownerless (archiveObjects fs backupPath transformerMap).
Proof.
  intros Hbuilt. by destruct (generateDependencyGraph_exact _ _ _ _ _ Hbuilt).
Qed.

(** X22: when the graph builder comes through, the dependents list of a
    path holds the objects of the archive whose owner list resolves to
    that path, in the order of the walk, each once for every entry that
    resolves to it. *)
Theorem dependents_are_resolving_objects
    (fs : FS) (cl : Cluster) (backupPath : string)
    (transformerMap : TransformerMap) (g : graph) (P : string) :
  generateDependencyGraph fs cl backupPath transformerMap emptyGraph
  = Done (g, None) →
  dependentsOf (ownerToDependentsList g) P
  = dependentsAmong cl backupPath P
      (archiveObjects fs backupPath transformerMap).
Proof.
  intros Hbuilt. by destruct (generateDependencyGraph_exact _ _ _ _ _ Hbuilt).
Qed.

End Exact.

(** The chain archive: catalog [a] is queued, template [b] is not. *)
Lemma queue_is_ownerless_in_walk_order_witness :
  toRestore (Scenario.builtGraph Scenario.chainArchive)
  = List.filter ownerless
      (archiveObjects (H := Scenario.world)
         (Scenario.unpacked Scenario.chainArchive) Scenario.root
         (λ _, None)).
Proof.
  apply (queue_is_ownerless_in_walk_order (H := Scenario.world)
           (Scenario.unpacked Scenario.chainArchive) ∅ Scenario.root
           (λ _, None) (Scenario.builtGraph Scenario.chainArchive)).
  vm_compute. reflexivity.
Defined.

(** The counting archive: template [x] is twice among the dependents of
    catalog [a]. *)
Lemma dependents_are_resolving_objects_witness :
  dependentsOf
    (ownerToDependentsList (Scenario.builtGraph Scenario.countingArchive))
    "/tmp/backup123/catalogs.management.cattle.io#v3/a.json"
  = dependentsAmong (H := Scenario.world) ∅ Scenario.root
      "/tmp/backup123/catalogs.management.cattle.io#v3/a.json"
      (archiveObjects (H := Scenario.world)
         (Scenario.unpacked Scenario.countingArchive) Scenario.root
         (λ _, None)).
Proof.
  apply (dependents_are_resolving_objects (H := Scenario.world)
           (Scenario.unpacked Scenario.countingArchive) ∅ Scenario.root
           (λ _, None) (Scenario.builtGraph Scenario.countingArchive)
           "/tmp/backup123/catalogs.management.cattle.io#v3/a.json").
  vm_compute. reflexivity.
Defined.

Lemma dependents_of_counting_archive :
  map Name
    (dependentsOf
       (ownerToDependentsList (Scenario.builtGraph Scenario.countingArchive))
       "/tmp/backup123/catalogs.management.cattle.io#v3/a.json")
  = ["x"; "x"].
Proof. vm_compute. reflexivity. Qed.

Section Live.
Context `{Collaborators}.

(** ** Objects the replay does reach *)

Lemma releaseDependents_queue (l : list restoreObj) (nums : gmap string nat)
    (queue : list restoreObj) (d : restoreObj) :
  d ∈ queue → d ∈ (releaseDependents l nums queue).2.
Proof.
  revert nums queue. induction l as [|x t IH]; intros nums queue Hd;
    cbn [releaseDependents]; [done|].
  apply IH. destruct (decide _); [|done]. apply elem_of_app. by left.
Qed.

(** The loop over the dependents takes one off a count for every
    occurrence of its path, as long as the count covers them. *)
Lemma releaseDependents_count (l : list restoreObj) (nums : gmap string nat)
    (queue : list restoreObj) (k : string) :
  occurrencesOf k l ≤ count nums k →
  count (releaseDependents l nums queue).1 k
  = count nums k - occurrencesOf k l.
Proof.
  revert nums queue. induction l as [|x t IH]; intros nums queue.
  - unfold occurrencesOf. simpl. lia.
  - cbn [releaseDependents]. rewrite occurrencesOf_cons.
    destruct (decide (ResourceConfigPath x = k)) as [<-|Hne]; intros Hle.
    + rewrite (decide_True (P := 0 < _)) by lia.
      rewrite IH; rewrite count_insert, decide_True by done; lia.
    + destruct (decide (0 < count nums (ResourceConfigPath x))).
      * rewrite IH; rewrite count_insert, decide_False by done; lia.
      * rewrite IH; lia.
Qed.

(** An object whose count that loop brings to zero is queued by it. *)
Lemma releaseDependents_enqueues (l : list restoreObj)
    (nums : gmap string nat) (queue : list restoreObj) (k : string) :
  0 < occurrencesOf k l →
  count nums k = occurrencesOf k l →
  ∃ x, x ∈ l ∧ ResourceConfigPath x = k
       ∧ x ∈ (releaseDependents l nums queue).2.
Proof.
  revert nums queue. induction l as [|x t IH]; intros nums queue.
  - unfold occurrencesOf. simpl. lia.
  - cbn [releaseDependents]. rewrite occurrencesOf_cons.
    destruct (decide (ResourceConfigPath x = k)) as [<-|Hne];
      intros Hpos Hcount.
    + rewrite (decide_True (P := 0 < _)) by lia.
      destruct (decide (0 < occurrencesOf (ResourceConfigPath x) t))
        as [Hmore|Hlast].
      * edestruct IH as (x' & Hin & Hpath & Hq); [exact Hmore| |].
        2:{ exists x'. split; [by right|]. split; [done|exact Hq]. }
        rewrite count_insert, decide_True by done. lia.
      * exists x. split; [left|]. split; [done|].
        apply releaseDependents_queue.
        rewrite decide_True
          by (rewrite count_insert, decide_True by done; lia).
        apply elem_of_app. right. left.
    + edestruct IH as (x' & Hin & Hpath & Hq); [exact Hpos| |].
      2:{ exists x'. split; [by right|]. split; [done|exact Hq]. }
      destruct (decide (0 < _)); [|lia].
      rewrite count_insert, decide_False by done. lia.
Qed.

Lemma unresolved_nil (cl : Cluster) (backupPath : string) (d : restoreObj) :
  unresolved cl backupPath [] d = length (ownerTargets cl backupPath d).
Proof.
  unfold unresolved.
  induction (ownerTargets cl backupPath d) as [|P l IH]; [done|].
  rewrite filter_cons, decide_True by apply not_elem_of_nil.
  cbn [length]. f_equal. exact IH.
Qed.

Lemma ownerTargets_has_list (cl : Cluster) (backupPath : string)
    (d : restoreObj) :
  ownerTargets cl backupPath d ≠ [] → ∃ refs, ownerRefsOf d = Some refs.
Proof.
  unfold ownerTargets. destruct (ownerRefsOf d) as [refs|]; [eauto|done].
Qed.

Lemma appliedObjects_called (log : list applyRecord) (a : restoreObj) :
  a ∈ appliedObjects log → ∃ r, r ∈ log ∧ arObj r = a.
Proof.
  unfold appliedObjects. intros Ha.
  apply list_elem_of_omap in Ha as (r & Hr & Hres).
  exists r. split; [done|].
  destruct (arResult r) as [[err|]|msg]; by simplify_eq.
Qed.

Lemma attempted_snoc (created0 : gmap string bool) (log : list applyRecord)
    (r : applyRecord) (d : restoreObj) :
  attempted created0 log d ∨ arObj r = d →
  attempted created0 (log ++ [r]) d.
Proof.
  intros [[H0|(r' & Hr' & Hd)]|Hd].
  - by left.
  - right. exists r'. split; [|done]. apply elem_of_app. by left.
  - right. exists r. split; [|done]. apply elem_of_app. right. left.
Qed.

Lemma initialReplay_live (cl cl' : Cluster) (backupPath : string)
    (objs : list restoreObj) (g : graph) (created : gmap string bool) :
  graphOf cl backupPath objs g →
  graphExact cl backupPath objs g →
  replayLive cl backupPath objs created
    (initialReplay created (numOwnerReferences g) (toRestore g) cl').
Proof.
  intros [Gq Gk Gc Gl] [Eq Ed]. split; simpl.
  - intros d refs Hd Hrefs. rewrite unresolved_nil.
    pose proof (ownerTargets_length cl backupPath d refs Hrefs).
    unfold count, skippedOwners. rewrite (Gc d refs Hd Hrefs), Hrefs.
    simpl. lia.
  - intros d Hd [Hnone|[Htargets Hzero]].
    + left. rewrite Eq. apply list_elem_of_In, List.filter_In.
      split; [by apply list_elem_of_In|].
      unfold ownerless. by rewrite Hnone.
    + exfalso. destruct (ownerTargets_has_list _ _ _ Htargets)
        as [refs Hrefs].
      pose proof (ownerTargets_length cl backupPath d refs Hrefs).
      unfold count in Hzero. rewrite (Gc d refs Hd Hrefs) in Hzero.
      simpl in Hzero.
      destruct (ownerTargets cl backupPath d); [done|simpl in *; lia].
Qed.

Lemma replayStep_live (cl : Cluster) (backupPath : string)
    (objs : list restoreObj) (g : graph) (created0 status : gmap string bool)
    (st st' : replayState) (e : option string) :
  graphOf cl backupPath objs g →
  distinctPaths objs →
  replayInv cl backupPath objs created0 st →
  replayBooks created0 st →
  replayLive cl backupPath objs created0 st →
  replayStep (ownerToDependentsList g) status st = Some (st', e) →
  replayLive cl backupPath objs created0 st'.
Proof.
  intros [Gq Gk Gc Gl] Hnd [Hq Hc Hcr Hk Hf Ho] [_ Bcreated _ _] [Lc Lr].
  unfold replayStep.
  destruct (rsToRestore st) as [|curr rest] eqn:Hqueue; [done|].
  destruct (flag (rsCreated st) (ResourceConfigPath curr)) eqn:Hfresh.
  { intros [= <- <-]. split; simpl; [done|].
    intros d Hd Hready. destruct (Lr d Hd Hready) as [Hin|Hatt]; [|by right].
    apply elem_of_cons in Hin as [->|Hin]; [|by left].
    right. apply Bcreated in Hfresh as [H0|Happlied]; [by left|].
    right. unfold appliedPaths in Happlied.
    apply list_elem_of_fmap in Happlied as (a & Hpath & Ha).
    assert (a ∈ objs) as Hobj.
    { apply list_elem_of_lookup in Ha as [i Hi]. by destruct (Ho i a Hi). }
    assert (a = curr) as -> by eauto using distinctPaths_eq.
    by apply appliedObjects_called. }
  assert (Hpop : ∀ evs res d, d ∈ objs →
            ready cl backupPath (rsNumOwnerReferences st) d →
            d ∈ rest
            ∨ attempted created0
                (rsLog st ++ [{| arObj := curr; arEvents := evs;
                                 arResult := res |}]) d).
  { intros evs res d Hd Hready.
    destruct (Lr d Hd Hready) as [Hin|Hatt].
    - apply elem_of_cons in Hin as [->|Hin]; [right|by left].
      apply attempted_snoc. by right.
    - right. apply attempted_snoc. by left. }
  destruct (restoreResource _ _ _ _) as [[cl' evs] res].
  destruct res as [[err|]|msg].
  { intros [= <- <-]. split; simpl.
    - by rewrite appliedPaths_snoc, app_nil_r.
    - eauto. }
  2:{ intros [= <- <-]. split; simpl.
      - by rewrite appliedPaths_snoc, app_nil_r.
      - eauto. }
  set (P := ResourceConfigPath curr) in *.
  set (done := appliedPaths (rsLog st)) in *.
  assert (Hnew : P ∉ done).
  { intros HP. apply Hcr in HP. congruence. }
  assert (Hcover : ∀ d refs, d ∈ objs → ownerRefsOf d = Some refs →
            count (rsNumOwnerReferences st) (ResourceConfigPath d)
            = unresolved cl backupPath (done ++ [P]) d
              + skippedOwners cl backupPath d
              + occurrencesOf (ResourceConfigPath d)
                  (dependentsOf (ownerToDependentsList g) P)).
  { intros d refs Hd Hrefs. rewrite (Lc d refs Hd Hrefs).
    rewrite (unresolved_snoc cl backupPath done P d Hnew).
    rewrite Gl by done. lia. }
  pose proof (releaseDependents_count
                (dependentsOf (ownerToDependentsList g) P)
                (rsNumOwnerReferences st) rest) as Hcount.
  pose proof (releaseDependents_enqueues
                (dependentsOf (ownerToDependentsList g) P)
                (rsNumOwnerReferences st) rest) as Henq.
  pose proof (releaseDependents_queue
                (dependentsOf (ownerToDependentsList g) P)
                (rsNumOwnerReferences st) rest) as Hmono.
  destruct (releaseDependents _ _ _) as [nums' queue'].
  simpl in Hcount, Henq, Hmono.
  intros [= <- <-].
  split; cbn [rsToRestore rsNumOwnerReferences rsLog].
  - intros d refs Hd Hrefs. rewrite appliedPaths_snoc. simpl.
    fold done. specialize (Hcover d refs Hd Hrefs).
    fold P. rewrite Hcount; lia.
  - intros d Hd [Hnone|[Htargets Hzero]].
    + destruct (Hpop evs (Done None) d Hd) as [Hin|Hatt];
        [by left|left; eauto|by right].
    + destruct (ownerTargets_has_list _ _ _ Htargets) as [refs Hrefs].
      specialize (Hcover d refs Hd Hrefs).
      rewrite Hcount in Hzero by lia.
      destruct (decide (count (rsNumOwnerReferences st)
                          (ResourceConfigPath d) = 0)) as [Hwas|Hpos].
      * destruct (Hpop evs (Done None) d Hd) as [Hin|Hatt];
          [right; by split|left; eauto|by right].
      * destruct (Henq (ResourceConfigPath d)) as (x & Hx & Hpath & Hin);
          [lia..|].
        assert (x = d) as -> by eauto using distinctPaths_eq.
        by left.
Qed.

Lemma replayStep_None (deps : gmap string (list restoreObj))
    (status : gmap string bool) (st : replayState) :
  replayStep deps status st = None → rsToRestore st = [].
Proof.
  unfold replayStep. destruct (rsToRestore st) as [|curr rest]; [done|].
  destruct (flag _ _); [done|].
  destruct (restoreResource _ _ _ _) as [[cl' evs] [[err|]|msg]];
    try done.
  by destruct (releaseDependents _ _ _).
Qed.

Lemma replayLoop_drained (deps : gmap string (list restoreObj))
    (status : gmap string bool) (fuel : nat) (st : replayState) :
  (replayLoop fuel deps status st).2 = Drained →
  rsToRestore (replayLoop fuel deps status st).1 = [].
Proof.
  revert st. induction fuel as [|fuel IH]; intros st; simpl;
    destruct (replayStep deps status st) as [[st' [msg|]]|] eqn:Hstep;
    simpl; try done; eauto using replayStep_None.
Qed.

Lemma createFromDependencyGraph_live (cl cl' : Cluster)
    (backupPath : string) (objs : list restoreObj) (g : graph)
    (created status : gmap string bool) :
  graphOf cl backupPath objs g →
  graphExact cl backupPath objs g →
  distinctPaths objs →
  replayLive cl backupPath objs created
    (createFromDependencyGraph (ownerToDependentsList g) created
       (numOwnerReferences g) (toRestore g) status cl').1.
Proof.
  intros Hg Hex Hnd. unfold createFromDependencyGraph.
  assert (Hloop : ∀ fuel st0,
             replayInv cl backupPath objs created st0 →
             replayBooks created st0 →
             replayLive cl backupPath objs created st0 →
             replayLive cl backupPath objs created
               (replayLoop fuel (ownerToDependentsList g) status st0).1).
  { induction fuel as [|fuel IH]; intros st0 Hinv Hbooks Hlive; simpl;
      destruct (replayStep (ownerToDependentsList g) status st0)
        as [[st' [msg|]]|] eqn:Hstep;
      simpl;
      eauto using replayStep_live, replayStep_inv, replayStep_books. }
  specialize (Hloop (replayFuel (ownerToDependentsList g) created
                       (toRestore g))
                (initialReplay created (numOwnerReferences g) (toRestore g)
                   cl')
                (initialReplay_inv cl cl' backupPath objs g created Hg)
                (initialReplay_books created (numOwnerReferences g)
                   (toRestore g) cl')
                (initialReplay_live cl cl' backupPath objs g created Hg
                   Hex)).
  by destruct (replayLoop _ _ _ _).
Qed.

(** X23: the replay leaves no released object out.  When the builder
    came through on an archive whose files have different paths and the
    replay returned (it did not panic), every object of the archive whose
    owner list is absent, or is not empty, has every entry resolve and
    has every owner path among those applied, was either created before
    the replay or handed to [restoreResource] by it. *)
Theorem released_object_is_attempted
    (fs : FS) (cl cl' : Cluster) (backupPath : string)
    (transformerMap : TransformerMap) (g : graph)
    (created status : gmap string bool) (res : option error)
    (d : restoreObj) :
  generateDependencyGraph fs cl backupPath transformerMap emptyGraph
  = Done (g, None) →
  distinctPaths (archiveObjects fs backupPath transformerMap) →
  let replay :=
    createFromDependencyGraph (ownerToDependentsList g) created
      (numOwnerReferences g) (toRestore g) status cl' in
  replay.2 = Done res →
  d ∈ archiveObjects fs backupPath transformerMap →
  ownerRefsOf d ≠ Some [] →
  skippedOwners cl backupPath d = 0 →
  (∀ P, P ∈ ownerTargets cl backupPath d →
        P ∈ appliedPaths (rsLog replay.1)) →
  attempted created (rsLog replay.1) d.
Proof.
  intros Hbuilt Hnd replay Hres Hd Hlist Hskipped Howners.
  pose proof (generateDependencyGraph_graphOf _ _ _ _ _ Hbuilt Hnd) as Hg.
  pose proof (generateDependencyGraph_exact _ _ _ _ _ Hbuilt) as Hex.
  pose proof (createFromDependencyGraph_live cl cl' backupPath _ g created
                status Hg Hex Hnd) as [Lc Lr].
  fold replay in Lc, Lr.
  assert (rsToRestore replay.1 = []) as Hempty.
  { subst replay. unfold createFromDependencyGraph in *.
    pose proof (replayLoop_drained (ownerToDependentsList g) status
                  (replayFuel (ownerToDependentsList g) created
                     (toRestore g))
                  (initialReplay created (numOwnerReferences g)
                     (toRestore g) cl')) as Hdrained.
    destruct (replayLoop _ _ _ _) as [st [| |]]; simpl in *;
      [by apply Hdrained|done..]. }
  destruct (Lr d Hd) as [Hin|Hatt]; [| |done].
  2:{ rewrite Hempty in Hin. by apply elem_of_nil in Hin. }
  destruct (ownerRefsOf d) as [refs|] eqn:Hrefs; [right|by left].
  assert (unresolved cl backupPath (appliedPaths (rsLog replay.1)) d = 0)
    as Hnone.
  { unfold unresolved.
    destruct (filter _ _) as [|P l] eqn:Hfilter; [done|].
    assert (P ∈ filter (λ P, P ∉ appliedPaths (rsLog replay.1))
                  (ownerTargets cl backupPath d)) as HP
      by (rewrite Hfilter; left).
    apply list_elem_of_filter in HP as [Hout HP].
    destruct (Hout (Howners P HP)). }
  split.
  - unfold skippedOwners in Hskipped. rewrite Hrefs in Hskipped.
    simpl in Hskipped.
    destruct (ownerTargets cl backupPath d) eqn:Ht; [|done].
    destruct refs; [done|simpl in *; lia].
  - rewrite (Lc d refs Hd Hrefs). lia.
Qed.

End Live.

(** Template [b] of the chain archive: its one owner, catalog [a], is
    applied, and the replay calls [restoreResource] for [b]. *)
Lemma released_object_is_attempted_witness :
  attempted ∅
    (rsLog (createFromDependencyGraph (H := Scenario.world)
              (ownerToDependentsList
                 (Scenario.builtGraph Scenario.chainArchive))
              ∅
              (numOwnerReferences
                 (Scenario.builtGraph Scenario.chainArchive))
              (toRestore (Scenario.builtGraph Scenario.chainArchive))
              ∅ ∅).1)
    (Scenario.objectAt Scenario.chainArchive 1).
Proof.
  apply (released_object_is_attempted (H := Scenario.world)
           (Scenario.unpacked Scenario.chainArchive) ∅ ∅ Scenario.root
           (λ _, None) (Scenario.builtGraph Scenario.chainArchive)
           ∅ ∅ None (Scenario.objectAt Scenario.chainArchive 1)).
  - vm_compute. reflexivity.
  - unfold distinctPaths. apply (bool_decide_unpack _). vm_compute. exact I.
  - vm_compute. reflexivity.
  - apply (list_elem_of_lookup_2 _ 1). vm_compute. reflexivity.
  - vm_compute. discriminate.
  - vm_compute. reflexivity.
  - apply Forall_forall. apply (bool_decide_unpack _). vm_compute. exact I.
Defined.

Section Owners.
Context `{Collaborators}.

(** ** Owners the cluster does not give *)

(** X24: when the rewrite of the owner references of an object fails (an
    owner that cannot be read from the cluster, an apiVersion that does
    not parse, a kind without a mapping), [restoreResource] returns that
    error having made no write: the object is neither created nor
    updated, and the only calls made were the reads of the owners. *)
Theorem failed_owner_rewrite_prevents_write
    (cl cl' : Cluster) (d : restoreObj) (gvr : GroupVersionResource)
    (hasStatusSubresource : bool) (fileMap fileMapMetadata : object)
    (name : string) (ownerReferences : list JSON) (evs : list event)
    (err : error) :
  Data d = Some fileMap →
  asObject (lookupField fileMap metadataMapKey) = Some fileMapMetadata →
  asString (lookupField fileMapMetadata "name") = Some name →
  asArray (lookupField fileMapMetadata ownerRefsMapKey)
  = Some ownerReferences →
  updateOwnerRefs cl ownerReferences
    (default "" (asString (lookupField fileMapMetadata "namespace")))
  = (cl', evs, Done (inr err)) →
  restoreResource cl d gvr hasStatusSubresource = (cl', evs, Done (Some err))
  ∧ Forall (λ e, isGet e = true) evs.
Proof.
  intros Hdata Hmeta Hname Hrefs Hu. split.
  - unfold restoreResource. by rewrite Hdata, Hmeta, Hname, Hrefs, Hu.
  - pose proof (updateOwnerRefs_gets cl ownerReferences
                  (default "" (asString (lookupField fileMapMetadata
                                           "namespace")))) as Hg.
    by rewrite Hu in Hg.
Qed.

End Owners.

(** Template [b] of the chain archive applied to a cluster without
    catalog [a]: the read of [a] fails and [b] is not written. *)
Lemma failed_owner_rewrite_prevents_write_witness :
  restoreResource (H := Scenario.world) ∅
    (Scenario.objectAt Scenario.chainArchive 1)
    (GVR (Scenario.objectAt Scenario.chainArchive 1)) true
  = (∅, [EvGet Scenario.catalogsGVR "" "a"],
     Done (Some (ErrPlain "error obtaining new UID for a: not found")))
  ∧ Forall (λ e, isGet e = true) [EvGet Scenario.catalogsGVR "" "a"].
Proof.
  apply (failed_owner_rewrite_prevents_write (H := Scenario.world) ∅ ∅
           (Scenario.objectAt Scenario.chainArchive 1)
           (GVR (Scenario.objectAt Scenario.chainArchive 1)) true
           (default [] (Data (Scenario.objectAt Scenario.chainArchive 1)))
           (("name", JString "b")
            :: Scenario.owners
                 [Scenario.ownerRef "management.cattle.io/v3" "Catalog" "a"])
           "b" [Scenario.ownerRef "management.cattle.io/v3" "Catalog" "a"]
           [EvGet Scenario.catalogsGVR "" "a"]
           (ErrPlain "error obtaining new UID for a: not found")).
  - vm_compute. reflexivity.
  - vm_compute. reflexivity.
  - reflexivity.
  - reflexivity.
  - vm_compute. reflexivity.
Defined.

Section Continuing.
Context `{Collaborators}.

(** ** A failed apply does not stop the replay *)

(** No object of the queue the loop was given is dropped: it is still in
    the queue, its path is created, or a call was made for it. *)
Lemma replayStep_tried (deps : gmap string (list restoreObj))
    (status : gmap string bool) (queue0 : list restoreObj)
    (st st' : replayState) (e : option string) :
  (∀ d, d ∈ queue0 →
        d ∈ rsToRestore st
        ∨ flag (rsCreated st) (ResourceConfigPath d) = true
        ∨ ∃ r, r ∈ rsLog st ∧ arObj r = d) →
  replayStep deps status st = Some (st', e) →
  ∀ d, d ∈ queue0 →
       d ∈ rsToRestore st'
       ∨ flag (rsCreated st') (ResourceConfigPath d) = true
       ∨ ∃ r, r ∈ rsLog st' ∧ arObj r = d.
Proof.
  intros Hinv. unfold replayStep.
  destruct (rsToRestore st) as [|curr rest] eqn:Hqueue; [done|].
  destruct (flag (rsCreated st) (ResourceConfigPath curr)) eqn:Hfresh.
  { intros [= <- <-] d Hd. simpl.
    destruct (Hinv d Hd) as [Hin|[Hc|Hr]]; [|by right; left|by right; right].
    apply elem_of_cons in Hin as [->|Hin]; [by right; left|by left]. }
  assert (Hpop : ∀ evs res d, d ∈ queue0 →
            d ∈ rest
            ∨ flag (rsCreated st) (ResourceConfigPath d) = true
            ∨ ∃ r, r ∈ rsLog st ++ [{| arObj := curr; arEvents := evs;
                                       arResult := res |}]
                   ∧ arObj r = d).
  { intros evs res d Hd.
    destruct (Hinv d Hd) as [Hin|[Hc|(r & Hr & Hobj)]].
    - apply elem_of_cons in Hin as [->|Hin]; [|by left].
      right. right.
      exists {| arObj := curr; arEvents := evs; arResult := res |}.
      split; [|done]. apply elem_of_app. right. left.
    - by right; left.
    - right. right. exists r. split; [|done]. apply elem_of_app. by left. }
  destruct (restoreResource _ _ _ _) as [[cl' evs] res].
  destruct res as [[err|]|msg].
  - intros [= <- <-] d Hd. simpl. exact (Hpop _ _ d Hd).
  - pose proof (releaseDependents_queue
                  (dependentsOf deps (ResourceConfigPath curr))
                  (rsNumOwnerReferences st) rest) as Hmono.
    destruct (releaseDependents _ _ _) as [nums' queue'].
    intros [= <- <-] d Hd. simpl in *.
    destruct (Hpop evs (Done None) d Hd) as [Hin|[Hc|Hr]];
      [left; eauto| |by right; right].
    right. left. rewrite flag_insert. by destruct (decide _).
  - intros [= <- <-] d Hd. simpl. exact (Hpop _ _ d Hd).
Qed.

(** X26: a failed apply does not stop the replay.  When the loop
    returns, what it returns is the aggregate of the errors of all the
    calls that returned one, in the order of the calls, and every object
    of the queue it was given was handed to [restoreResource], or passed
    over because its path was created: the objects queued behind one
    whose apply failed are still tried. *)
Theorem createFromDependencyGraph_collects
    (deps : gmap string (list restoreObj)) (created : gmap string bool)
    (nums : gmap string nat) (toRestore : list restoreObj)
    (status : gmap string bool) (cl : Cluster) (res : option error)
    (d : restoreObj) :
  let replay :=
    createFromDependencyGraph deps created nums toRestore status cl in
  replay.2 = Done res →
  d ∈ toRestore →
  rsErrList replay.1 = loggedErrors (rsLog replay.1)
  ∧ res = ErrList (loggedErrors (rsLog replay.1))
  ∧ (flag (rsCreated replay.1) (ResourceConfigPath d) = true
     ∨ ∃ r, r ∈ rsLog replay.1 ∧ arObj r = d).
Proof.
  intros replay Hres Hd. subst replay.
  unfold createFromDependencyGraph in *.
  assert (Hloop : ∀ fuel st0,
             rsErrList st0 = loggedErrors (rsLog st0) →
             (∀ d, d ∈ toRestore →
                   d ∈ rsToRestore st0
                   ∨ flag (rsCreated st0) (ResourceConfigPath d) = true
                   ∨ ∃ r, r ∈ rsLog st0 ∧ arObj r = d) →
             let st := (replayLoop fuel deps status st0).1 in
             rsErrList st = loggedErrors (rsLog st)
             ∧ ∀ d, d ∈ toRestore →
                    d ∈ rsToRestore st
                    ∨ flag (rsCreated st) (ResourceConfigPath d) = true
                    ∨ ∃ r, r ∈ rsLog st ∧ arObj r = d).
  { induction fuel as [|fuel IH]; intros st0 Herrs Hinv; simpl;
      destruct (replayStep deps status st0) as [[st' [msg|]]|] eqn:Hstep;
      simpl; eauto using replayStep_errors, replayStep_tried. }
  specialize (Hloop (replayFuel deps created toRestore)
                (initialReplay created nums toRestore cl) eq_refl).
  pose proof (replayLoop_drained deps status
                (replayFuel deps created toRestore)
                (initialReplay created nums toRestore cl)) as Hdrained.
  destruct (replayLoop _ _ _ _) as [st [| |]]; simpl in *; [|done..].
  destruct Hloop as [Herrs Htried]; [by left|].
  split; [done|]. split; [congruence|].
  destruct (Htried d Hd) as [Hin|[Hc|Hr]]; [|by left|by right].
  rewrite Hdrained in Hin by done. by apply elem_of_nil in Hin.
Qed.

End Continuing.

(** The archive with catalog [broken], which the cluster refuses, queued
    before catalog [fine]: the refusal is returned and [fine] was tried. *)
Lemma createFromDependencyGraph_collects_witness :
  let replay :=
    createFromDependencyGraph (H := Scenario.world)
      (ownerToDependentsList (Scenario.builtGraph Scenario.failingArchive))
      ∅ (numOwnerReferences (Scenario.builtGraph Scenario.failingArchive))
      (toRestore (Scenario.builtGraph Scenario.failingArchive)) ∅ ∅ in
  rsErrList replay.1 = loggedErrors (rsLog replay.1)
  ∧ Some (ErrComposite [ErrPlain "admission webhook denied the request"])
    = ErrList (loggedErrors (rsLog replay.1))
  ∧ (flag (rsCreated replay.1)
       (ResourceConfigPath (Scenario.objectAt Scenario.failingArchive 1))
     = true
     ∨ ∃ r, r ∈ rsLog replay.1
            ∧ arObj r = Scenario.objectAt Scenario.failingArchive 1).
Proof.
  apply (createFromDependencyGraph_collects (H := Scenario.world)
           (ownerToDependentsList
              (Scenario.builtGraph Scenario.failingArchive))
           ∅ (numOwnerReferences
                (Scenario.builtGraph Scenario.failingArchive))
           (toRestore (Scenario.builtGraph Scenario.failingArchive)) ∅ ∅
           (Some (ErrComposite
                    [ErrPlain "admission webhook denied the request"]))
           (Scenario.objectAt Scenario.failingArchive 1)).
  - vm_compute. reflexivity.
  - apply (list_elem_of_lookup_2 _ 1). vm_compute. reflexivity.
Defined.

(** In that run the call for [broken] comes first and fails, the call for
    [fine] comes second and returns nil. *)
Lemma failed_apply_is_followed :
  map (λ r, (Name (arObj r), arResult r))
    (rsLog (Scenario.replayOf Scenario.failingArchive ∅ ∅))
  = [("broken",
      Done (Some (ErrPlain "admission webhook denied the request")));
     ("fine", Done None)].
Proof. vm_compute. reflexivity. Qed.
